(** * classic.py: the 1inch swap workflow (InchSwapper)

    A shallow embedding of [src/classic.py].  Python values that travel
    through JSON payloads and transaction dictionaries are an inductive
    type; dictionaries are insertion-ordered association lists; the two
    external collaborators (the quoting service reached over HTTP and the
    chain node reached over JSON-RPC) are oracles collected in a record,
    and every call to them is appended to an event trace that is threaded
    through the code together with Python's exceptions. *)

From Stdlib Require Import ZArith List String Ascii Bool Lia.
From Stdlib Require Import SpecFloat DecimalString.
Import ListNotations.

Local Open Scope string_scope.
Local Open Scope Z_scope.

Set Warnings "-register-all".

(* ================================================================== *)
(** ** Python values *)
(* ================================================================== *)

(** What [response.json()] can return, and what a transaction dictionary
    holds.  Strings are byte strings (UTF-8); a float is an IEEE-754
    binary float in the specification format of the standard library. *)
Inductive value : Type :=
| VNone
| VBool (b : bool)
| VInt (z : Z)
| VFloat (f : spec_float)
| VStr (s : string)
| VList (l : list value)
| VDict (d : list (string * value)).

Definition dict := list (string * value).

(** Exceptions, by the classes the source distinguishes
    ([requests.exceptions.RequestException] against everything else). *)
Inductive exn_class :=
| RequestException | ValueError | TypeError | KeyError
| AttributeError | OverflowError | OtherError.

Inductive exn := Exn (c : exn_class) (msg : string).

Definition exn_str (e : exn) : string := let 'Exn _ m := e in m.

Definition is_RequestException (e : exn) : bool :=
  match e with Exn RequestException _ => true | _ => false end.

Inductive result (A : Type) :=
| Ok (a : A)
| Raise (e : exn).
Arguments Ok {A} a.
Arguments Raise {A} e.

(* ------------------------------------------------------------------ *)
(** *** Dictionaries *)

Fixpoint dict_get (k : string) (d : dict) : option value :=
  match d with
  | [] => None
  | (k', v) :: d' => if String.eqb k k' then Some v else dict_get k d'
  end.

(** [d[k] = v]: overwrite in place, or append a new key. *)
Fixpoint dict_set (k : string) (v : value) (d : dict) : dict :=
  match d with
  | [] => [(k, v)]
  | (k', v') :: d' =>
      if String.eqb k k' then (k', v) :: d' else (k', v') :: dict_set k v d'
  end.

(* ------------------------------------------------------------------ *)
(** *** Strings *)

Definition ascii_lower (c : ascii) : ascii :=
  let n := nat_of_ascii c in
  if (Nat.leb 65 n && Nat.leb n 90)%bool then ascii_of_nat (n + 32) else c.

Definition ascii_upper (c : ascii) : ascii :=
  let n := nat_of_ascii c in
  if (Nat.leb 97 n && Nat.leb n 122)%bool then ascii_of_nat (n - 32) else c.

(** [s.lower()] on the ASCII letters. *)
Fixpoint str_lower (s : string) : string :=
  match s with
  | EmptyString => EmptyString
  | String c s' => String (ascii_lower c) (str_lower s')
  end.

(** [s.startswith(p)] *)
Definition startswith (p s : string) : bool := String.prefix p s.

Fixpoint str_forallb (f : ascii -> bool) (s : string) : bool :=
  match s with
  | EmptyString => true
  | String c s' => f c && str_forallb f s'
  end.

(** Value of a digit character in bases up to 16. *)
Definition digit_value (c : ascii) : option Z :=
  let n := Z.of_nat (nat_of_ascii c) in
  if (48 <=? n) && (n <=? 57) then Some (n - 48)
  else if (97 <=? n) && (n <=? 102) then Some (n - 87)
  else if (65 <=? n) && (n <=? 70) then Some (n - 55)
  else None.

Definition is_hex_digit (c : ascii) : bool :=
  match digit_value c with Some _ => true | None => false end.

(* ------------------------------------------------------------------ *)
(** *** The builtin [int] *)

(** White space that [int] strips around a literal. *)
Definition is_space (c : ascii) : bool :=
  let n := nat_of_ascii c in
  ((Nat.leb 9 n && Nat.leb n 13) || (Nat.leb 28 n && Nat.leb n 32))%bool.

Fixpoint lstrip (s : string) : string :=
  match s with
  | String c s' => if is_space c then lstrip s' else s
  | EmptyString => EmptyString
  end.

(** The digits of a literal in [base], read left to right into [acc].
    [prev] tells whether the previous character was a digit: a single
    underscore is allowed between two digits.  After the last digit only
    white space may follow. *)
Fixpoint parse_digits (base : Z) (s : string) (prev : bool) (acc : Z)
  : option Z :=
  match s with
  | EmptyString => if prev then Some acc else None
  | String c s' =>
      match digit_value c with
      | Some d =>
          if d <? base then parse_digits base s' true (acc * base + d)
          else None
      | None =>
          if Ascii.eqb c "_" then
            if prev then
              match s' with
              | String c' _ =>
                  match digit_value c' with
                  | Some d' =>
                      if d' <? base then parse_digits base s' false acc
                      else None
                  | None => None
                  end
              | EmptyString => None
              end
            else None
          else if prev && str_forallb is_space s then Some acc
          else None
      end
  end.

(** A base-16 literal may start with [0x] or [0X], and one underscore may
    follow that prefix. *)
Definition skip_hex_prefix (s : string) : string :=
  match s with
  | String "0" (String x r) =>
      if Ascii.eqb x "x" || Ascii.eqb x "X" then
        match r with
        | String "_" r' => r'
        | _ => r
        end
      else s
  | _ => s
  end.

(** [int(s, base)] for [base] 10 or 16; [None] is [ValueError].  Only
    ASCII digits and ASCII white space are recognised, and no limit is
    put on the number of digits. *)
Definition int_of_string (base : Z) (s : string) : option Z :=
  let s1 := lstrip s in
  let '(neg, s2) :=
    match s1 with
    | String "-" r => (true, r)
    | String "+" r => (false, r)
    | _ => (false, s1)
    end in
  let s3 := if base =? 16 then skip_hex_prefix s2 else s2 in
  match parse_digits base s3 false 0 with
  | Some n => Some (if neg then - n else n)
  | None => None
  end.

(** [int(f)] for a float: truncation towards zero. *)
Definition int_of_float (f : spec_float) : result Z :=
  match f with
  | S754_zero _ => Ok 0
  | S754_infinity _ =>
      Raise (Exn OverflowError "cannot convert float infinity to integer")
  | S754_nan => Raise (Exn ValueError "cannot convert float NaN to integer")
  | S754_finite s m e =>
      let a := if 0 <=? e then Z.pos m * 2 ^ e else Z.pos m / 2 ^ (- e) in
      Ok (if s then - a else a)
  end.

(** [int(v)] *)
Definition py_int (v : value) : result Z :=
  match v with
  | VInt z => Ok z
  | VBool b => Ok (if b then 1 else 0)
  | VFloat f => int_of_float f
  | VStr s =>
      match int_of_string 10 s with
      | Some z => Ok z
      | None => Raise (Exn ValueError "invalid literal for int() with base 10")
      end
  | VNone | VList _ | VDict _ =>
      Raise (Exn TypeError
        "int() argument must be a string, a bytes-like object or a real number")
  end.

(** [isinstance(v, int)]: [bool] is a subclass of [int]. *)
Definition isinstance_int (v : value) : bool :=
  match v with VInt _ | VBool _ => true | _ => false end.

(** [v == 0] *)
Definition eq_zero (v : value) : bool :=
  match v with
  | VInt z => z =? 0
  | VBool b => negb b
  | VFloat (S754_zero _) => true
  | _ => false
  end.

(** Truth value of a Python object, as [if x:] tests it. *)
Definition truthy (v : value) : bool :=
  match v with
  | VNone => false
  | VBool b => b
  | VInt z => negb (z =? 0)
  | VFloat (S754_zero _) => false
  | VFloat _ => true
  | VStr s => negb (String.eqb s EmptyString)
  | VList l => match l with [] => false | _ => true end
  | VDict d => match d with [] => false | _ => true end
  end.

Definition string_of_Z (z : Z) : string :=
  DecimalString.NilZero.string_of_int (Z.to_int z).

(** A value used with dictionary syntax ([x in v], [v[k]], [v[k] = x]).
    On anything but a dictionary the source's key tests and item
    assignments raise [TypeError] before the next step is reached. *)
Definition as_dict (v : value) : result dict :=
  match v with
  | VDict d => Ok d
  | _ => Raise (Exn TypeError "object does not support item assignment")
  end.

(* ================================================================== *)
(** ** Web3.to_checksum_address (EIP-55) *)
(* ================================================================== *)

Definition remove_0x_prefix (s : string) : string :=
  match s with
  | String "0" (String x r) =>
      if Ascii.eqb x "x" || Ascii.eqb x "X" then r else s
  | _ => s
  end.

(** Forty hexadecimal digits. *)
Definition is_hex_body (b : string) : bool :=
  Nat.eqb (String.length b) 40 && str_forallb is_hex_digit b.

(** [int(h, 16) > 7] for one digit of the hash. *)
Definition nibble_gt7 (h : ascii) : bool :=
  match digit_value h with Some d => 7 <? d | None => false end.

(** Character [i] of the lower-case body is upper-cased when digit [i] of
    the hash of that body is above 7. *)
Fixpoint checksum_case (hash body : string) : string :=
  match body with
  | EmptyString => EmptyString
  | String c body' =>
      match hash with
      | String h hash' =>
          String (if nibble_gt7 h then ascii_upper c else c)
                 (checksum_case hash' body')
      | EmptyString => String c (checksum_case EmptyString body')
      end
  end.

(** The library function, for a string argument: the argument is
    lower-cased and given its [0x] prefix, validated as forty hexadecimal
    digits, and re-cased by the Keccak-256 hash of its lower-case digits.
    [keccak_hex] is that hash, as hexadecimal digits. *)
Definition Web3_to_checksum_address (keccak_hex : string -> string)
    (s : string) : result string :=
  let body := remove_0x_prefix (str_lower s) in
  if is_hex_body body then
    Ok ("0x" ++ checksum_case (keccak_hex body) body)
  else Raise (Exn ValueError "Unknown format, attempted to normalize address").

(* ================================================================== *)
(** ** The outside world *)
(* ================================================================== *)

(** Calls that leave the process, in the order they are made. *)
Inductive event :=
| EvSleep (seconds : Z)
| EvHttpGet (url : string)
| EvGetTransactionCount (rpc addr : string)
| EvEstimateGas (rpc : string) (tx : dict)
| EvSignTransaction (tx : dict)
| EvSendRawTransaction (rpc raw : string)
| EvWaitForReceipt (rpc tx_hash : string).

Definition trace := list event.

(** The collaborators.  Each oracle sees the calls made so far, so its
    answers may change as the workflow advances.
    - [http_get] is [requests.get] followed by [raise_for_status] and
      [json]: the decoded body, or the exception one of the three raised;
    - the [eth_] fields are the node's JSON-RPC methods behind the
      endpoint [rpc];
    - [sign_transaction] is the local signer, [keccak_hex] the hash used
      by the address checksum, and [format_other] the text Python puts in
      an f-string for floats, lists and dictionaries. *)
Record Env := {
  keccak_hex : string -> string;
  format_other : value -> string;
  http_get : trace -> string -> result value;
  eth_get_transaction_count : trace -> string -> string -> result Z;
  eth_estimate_gas : trace -> string -> dict -> result Z;
  sign_transaction : dict -> string -> result string;
  eth_send_raw_transaction : trace -> string -> string -> result string;
  eth_wait_for_transaction_receipt : trace -> string -> string -> result unit
}.

(* ------------------------------------------------------------------ *)
(** *** Computations: a trace threaded through, and exceptions *)

Definition M (A : Type) : Type := trace -> result A * trace.

Definition ret {A} (a : A) : M A := fun t => (Ok a, t).

Definition raise {A} (e : exn) : M A := fun t => (Raise e, t).

Definition bind {A B} (m : M A) (k : A -> M B) : M B :=
  fun t =>
    match m t with
    | (Ok a, t') => k a t'
    | (Raise e, t') => (Raise e, t')
    end.

(** [try: m  except Exception as e: h e] *)
Definition try_except {A} (m : M A) (h : exn -> M A) : M A :=
  fun t =>
    match m t with
    | (Ok a, t') => (Ok a, t')
    | (Raise e, t') => h e t'
    end.

Definition lift {A} (r : result A) : M A := fun t => (r, t).

(** An outside call: the oracle answers from the trace so far, and the
    call is recorded. *)
Definition call {A} (ev : event) (oracle : trace -> result A) : M A :=
  fun t => (oracle t, (t ++ [ev])%list).

Declare Scope py_scope.
Delimit Scope py_scope with py.
Notation "x <- m ;; k" := (bind m (fun x => k))
  (at level 61, m at next level, right associativity) : py_scope.
Notation "m ;;; k" := (bind m (fun _ => k))
  (at level 61, right associativity) : py_scope.
Local Open Scope py_scope.

Definition sleep (seconds : Z) : M unit :=
  call (EvSleep seconds) (fun _ => Ok tt).

(* ================================================================== *)
(** ** Request and response models *)
(* ================================================================== *)

Record SwapRequest := {
  req_wallet_address : string;
  req_private_key : string;
  req_chain_id : Z;
  req_src_token : string;
  req_dst_token : string;
  req_amount : string;
  req_slippage : value
}.

(** The [result] dictionary of [perform_swap]; its four keys are fixed. *)
Record SwapOutcome := {
  success : bool;
  message : string;
  tx_hash : option string;
  approval_tx_hash : option string
}.

Definition INCH_API_KEY : string := "yHbA6lIJjSMGMahUz7BOSUwP7EB1oaEz".
Definition AUTO_APPROVE : bool := true.

(** The fallback gas limit written at lines 163, 217 and 235. *)
Definition FALLBACK_GAS : Z := 500000.

(* ================================================================== *)
(** ** InchSwapper *)
(* ================================================================== *)

Record InchSwapper := {
  chain_id : Z;
  api_key : string;
  wallet_address : string;
  private_key : string;
  rpc_url : string;
  api_base_url : string
}.

Definition chain_rpc_urls : list (Z * string) :=
  [ (1, "https://eth-mainnet.g.alchemy.com/v2/NMsHzNgJ7XUYtzNyFpEJ8yT4muQ_lkRF");
    (10, "https://opt-mainnet.g.alchemy.com/v2/NMsHzNgJ7XUYtzNyFpEJ8yT4muQ_lkRF");
    (8453, "https://base-mainnet.g.alchemy.com/v2/NMsHzNgJ7XUYtzNyFpEJ8yT4muQ_lkRF");
    (42161, "https://arb-mainnet.g.alchemy.com/v2/NMsHzNgJ7XUYtzNyFpEJ8yT4muQ_lkRF") ].

Fixpoint lookup_chain (c : Z) (l : list (Z * string)) : option string :=
  match l with
  | [] => None
  | (c', u) :: l' => if c =? c' then Some u else lookup_chain c l'
  end.

Definition supported_chains_text : string := "[1, 10, 8453, 42161]".

(** [InchSwapper.__init__]: the wallet address is checksummed first, then
    the chain ID is looked up; an unknown one raises [ValueError]. *)
Definition InchSwapper_init (E : Env) (wallet private : string) (chain : Z)
  : result InchSwapper :=
  match Web3_to_checksum_address (keccak_hex E) wallet with
  | Raise e => Raise e
  | Ok w =>
      match lookup_chain chain chain_rpc_urls with
      | None =>
          Raise (Exn ValueError
            ("Unsupported chain ID: " ++ string_of_Z chain ++
             ". Supported chain IDs are: " ++ supported_chains_text))
      | Some rpc =>
          Ok {| chain_id := chain;
                api_key := INCH_API_KEY;
                wallet_address := w;
                private_key := private;
                rpc_url := rpc;
                api_base_url :=
                  "https://api.1inch.dev/swap/v6.0/" ++ string_of_Z chain |}
      end
  end.

(** [web3.to_hex] of a byte string. *)
Definition hex_digit (n : nat) : ascii :=
  nth n (list_ascii_of_string "0123456789abcdef") "0"%char.

Fixpoint hex_of_bytes (s : string) : string :=
  match s with
  | EmptyString => EmptyString
  | String c s' =>
      let n := nat_of_ascii c in
      String (hex_digit (Nat.div n 16))
        (String (hex_digit (Nat.modulo n 16)) (hex_of_bytes s'))
  end.

Definition to_hex (bytes : string) : string := "0x" ++ hex_of_bytes bytes.

Definition numeric_keys : list string := ["gas"; "gasPrice"; "value"; "nonce"].

Definition checksum_param_keys : list string :=
  ["tokenAddress"; "walletAddress"; "src"; "dst"; "from"].

(** The conversion applied to one numeric field (lines 168, 222): a
    native integer is kept, a string starting with [0x] is read in base
    16, anything else goes through [int]. *)
Definition to_native_int (v : value) : result value :=
  if isinstance_int v then Ok v
  else
    match v with
    | VStr s =>
        if startswith "0x" s then
          match int_of_string 16 s with
          | Some z => Ok (VInt z)
          | None =>
              Raise (Exn ValueError "invalid literal for int() with base 16")
          end
        else
          match py_int v with Ok z => Ok (VInt z) | Raise e => Raise e end
    | _ => match py_int v with Ok z => Ok (VInt z) | Raise e => Raise e end
    end.

(** One round of the loop at lines 166-168 and 220-222. *)
Definition convert_numeric_field (key : string) (tx : dict) : result dict :=
  match dict_get key tx with
  | None => Ok tx
  | Some v =>
      if isinstance_int v then Ok tx
      else
        match to_native_int v with
        | Ok v' => Ok (dict_set key v' tx)
        | Raise e => Raise e
        end
  end.

Fixpoint convert_numeric_fields (keys : list string) (tx : dict)
  : result dict :=
  match keys with
  | [] => Ok tx
  | key :: keys' =>
      match convert_numeric_field key tx with
      | Ok tx' => convert_numeric_fields keys' tx'
      | Raise e => Raise e
      end
  end.

(** ['gas' not in transaction or transaction['gas'] == 0] *)
Definition gas_missing_or_zero (transaction : dict) : bool :=
  match dict_get "gas" transaction with
  | None => true
  | Some g => eq_zero g
  end.

Section Methods.

Variable E : Env.
Variable self : InchSwapper.

(** [to_checksum_address] (lines 70-74) *)
Definition to_checksum_address (address : value) : result value :=
  match address with
  | VStr s =>
      if startswith "0x" s then
        match Web3_to_checksum_address (keccak_hex E) (str_lower s) with
        | Ok c => Ok (VStr c)
        | Raise e => Raise e
        end
      else Ok address
  | _ => Ok address
  end.

(** [convert_addresses_to_checksum] (lines 76-87).  The length test counts
    bytes where Python counts characters; the two differ only on strings
    with non-ASCII characters, which are not addresses and come back
    unchanged either way. *)
Fixpoint convert_addresses_to_checksum (obj : value) : value :=
  match obj with
  | VDict d =>
      VDict ((fix items (d : list (string * value)) :=
                match d with
                | [] => []
                | (k, v) :: d' =>
                    (k, convert_addresses_to_checksum v) :: items d'
                end) d)
  | VList l =>
      VList ((fix each (l : list value) :=
                match l with
                | [] => []
                | item :: l' => convert_addresses_to_checksum item :: each l'
                end) l)
  | VStr s =>
      if startswith "0x" s && Nat.eqb (String.length s) 42 then
        match to_checksum_address obj with
        | Ok v => v
        | Raise _ => obj
        end
      else obj
  | _ => obj
  end.

(** What an f-string writes for a value. *)
Definition py_format (v : value) : string :=
  match v with
  | VStr s => s
  | VInt z => string_of_Z z
  | VBool true => "True"
  | VBool false => "False"
  | VNone => "None"
  | _ => format_other E v
  end.

Definition convert_param (kv : string * value) : string * value :=
  let '(key, v) := kv in
  if existsb (String.eqb key) checksum_param_keys then
    match to_checksum_address v with
    | Ok v' => (key, v')
    | Raise _ => (key, v)
    end
  else (key, v).

(** [api_request_url] (lines 89-103) *)
Definition api_request_url (method_name : string) (query_params : dict)
  : string :=
  let converted_params := map convert_param query_params in
  let query_string :=
    String.concat "&"
      (map (fun kv => fst kv ++ "=" ++ py_format (snd kv)) converted_params) in
  api_base_url self ++ method_name ++ "?" ++ query_string.

Definition requests_get (url : string) : M value :=
  call (EvHttpGet url) (fun t => http_get E t url).

(** [check_allowance] (lines 105-122) *)
Definition check_allowance (token_address : value) : M value :=
  try_except
    (token_address <- lift (to_checksum_address token_address) ;;
     let url := api_request_url "/approve/allowance"
                  [("tokenAddress", token_address);
                   ("walletAddress", VStr (wallet_address self))] in
     sleep 1 ;;;
     response <- requests_get url ;;
     match response with
     | VDict d =>
         ret (match dict_get "allowance" d with Some v => v | None => VNone end)
     | _ => raise (Exn AttributeError "object has no attribute 'get'")
     end)
    (fun e =>
       if is_RequestException e then ret (VStr "0") else raise e).

Definition get_transaction_count : M Z :=
  call (EvGetTransactionCount (rpc_url self) (wallet_address self))
       (fun t => eth_get_transaction_count E t (rpc_url self)
                   (wallet_address self)).

(** The inner [try] around [estimate_gas] (lines 155-163, 207-217). *)
Definition estimate_gas_or_fallback (transaction : dict) : M dict :=
  let candidate := dict_set "from" (VStr (wallet_address self)) transaction in
  try_except
    (gas_limit <- call (EvEstimateGas (rpc_url self) candidate)
                    (fun t => eth_estimate_gas E t (rpc_url self) candidate) ;;
     ret (dict_set "gas" (VInt gas_limit) transaction))
    (fun _ => ret (dict_set "gas" (VInt FALLBACK_GAS) transaction)).

(** Lines 145-147, shared by both builders: checksum [to], force [from]. *)
Definition checksum_to_and_from (transaction : dict) : result dict :=
  match dict_get "to" transaction with
  | Some to =>
      match to_checksum_address to with
      | Ok to' =>
          Ok (dict_set "from" (VStr (wallet_address self))
                (dict_set "to" to' transaction))
      | Raise e => Raise e
      end
  | None => Ok (dict_set "from" (VStr (wallet_address self)) transaction)
  end.

(** Lines 127-139: ask the quoting service for the approval payload. *)
Definition fetch_approval_payload (token_address amount : value) : M value :=
  token_address <- lift (to_checksum_address token_address) ;;
  let params := [("tokenAddress", token_address)] in
  let params :=
    if truthy amount then dict_set "amount" amount params else params in
  let url := api_request_url "/approve/transaction" params in
  sleep 2 ;;;
  requests_get url.

(** Lines 141-170: enrichment of the approval payload. *)
Definition enrich_approval (payload : value) : M dict :=
  transaction <- lift (as_dict (convert_addresses_to_checksum payload)) ;;
  transaction <- lift (checksum_to_and_from transaction) ;;
  nonce <- get_transaction_count ;;
  let transaction := dict_set "nonce" (VInt nonce) transaction in
  let transaction := dict_set "chainId" (VInt (chain_id self)) transaction in
  let transaction := dict_set "value" (VInt 0) transaction in
  transaction <- estimate_gas_or_fallback transaction ;;
  lift (convert_numeric_fields numeric_keys transaction).

(** [build_tx_for_approve_trade_with_router] (lines 124-173): the
    handler logs and re-raises. *)
Definition build_tx_for_approve_trade_with_router
    (token_address amount : value) : M dict :=
  try_except
    (payload <- fetch_approval_payload token_address amount ;;
     enrich_approval payload)
    (fun e => raise e).

Definition dict_item (key : string) (d : dict) : result value :=
  match dict_get key d with
  | Some v => Ok v
  | None => Raise (Exn KeyError key)
  end.

(** Lines 179-191: ask the quoting service for the swap payload, the
    [tx] member of its answer. *)
Definition fetch_swap_payload (swap_params : dict) : M value :=
  src <- lift (dict_item "src" swap_params) ;;
  src <- lift (to_checksum_address src) ;;
  let converted_params := dict_set "src" src swap_params in
  dst <- lift (dict_item "dst" swap_params) ;;
  dst <- lift (to_checksum_address dst) ;;
  let converted_params := dict_set "dst" dst converted_params in
  from <- lift (dict_item "from" swap_params) ;;
  from <- lift (to_checksum_address from) ;;
  let converted_params := dict_set "from" from converted_params in
  let url := api_request_url "/swap" converted_params in
  sleep 3 ;;;
  response <- requests_get url ;;
  lift (match response with
        | VDict d => dict_item "tx" d
        | _ => Raise (Exn TypeError "object is not subscriptable")
        end).

(** Lines 193-225: enrichment of the swap payload.  Gas is estimated only
    when the payload carries none. *)
Definition enrich_swap (payload : value) : M dict :=
  transaction <- lift (as_dict (convert_addresses_to_checksum payload)) ;;
  transaction <- lift (checksum_to_and_from transaction) ;;
  nonce <- get_transaction_count ;;
  let transaction := dict_set "nonce" (VInt nonce) transaction in
  let transaction := dict_set "chainId" (VInt (chain_id self)) transaction in
  transaction <-
    (if gas_missing_or_zero transaction
     then estimate_gas_or_fallback transaction
     else ret transaction) ;;
  lift (convert_numeric_fields numeric_keys transaction).

(** [build_tx_for_swap] (lines 175-228): [None] on any exception. *)
Definition build_tx_for_swap (swap_params : dict) : M (option dict) :=
  try_except
    (payload <- fetch_swap_payload swap_params ;;
     transaction <- enrich_swap payload ;;
     ret (Some transaction))
    (fun _ => ret None).

(** The gas guard of [sign_and_send_transaction] (lines 234-235). *)
Definition ensure_gas (transaction : dict) : dict :=
  if gas_missing_or_zero transaction
  then dict_set "gas" (VInt FALLBACK_GAS) transaction
  else transaction.

(** [sign_and_send_transaction] (lines 230-246) *)
Definition sign_and_send_transaction (transaction : dict) : M string :=
  try_except
    (let transaction := ensure_gas transaction in
     raw <- call (EvSignTransaction transaction)
              (fun _ => sign_transaction E transaction (private_key self)) ;;
     sent <- call (EvSendRawTransaction (rpc_url self) raw)
               (fun t => eth_send_raw_transaction E t (rpc_url self) raw) ;;
     ret (to_hex sent))
    (fun e => raise e).

Definition wait_for_transaction_receipt (h : string) : M unit :=
  call (EvWaitForReceipt (rpc_url self) h)
       (fun t => eth_wait_for_transaction_receipt E t (rpc_url self) h).

Definition result0 : SwapOutcome :=
  {| success := false; message := EmptyString; tx_hash := None;
     approval_tx_hash := None |}.

Definition set_message (r : SwapOutcome) (m : string) : SwapOutcome :=
  {| success := success r; message := m; tx_hash := tx_hash r;
     approval_tx_hash := approval_tx_hash r |}.

Definition set_approval_tx_hash (r : SwapOutcome) (h : string) : SwapOutcome :=
  {| success := success r; message := message r; tx_hash := tx_hash r;
     approval_tx_hash := Some h |}.

Definition set_success (r : SwapOutcome) (h : string) : SwapOutcome :=
  {| success := true; message := "Swap completed successfully";
     tx_hash := Some h; approval_tx_hash := approval_tx_hash r |}.

Definition swap_params_of (src_token dst_token amount slippage : value)
  : dict :=
  [ ("src", src_token); ("dst", dst_token); ("amount", amount);
    ("from", VStr (wallet_address self)); ("slippage", slippage);
    ("disableEstimate", VBool false); ("allowPartialFill", VBool true) ].

(** Lines 296-330 of [perform_swap]: the swap itself, with the outcome
    accumulated so far. *)
Definition swap_phase (result : SwapOutcome)
    (src_token dst_token amount slippage : value) : M SwapOutcome :=
  sleep 2 ;;;
  swap_tx <- build_tx_for_swap
               (swap_params_of src_token dst_token amount slippage) ;;
  match swap_tx with
  | Some swap_tx =>
      if truthy (VDict swap_tx) then
        swap_tx_hash <- sign_and_send_transaction swap_tx ;;
        if truthy (VStr swap_tx_hash) then ret (set_success result swap_tx_hash)
        else ret (set_message result "Failed to send swap transaction")
      else ret (set_message result "Failed to build swap transaction")
  | None => ret (set_message result "Failed to build swap transaction")
  end.

(** Lines 266-294 of [perform_swap]: the approval, taken when the
    allowance is below the amount. *)
Definition approval_phase (result : SwapOutcome)
    (src_token dst_token amount slippage : value) : M SwapOutcome :=
  if AUTO_APPROVE then
    approval_tx <- build_tx_for_approve_trade_with_router src_token VNone ;;
    if truthy (VDict approval_tx) then
      approve_tx_hash <- sign_and_send_transaction approval_tx ;;
      if truthy (VStr approve_tx_hash) then
        let result := set_approval_tx_hash result approve_tx_hash in
        wait_for_transaction_receipt approve_tx_hash ;;;
        swap_phase result src_token dst_token amount slippage
      else ret (set_message result "Failed to send approval transaction")
    else ret (set_message result "Failed to build approval transaction")
  else
    ret (set_message result
           "Insufficient allowance and auto-approve is disabled").

(** [perform_swap] (lines 248-330) *)
Definition perform_swap (src_token dst_token amount slippage : value)
  : M SwapOutcome :=
  src_token <- lift (to_checksum_address src_token) ;;
  dst_token <- lift (to_checksum_address dst_token) ;;
  allowance <- check_allowance src_token ;;
  have <- lift (py_int allowance) ;;
  need <- lift (py_int amount) ;;
  if have <? need then
    approval_phase result0 src_token dst_token amount slippage
  else swap_phase result0 src_token dst_token amount slippage.

End Methods.

(** What the [/swap] endpoint answers. *)
Inductive endpoint_response :=
| Response200 (body : SwapOutcome)
| HTTPException500 (detail : string).

(** [swap_tokens] (lines 332-350) *)
Definition swap_tokens (E : Env) (swap_request : SwapRequest)
  : trace -> endpoint_response * trace :=
  fun t =>
    match InchSwapper_init E (req_wallet_address swap_request)
            (req_private_key swap_request) (req_chain_id swap_request) with
    | Raise e => (HTTPException500 ("Swap failed: " ++ exn_str e), t)
    | Ok swapper =>
        match perform_swap E swapper
                (VStr (req_src_token swap_request))
                (VStr (req_dst_token swap_request))
                (VStr (req_amount swap_request))
                (req_slippage swap_request) t with
        | (Ok result, t') => (Response200 result, t')
        | (Raise e, t') => (HTTPException500 ("Swap failed: " ++ exn_str e), t')
        end
    end.

(* ================================================================== *)
(** ** Scenarios: concrete collaborators for running the workflow *)
(* ================================================================== *)

(** A scripted world: one answer per quoting-service endpoint, one for
    the nonce and the gas estimate, and the answers of successive
    broadcasts. *)
Record Scenario := {
  sc_allowance : result value;
  sc_approval : result value;
  sc_swap : result value;
  sc_nonce : result Z;
  sc_estimate : result Z;
  sc_sends : list (result string)
}.

Definition contains (needle hay : string) : bool :=
  match String.index 0 needle hay with Some _ => true | None => false end.

Definition is_send (ev : event) : bool :=
  match ev with EvSendRawTransaction _ _ => true | _ => false end.

(** The hash is a stand-in (the digits themselves); every oracle reads
    the script, the broadcast one by the number of broadcasts so far. *)
Definition scenario_env (sc : Scenario) : Env :=
  {| keccak_hex := fun body => body;
     format_other := fun _ => "?";
     http_get := fun _ url =>
       if contains "/approve/allowance?" url then sc_allowance sc
       else if contains "/approve/transaction?" url then sc_approval sc
       else if contains "/swap?" url then sc_swap sc
       else Raise (Exn RequestException "404 Client Error");
     eth_get_transaction_count := fun _ _ _ => sc_nonce sc;
     eth_estimate_gas := fun _ _ _ => sc_estimate sc;
     sign_transaction := fun _ _ => Ok "signed";
     eth_send_raw_transaction := fun t _ _ =>
       nth (List.length (filter is_send t)) (sc_sends sc)
           (Raise (Exn OtherError "connection lost"));
     eth_wait_for_transaction_receipt := fun _ _ _ => Ok tt |}.

Definition WALLET : string := "0xde709f2102306220921060314715629080e2fb77".
Definition USDC : string := "0xa0b86991c6218b36c1d19d4a2e9eb0ce3606eb48".
Definition WETH : string := "0xc02aaa39b223fe8d0a0e5c4f27ead9083c756cc2".
Definition ROUTER : string := "0x111111125421ca6dc452d289314280a0f8842a65".

Definition approval_fields : dict :=
  [ ("data", VStr "0x095ea7b3");
    ("gasPrice", VStr "0x3b9aca00");
    ("to", VStr USDC);
    ("value", VStr "5") ].

Definition approval_payload : value := VDict approval_fields.

Definition swap_fields : dict :=
  [ ("from", VStr WALLET);
    ("to", VStr ROUTER);
    ("data", VStr "0x07ed2379");
    ("gas", VInt 0);
    ("gasPrice", VStr "1000000000") ].

Definition swap_payload : value := VDict swap_fields.

Definition RequestFailed : exn := Exn RequestException "503 Server Error".
Definition NodeFailed : exn := Exn OtherError "execution reverted".

(** Allowance zero, every step succeeds. *)
Definition happy : Scenario :=
  {| sc_allowance := Ok (VDict [("allowance", VStr "0")]);
     sc_approval := Ok approval_payload;
     sc_swap := Ok (VDict [("dstAmount", VStr "1"); ("tx", swap_payload)]);
     sc_nonce := Ok 7;
     sc_estimate := Ok 46000;
     sc_sends := [Ok "A"; Ok "B"] |}.

(** The allowance covers an amount beyond 64 bits. *)
Definition allowed : Scenario :=
  {| sc_allowance :=
       Ok (VDict [("allowance", VStr "340282366920938463463374607431768211456")]);
     sc_approval := sc_approval happy;
     sc_swap := sc_swap happy;
     sc_nonce := Ok 7;
     sc_estimate := Ok 46000;
     sc_sends := [Ok "B"] |}.


(** The approval payload cannot be fetched. *)
Definition approval_build_fails : Scenario :=
  {| sc_allowance := sc_allowance happy;
     sc_approval := Raise RequestFailed;
     sc_swap := sc_swap happy;
     sc_nonce := Ok 7;
     sc_estimate := Ok 46000;
     sc_sends := [Ok "A"; Ok "B"] |}.

(** The approval goes through, the swap answer has no [tx] member. *)
Definition swap_build_fails : Scenario :=
  {| sc_allowance := sc_allowance happy;
     sc_approval := sc_approval happy;
     sc_swap := Ok (VDict [("error", VStr "insufficient liquidity")]);
     sc_nonce := Ok 7;
     sc_estimate := Ok 46000;
     sc_sends := [Ok "A"; Ok "B"] |}.

(** The allowance suffices, the swap answer has no [tx] member. *)
Definition direct_swap_build_fails : Scenario :=
  {| sc_allowance := sc_allowance allowed;
     sc_approval := sc_approval happy;
     sc_swap := Ok (VDict [("error", VStr "insufficient liquidity")]);
     sc_nonce := Ok 7;
     sc_estimate := Ok 46000;
     sc_sends := [Ok "B"] |}.

(** The approval goes through, the broadcast of the swap fails. *)
Definition swap_send_fails : Scenario :=
  {| sc_allowance := sc_allowance happy;
     sc_approval := sc_approval happy;
     sc_swap := sc_swap happy;
     sc_nonce := Ok 7;
     sc_estimate := Ok 46000;
     sc_sends := [Ok "A"; Raise NodeFailed] |}.

(** The node cannot estimate gas. *)
Definition estimate_fails : Scenario :=
  {| sc_allowance := sc_allowance happy;
     sc_approval := sc_approval happy;
     sc_swap := sc_swap happy;
     sc_nonce := Ok 7;
     sc_estimate := Raise NodeFailed;
     sc_sends := [Ok "A"; Ok "B"] |}.

Definition demo_request : SwapRequest :=
  {| req_wallet_address := WALLET;
     req_private_key := "k";
     req_chain_id := 1;
     req_src_token := USDC;
     req_dst_token := WETH;
     req_amount := "1000000000000000000";
     req_slippage := VInt 1 |}.

(** The allowance answer has no [allowance] member. *)
Definition allowance_missing : Scenario :=
  {| sc_allowance := Ok (VDict [("statusCode", VInt 400)]);
     sc_approval := sc_approval happy;
     sc_swap := sc_swap happy;
     sc_nonce := Ok 7;
     sc_estimate := Ok 46000;
     sc_sends := [Ok "A"; Ok "B"] |}.

(** The broadcast of the approval fails. *)
Definition approval_send_fails : Scenario :=
  {| sc_allowance := sc_allowance happy;
     sc_approval := sc_approval happy;
     sc_swap := sc_swap happy;
     sc_nonce := Ok 7;
     sc_estimate := Ok 46000;
     sc_sends := [Raise NodeFailed] |}.

(** The swap payload gives its gas as a string. *)
Definition swap_gas_text : Scenario :=
  {| sc_allowance := sc_allowance allowed;
     sc_approval := sc_approval happy;
     sc_swap :=
       Ok (VDict [("tx", VDict [("to", VStr ROUTER);
                                ("data", VStr "0x07ed2379");
                                ("gas", VStr "0x30d40");
                                ("value", VStr "0")])]);
     sc_nonce := Ok 7;
     sc_estimate := Ok 46000;
     sc_sends := [Ok "B"] |}.

(** The transaction a run returned, for inspection. *)
Definition built (run : result dict * trace) : dict :=
  match fst run with Ok tx => tx | Raise _ => [] end.

(** The swap transaction built in the [happy] scenario. *)
Definition swap_built : dict :=
  [ ("from", VStr "0xDE709F2102306220921060314715629080E2FB77");
    ("to", VStr "0x111111125421CA6DC452D289314280A0F8842A65");
    ("data", VStr "0x07ed2379"); ("gas", VInt 46000);
    ("gasPrice", VInt 1000000000); ("nonce", VInt 7);
    ("chainId", VInt 1) ].

(** The swapper [__init__] builds for the demo request. *)
Definition demo_self : InchSwapper :=
  Eval vm_compute in
    match InchSwapper_init (scenario_env happy) WALLET "k" 1 with
    | Ok s => s
    | Raise _ =>
        {| chain_id := 0; api_key := EmptyString;
           wallet_address := EmptyString; private_key := EmptyString;
           rpc_url := EmptyString; api_base_url := EmptyString |}
    end.

(* ================================================================== *)
(** ** Vocabulary of the statements *)
(* ================================================================== *)

(** Every computation only appends, and [emits Q m] says that all the
    events [m] appends satisfy [Q], whether [m] returns or raises. *)
Definition emits {A} (Q : event -> Prop) (m : M A) : Prop :=
  forall t r t', m t = (r, t') ->
  exists evs, t' = (t ++ evs)%list /\ Forall Q evs.

(** Every numeric field that is present holds a native integer. *)
Definition numeric_fields_native (tx : dict) : Prop :=
  forall k v, In k numeric_keys -> dict_get k tx = Some v ->
  isinstance_int v = true.

(** Pauses and read-only node calls. *)
Definition benign (ev : event) : Prop :=
  match ev with
  | EvSleep _ | EvGetTransactionCount _ _ | EvEstimateGas _ _ => True
  | _ => False
  end.

(** A gas field that is present, an integer, and not zero. *)
Definition gas_ok (tx : dict) : Prop :=
  exists g, dict_get "gas" tx = Some g
            /\ isinstance_int g = true /\ eq_zero g = false.

(** Whatever is signed has such a gas field. *)
Definition signed_with_gas (ev : event) : Prop :=
  match ev with
  | EvSignTransaction tx => gas_ok tx
  | _ => True
  end.

(** Any call but a signature. *)
Definition not_a_signature (ev : event) : Prop :=
  match ev with
  | EvSignTransaction _ => False
  | _ => True
  end.

(** An outcome still waiting for the swap: no success, no swap hash. *)
Definition pending (r : SwapOutcome) : Prop :=
  success r = false /\ tx_hash r = None.

(** Success, swap hash and success message go together. *)
Definition outcome_invariant (r : SwapOutcome) : Prop :=
  (success r = true <-> tx_hash r <> None) /\
  (success r = true -> message r = "Swap completed successfully") /\
  (success r = false -> tx_hash r = None).

(** Any call but a signature or a broadcast. *)
Definition not_signed_or_sent (ev : event) : Prop :=
  match ev with
  | EvSignTransaction _ | EvSendRawTransaction _ _ => False
  | _ => True
  end.

(** The calls that only the approval path makes: the request for the
    approval payload and the wait for the approval receipt. *)
Definition no_approval_event (E : Env) (self : InchSwapper) (ev : event)
  : Prop :=
  match ev with
  | EvWaitForReceipt _ _ => False
  | EvHttpGet url =>
      forall ps, url <> api_request_url E self "/approve/transaction" ps
  | _ => True
  end.


(** The URL [check_allowance] requests for a checksummed token. *)
Definition allowance_url (E : Env) (self : InchSwapper) (token : value)
  : string :=
  api_request_url E self "/approve/allowance"
    [("tokenAddress", token); ("walletAddress", VStr (wallet_address self))].

(** The URL the approval builder requests for a checksummed token, no
    amount being passed. *)
Definition approval_url (E : Env) (self : InchSwapper) (token : value)
  : string :=
  api_request_url E self "/approve/transaction" [("tokenAddress", token)].

(** The steps of [perform_swap] before the approval decision (lines
    257-265): both token addresses are checksummed, the allowance is
    looked up, and the allowance and the amount are read as integers. *)
Definition allowance_known (E : Env) (self : InchSwapper)
    (src dst amount : value) (t : trace) (src' dst' : value) (have need : Z)
    (t1 : trace) : Prop :=
  to_checksum_address E src = Ok src' /\
  to_checksum_address E dst = Ok dst' /\
  exists allowance,
    check_allowance E self src' t = (Ok allowance, t1) /\
    py_int allowance = Ok have /\
    py_int amount = Ok need.

(** The approval was built, broadcast with hash [h], and confirmed. *)
Definition approval_confirmed (E : Env) (self : InchSwapper) (src' : value)
    (t1 : trace) (h : string) (t4 : trace) : Prop :=
  exists approval_tx t2 t3,
    build_tx_for_approve_trade_with_router E self src' VNone t1
      = (Ok approval_tx, t2) /\
    sign_and_send_transaction E self approval_tx t2 = (Ok h, t3) /\
    wait_for_transaction_receipt E self h t3 = (Ok tt, t4).

(** A transaction sent from the swapper's wallet on the swapper's chain,
    with an integer nonce. *)
Definition sent_from (self : InchSwapper) (tx : dict) : Prop :=
  dict_get "from" tx = Some (VStr (wallet_address self)) /\
  dict_get "chainId" tx = Some (VInt (chain_id self)) /\
  exists n, dict_get "nonce" tx = Some (VInt n).

(** If the call is a request for an approval payload, it is the request
    that names [token] and nothing else. *)
Definition approval_request_for (E : Env) (self : InchSwapper)
    (token : value) (ev : event) : Prop :=
  forall ps,
    ev = EvHttpGet (api_request_url E self "/approve/transaction" ps) ->
    ev = EvHttpGet (approval_url E self token).

(** The kind of an outside call. *)
Inductive kind :=
| KSleep | KHttp | KCount | KEstimate | KSign | KSend | KWait.

Definition kind_of (ev : event) : kind :=
  match ev with
  | EvSleep _ => KSleep
  | EvHttpGet _ => KHttp
  | EvGetTransactionCount _ _ => KCount
  | EvEstimateGas _ _ => KEstimate
  | EvSignTransaction _ => KSign
  | EvSendRawTransaction _ _ => KSend
  | EvWaitForReceipt _ _ => KWait
  end.

Definition kind_eqb (a b : kind) : bool :=
  match a, b with
  | KSleep, KSleep | KHttp, KHttp | KCount, KCount | KEstimate, KEstimate
  | KSign, KSign | KSend, KSend | KWait, KWait => true
  | _, _ => false
  end.

(** How many calls of kind [k] a stretch of trace holds. *)
Definition count_kind (k : kind) (evs : list event) : nat :=
  List.length (filter (fun ev => kind_eqb (kind_of ev) k) evs).

(** A number of calls allowed for each kind: pauses, requests to the
    quoting service, transaction counts, gas estimates, signatures,
    broadcasts, receipt waits. *)
Definition budget (sleeps https counts estimates signs sends waits : nat)
  : kind -> nat :=
  fun k =>
    match k with
    | KSleep => sleeps
    | KHttp => https
    | KCount => counts
    | KEstimate => estimates
    | KSign => signs
    | KSend => sends
    | KWait => waits
    end.

(** [within b m]: whether it returns or raises, [m] makes at most
    [b k] calls of each kind [k]. *)
Definition within {A} (b : kind -> nat) (m : M A) : Prop :=
  forall t r t', m t = (r, t') ->
  exists evs, t' = (t ++ evs)%list /\
              forall k, (count_kind k evs <= b k)%nat.

(* ================================================================== *)
(** ** The builtin int on literals *)
(* ================================================================== *)

Example int_of_string_dec : int_of_string 10 "1000000000000000000" = Some (10 ^ 18).
Proof. reflexivity. Qed.

Example int_of_string_hex : int_of_string 16 "0x7a120" = Some 500000.
Proof. reflexivity. Qed.

Example int_of_string_us : int_of_string 10 " -1_000 " = Some (-1000).
Proof. reflexivity. Qed.

Example int_of_string_bad :
  int_of_string 10 "0x10" = None /\ int_of_string 16 "0x" = None
  /\ int_of_string 10 "1__0" = None
  /\ int_of_string 10 EmptyString = None.
Proof. repeat split; reflexivity. Qed.

(* ================================================================== *)
(** ** Dictionaries: lookup after update *)
(* ================================================================== *)

Lemma dict_get_set_same (k : string) (v : value) (d : dict) :
  dict_get k (dict_set k v d) = Some v.
Proof.
  induction d as [|[k' v'] d IH]; simpl.
  - now rewrite String.eqb_refl.
  - destruct (String.eqb k k') eqn:Hk; simpl; rewrite Hk; auto.
Qed.

Lemma dict_get_set_other (k k' : string) (v : value) (d : dict) :
  k' <> k -> dict_get k' (dict_set k v d) = dict_get k' d.
Proof.
  intros Hne. induction d as [|[k0 v0] d IH]; simpl.
  - destruct (String.eqb k' k) eqn:Hk; auto.
    apply String.eqb_eq in Hk. contradiction.
  - destruct (String.eqb k k0) eqn:Hk; simpl.
    + apply String.eqb_eq in Hk. subst k0.
      destruct (String.eqb k' k) eqn:Hk'; auto.
      apply String.eqb_eq in Hk'. contradiction.
    + now rewrite IH.
Qed.

(* ================================================================== *)
(** ** Running computations *)
(* ================================================================== *)

Lemma bind_Ok {A B} (m : M A) (k : A -> M B) (t t' : trace) (b : B) :
  bind m k t = (Ok b, t') ->
  exists a t1, m t = (Ok a, t1) /\ k a t1 = (Ok b, t').
Proof.
  unfold bind. destruct (m t) as [[a|e] t1]; intros H.
  - now exists a, t1.
  - discriminate.
Qed.

Lemma bind_step {A B} (m : M A) (k : A -> M B) (t t1 : trace) (a : A) :
  m t = (Ok a, t1) -> bind m k t = k a t1.
Proof. unfold bind. now intros ->. Qed.

Lemma bind_raise {A B} (m : M A) (k : A -> M B) (t t1 : trace) (e : exn) :
  m t = (Raise e, t1) -> bind m k t = (Raise e, t1).
Proof. unfold bind. now intros ->. Qed.

Lemma lift_Ok {A} (r : result A) (t t' : trace) (a : A) :
  lift r t = (Ok a, t') -> r = Ok a /\ t' = t.
Proof. unfold lift. intros H. inversion H. auto. Qed.

Lemma try_except_reraise {A} (m : M A) (t : trace) :
  try_except m (fun e => raise e) t = m t.
Proof. unfold try_except, raise. now destruct (m t) as [[a|e] t1]. Qed.

(** Inversion of a successful run, one bind at a time. *)
Ltac run_inv H :=
  repeat match type of H with
  | bind _ _ _ = (Ok _, _) =>
      let a := fresh "a" in
      let t := fresh "t" in
      let Hm := fresh "Hm" in
      apply bind_Ok in H; destruct H as (a & t & Hm & H)
  end.

(* ------------------------------------------------------------------ *)
(** *** What a computation adds to the trace *)

Section Emits.

Variable Q : event -> Prop.

Lemma emits_ret {A} (a : A) : emits Q (ret a).
Proof.
  intros t r t' H. inversion H. exists []. split; [now rewrite app_nil_r|constructor].
Qed.

Lemma emits_raise {A} (e : exn) : emits Q (@raise A e).
Proof.
  intros t r t' H. inversion H. exists []. split; [now rewrite app_nil_r|constructor].
Qed.

Lemma emits_lift {A} (x : result A) : emits Q (lift x).
Proof.
  intros t r t' H. inversion H. exists []. split; [now rewrite app_nil_r|constructor].
Qed.

Lemma emits_call {A} (ev : event) (o : trace -> result A) :
  Q ev -> emits Q (call ev o).
Proof.
  intros HQ t r t' H. inversion H. exists [ev]. split; auto.
Qed.

(** The continuation may rely on any property [P] of the value bound. *)
Lemma emits_bind_post {A B} (P : A -> Prop) (m : M A) (k : A -> M B) :
  emits Q m ->
  (forall t a t1, m t = (Ok a, t1) -> P a) ->
  (forall a, P a -> emits Q (k a)) ->
  emits Q (bind m k).
Proof.
  intros Hm HP Hk t r t' H. unfold bind in H.
  destruct (m t) as [[a|e] t1] eqn:Hrun.
  - destruct (Hm _ _ _ Hrun) as (evs1 & -> & F1).
    destruct (Hk a (HP _ _ _ Hrun) _ _ _ H) as (evs2 & -> & F2).
    exists (evs1 ++ evs2)%list. split; [now rewrite app_assoc|].
    apply Forall_app; auto.
  - inversion H; subst. exact (Hm _ _ _ Hrun).
Qed.

Lemma emits_bind {A B} (m : M A) (k : A -> M B) :
  emits Q m -> (forall a, emits Q (k a)) -> emits Q (bind m k).
Proof.
  intros Hm Hk. apply (emits_bind_post (fun _ => True)); auto.
Qed.

Lemma emits_try_except {A} (m : M A) (h : exn -> M A) :
  emits Q m -> (forall e, emits Q (h e)) -> emits Q (try_except m h).
Proof.
  intros Hm Hh t r t' H. unfold try_except in H.
  destruct (m t) as [[a|e] t1] eqn:Hrun.
  - inversion H; subst. exact (Hm _ _ _ Hrun).
  - destruct (Hm _ _ _ Hrun) as (evs1 & -> & F1).
    destruct (Hh e _ _ _ H) as (evs2 & -> & F2).
    exists (evs1 ++ evs2)%list. split; [now rewrite app_assoc|].
    apply Forall_app; auto.
Qed.

End Emits.


(* ================================================================== *)
(** ** Numeric fields *)
(* ================================================================== *)

Lemma to_native_int_isint (v v' : value) :
  to_native_int v = Ok v' -> isinstance_int v' = true.
Proof.
  unfold to_native_int. destruct (isinstance_int v) eqn:Hi.
  - intros H. inversion H. now subst.
  - destruct v; simpl;
      repeat match goal with
      | |- context [match ?x with _ => _ end] => destruct x
      end; intros H; inversion H; reflexivity.
Qed.

Lemma to_native_int_keep (v : value) :
  isinstance_int v = true -> to_native_int v = Ok v.
Proof. unfold to_native_int. now intros ->. Qed.

Lemma convert_numeric_field_other (key k : string) (tx tx' : dict) :
  convert_numeric_field key tx = Ok tx' ->
  k <> key -> dict_get k tx' = dict_get k tx.
Proof.
  unfold convert_numeric_field. intros H Hne.
  destruct (dict_get key tx) as [v|]; [|now inversion H].
  destruct (isinstance_int v); [now inversion H|].
  destruct (to_native_int v); inversion H.
  now apply dict_get_set_other.
Qed.

Lemma convert_numeric_field_same (key : string) (tx tx' : dict) (v : value) :
  convert_numeric_field key tx = Ok tx' ->
  dict_get key tx = Some v ->
  exists v', to_native_int v = Ok v' /\ dict_get key tx' = Some v'.
Proof.
  unfold convert_numeric_field. intros H Hv. rewrite Hv in H.
  destruct (isinstance_int v) eqn:Hi.
  - inversion H; subst. exists v. split; auto. now apply to_native_int_keep.
  - destruct (to_native_int v) as [v'|] eqn:Hc; inversion H.
    exists v'. split; auto. apply dict_get_set_same.
Qed.

Lemma convert_numeric_field_absent (key k : string) (tx tx' : dict) :
  convert_numeric_field key tx = Ok tx' ->
  dict_get k tx = None -> dict_get k tx' = None.
Proof.
  intros H Hk. destruct (String.eqb k key) eqn:E.
  - apply String.eqb_eq in E. subst k. unfold convert_numeric_field in H.
    rewrite Hk in H. inversion H; subst. exact Hk.
  - apply String.eqb_neq in E.
    now rewrite (convert_numeric_field_other _ _ _ _ H E).
Qed.

(** After the loop a field is absent if it was absent; a field outside
    [keys] is untouched; a field of [keys] holds the converted value. *)
Lemma convert_numeric_fields_get (keys : list string) :
  forall (tx tx' : dict),
  convert_numeric_fields keys tx = Ok tx' ->
  forall k,
    (dict_get k tx = None -> dict_get k tx' = None) /\
    (forall v, dict_get k tx = Some v ->
       (In k keys ->
        exists v', to_native_int v = Ok v' /\ dict_get k tx' = Some v') /\
       (~ In k keys -> dict_get k tx' = Some v)).
Proof.
  induction keys as [|key keys IH]; intros tx tx' H k; simpl in H.
  - inversion H; subst. split; auto. intros v Hv. split; auto.
    intros [].
  - destruct (convert_numeric_field key tx) as [tx1|] eqn:H1; [|discriminate].
    destruct (IH _ _ H k) as [IHn IHs]. split.
    + intros Hk. apply IHn. eapply convert_numeric_field_absent; eauto.
    + intros v Hv. destruct (String.eqb k key) eqn:E.
      * apply String.eqb_eq in E. subst k.
        destruct (convert_numeric_field_same _ _ _ _ H1 Hv) as (v1 & Hc & Hg).
        destruct (IHs _ Hg) as [Hin Hout]. split.
        -- intros _. destruct (in_dec string_dec key keys) as [i|n].
           ++ destruct (Hin i) as (v' & Hc' & Hg').
              rewrite (to_native_int_keep v1 (to_native_int_isint _ _ Hc)) in Hc'.
              inversion Hc'; subst. eauto.
           ++ exists v1. auto.
        -- intros Hn. exfalso. apply Hn. now left.
      * apply String.eqb_neq in E.
        rewrite <- (convert_numeric_field_other _ _ _ _ H1 E) in Hv.
        destruct (IHs _ Hv) as [Hin Hout]. split.
        -- intros [He|Hi]; [congruence|auto].
        -- intros Hn. apply Hout. intros Hi. apply Hn. now right.
Qed.

Lemma convert_numeric_fields_native (tx tx' : dict) :
  convert_numeric_fields numeric_keys tx = Ok tx' ->
  numeric_fields_native tx'.
Proof.
  intros H k v Hin Hv.
  destruct (convert_numeric_fields_get _ _ _ H k) as [Hn Hs].
  destruct (dict_get k tx) as [v0|] eqn:H0.
  - destruct (Hs v0 eq_refl) as [Hi _].
    destruct (Hi Hin) as (v' & Hc & Hg). rewrite Hv in Hg.
    inversion Hg; subst. eapply to_native_int_isint; eauto.
  - rewrite (Hn eq_refl) in Hv. discriminate.
Qed.

(* ================================================================== *)
(** ** Address canonicalization *)
(* ================================================================== *)

Lemma ascii_lower_idem (c : ascii) : ascii_lower (ascii_lower c) = ascii_lower c.
Proof. destruct c as [[] [] [] [] [] [] [] []]; reflexivity. Qed.

Lemma ascii_lower_upper (c : ascii) : ascii_lower (ascii_upper c) = ascii_lower c.
Proof. destruct c as [[] [] [] [] [] [] [] []]; reflexivity. Qed.

Lemma str_lower_idem (s : string) : str_lower (str_lower s) = str_lower s.
Proof.
  induction s as [|c s IH]; simpl; [reflexivity|].
  now rewrite ascii_lower_idem, IH.
Qed.

Lemma str_lower_checksum_case (body : string) :
  forall hash, str_lower (checksum_case hash body) = str_lower body.
Proof.
  induction body as [|c body IH]; intros hash; simpl; [reflexivity|].
  destruct hash as [|h hash]; simpl.
  - now rewrite IH.
  - rewrite IH. destruct (nibble_gt7 h); [now rewrite ascii_lower_upper|reflexivity].
Qed.

Lemma remove_0x_prefix_lower (x : string) :
  str_lower x = x -> str_lower (remove_0x_prefix x) = remove_0x_prefix x.
Proof.
  intros H. destruct x as [|c x']; [reflexivity|].
  destruct c as [[] [] [] [] [] [] [] []]; try exact H.
  destruct x' as [|c' r]; [exact H|].
  unfold remove_0x_prefix.
  destruct (Ascii.eqb c' "x" || Ascii.eqb c' "X"); [|exact H].
  simpl in H. injection H as _ H. exact H.
Qed.

Lemma startswith_0x (r : string) : startswith "0x" ("0x" ++ r) = true.
Proof. destruct r; reflexivity. Qed.

Lemma remove_0x_prefix_lower_0x (r : string) :
  remove_0x_prefix (str_lower (String "0" (String "x" r))) = str_lower r.
Proof. reflexivity. Qed.

(** The checksummed form is a fixed point of the library function, also
    after lower-casing, and starts with [0x]. *)
Lemma Web3_checksum_fixed (k : string -> string) (s c : string) :
  Web3_to_checksum_address k s = Ok c ->
  startswith "0x" c = true /\
  Web3_to_checksum_address k (str_lower c) = Ok c.
Proof.
  unfold Web3_to_checksum_address.
  set (body := remove_0x_prefix (str_lower s)).
  destruct (is_hex_body body) eqn:Hb; intros H; inversion H as [Hc].
  assert (Hl : str_lower body = body).
  { apply remove_0x_prefix_lower, str_lower_idem. }
  split; [apply startswith_0x|].
  rewrite str_lower_idem.
  rewrite remove_0x_prefix_lower_0x, str_lower_checksum_case, Hl.
  now rewrite Hb.
Qed.


Lemma to_checksum_address_fixed (E : Env) (s c : string) :
  Web3_to_checksum_address (keccak_hex E) s = Ok c ->
  to_checksum_address E (VStr c) = Ok (VStr c).
Proof.
  intros H. destruct (Web3_checksum_fixed _ _ _ H) as [Hp Hf].
  unfold to_checksum_address. now rewrite Hp, Hf.
Qed.

Lemma to_checksum_address_again (E : Env) (a a' : value) :
  to_checksum_address E a = Ok a' -> to_checksum_address E a' = Ok a'.
Proof.
  destruct a; simpl; intros H; try (inversion H; subst; reflexivity).
  destruct (startswith "0x" s) eqn:Hp.
  - destruct (Web3_to_checksum_address (keccak_hex E) (str_lower s)) as [c|] eqn:Hw;
      inversion H; subst.
    eapply to_checksum_address_fixed; eauto.
  - inversion H; subst. simpl. now rewrite Hp.
Qed.

(** The guard of line 72: a string that does not start with [0x] is
    returned as it is, whatever it holds. *)
Remark to_checksum_address_unprefixed (E : Env) (s : string) :
  startswith "0x" s = false -> to_checksum_address E (VStr s) = Ok (VStr s).
Proof. intros H. simpl. now rewrite H. Qed.



(* ================================================================== *)
(** ** The events of each method *)
(* ================================================================== *)

Ltac emits_go :=
  repeat first
    [ apply emits_ret | apply emits_raise | apply emits_lift
    | apply emits_call
    | apply emits_bind; [|intros]
    | apply emits_try_except; [|intros]
    | match goal with
      | |- emits _ (match ?x with _ => _ end) => destruct x
      | |- emits _ (if ?x then _ else _) => destruct x
      end ].

Section MethodEvents.

Variable E : Env.
Variable self : InchSwapper.
Variable Q : event -> Prop.
Hypothesis Q_benign : forall ev, benign ev -> Q ev.

Lemma emits_sleep (s : Z) : emits Q (sleep s).
Proof. apply emits_call, Q_benign. exact I. Qed.

Lemma emits_check_allowance (token : value) :
  (forall ps, Q (EvHttpGet (api_request_url E self "/approve/allowance" ps))) ->
  emits Q (check_allowance E self token).
Proof.
  intros HQ. unfold check_allowance, requests_get.
  emits_go; auto; apply Q_benign; exact I.
Qed.

Lemma emits_enrich_approval (payload : value) :
  emits Q (enrich_approval E self payload).
Proof.
  unfold enrich_approval, get_transaction_count, estimate_gas_or_fallback.
  emits_go; apply Q_benign; exact I.
Qed.

Lemma emits_enrich_swap (payload : value) :
  emits Q (enrich_swap E self payload).
Proof.
  unfold enrich_swap, get_transaction_count, estimate_gas_or_fallback.
  emits_go; apply Q_benign; exact I.
Qed.

Lemma emits_build_approve (token amount : value) :
  (forall ps, Q (EvHttpGet (api_request_url E self "/approve/transaction" ps))) ->
  emits Q (build_tx_for_approve_trade_with_router E self token amount).
Proof.
  intros HQ.
  unfold build_tx_for_approve_trade_with_router, fetch_approval_payload,
    requests_get.
  emits_go; auto; try (apply Q_benign; exact I); apply emits_enrich_approval.
Qed.

Lemma emits_build_swap (params : dict) :
  (forall ps, Q (EvHttpGet (api_request_url E self "/swap" ps))) ->
  emits Q (build_tx_for_swap E self params).
Proof.
  intros HQ.
  unfold build_tx_for_swap, fetch_swap_payload, requests_get.
  emits_go; auto; try (apply Q_benign; exact I); apply emits_enrich_swap.
Qed.

Lemma emits_sign_and_send (tx : dict) :
  Q (EvSignTransaction (ensure_gas tx)) ->
  (forall rpc raw, Q (EvSendRawTransaction rpc raw)) ->
  emits Q (sign_and_send_transaction E self tx).
Proof.
  intros Hs Hb. unfold sign_and_send_transaction. emits_go; auto.
Qed.

End MethodEvents.

(* ================================================================== *)
(** ** What the builders return *)
(* ================================================================== *)

Lemma try_except_Ok {A} (m : M A) (h : exn -> M A) (t t' : trace) (a : A) :
  try_except m h t = (Ok a, t') ->
  m t = (Ok a, t') \/ exists e t1, m t = (Raise e, t1) /\ h e t1 = (Ok a, t').
Proof.
  unfold try_except. destruct (m t) as [[a0|e] t1]; intros H.
  - left. exact H.
  - right. now exists e, t1.
Qed.

Lemma enrich_approval_native (E : Env) (self : InchSwapper)
    (payload : value) (t t' : trace) (tx : dict) :
  enrich_approval E self payload t = (Ok tx, t') -> numeric_fields_native tx.
Proof.
  unfold enrich_approval. intros H. run_inv H.
  apply lift_Ok in H. destruct H as [H _].
  eapply convert_numeric_fields_native; eauto.
Qed.

Lemma enrich_swap_native (E : Env) (self : InchSwapper)
    (payload : value) (t t' : trace) (tx : dict) :
  enrich_swap E self payload t = (Ok tx, t') -> numeric_fields_native tx.
Proof.
  unfold enrich_swap. intros H. run_inv H.
  apply lift_Ok in H. destruct H as [H _].
  eapply convert_numeric_fields_native; eauto.
Qed.

Lemma build_approve_native (E : Env) (self : InchSwapper)
    (token amount : value) (t t' : trace) (tx : dict) :
  build_tx_for_approve_trade_with_router E self token amount t = (Ok tx, t') ->
  numeric_fields_native tx.
Proof.
  unfold build_tx_for_approve_trade_with_router.
  rewrite try_except_reraise. intros H. run_inv H.
  eapply enrich_approval_native; eauto.
Qed.

Lemma build_swap_native (E : Env) (self : InchSwapper)
    (params : dict) (t t' : trace) (tx : dict) :
  build_tx_for_swap E self params t = (Ok (Some tx), t') ->
  numeric_fields_native tx.
Proof.
  unfold build_tx_for_swap. intros H.
  apply try_except_Ok in H. destruct H as [H|(e & t1 & _ & H)].
  - run_inv H. inversion H; subst. eapply enrich_swap_native; eauto.
  - inversion H.
Qed.

(* ================================================================== *)
(** ** Gas at signing time *)
(* ================================================================== *)

Lemma ensure_gas_present (tx : dict) :
  exists g, dict_get "gas" (ensure_gas tx) = Some g /\ eq_zero g = false /\
            (gas_missing_or_zero tx = true -> g = VInt FALLBACK_GAS) /\
            (gas_missing_or_zero tx = false -> ensure_gas tx = tx).
Proof.
  unfold ensure_gas. destruct (gas_missing_or_zero tx) eqn:Hg.
  - exists (VInt FALLBACK_GAS). rewrite dict_get_set_same.
    repeat split; auto. discriminate.
  - unfold gas_missing_or_zero in Hg.
    destruct (dict_get "gas" tx) as [g|] eqn:Hd; [|discriminate].
    exists g. repeat split; auto. discriminate.
Qed.

Lemma ensure_gas_ok (tx : dict) :
  numeric_fields_native tx -> gas_ok (ensure_gas tx).
Proof.
  intros Hn. destruct (ensure_gas_present tx) as (g & Hg & Hz & Hf & Hk).
  exists g. repeat split; auto.
  destruct (gas_missing_or_zero tx) eqn:Hm.
  - now rewrite (Hf eq_refl).
  - rewrite (Hk eq_refl) in Hg. apply (Hn "gas"); simpl; auto.
Qed.

Lemma signed_with_gas_benign (ev : event) : benign ev -> signed_with_gas ev.
Proof. destruct ev; simpl; tauto. Qed.

Lemma sign_and_send_trace (E : Env) (self : InchSwapper) (tx : dict)
    (t t' : trace) (r : result string) :
  sign_and_send_transaction E self tx t = (r, t') ->
  exists rest, t' = (t ++ EvSignTransaction (ensure_gas tx) :: rest)%list
               /\ Forall not_a_signature rest.
Proof.
  unfold sign_and_send_transaction. rewrite try_except_reraise.
  unfold bind, call, ret.
  destruct (sign_transaction E (ensure_gas tx) (private_key self)) as [raw|e];
    intros H.
  - destruct (eth_send_raw_transaction E _ (rpc_url self) raw);
      inversion H; subst;
      exists [EvSendRawTransaction (rpc_url self) raw];
      (split; [now rewrite <- app_assoc|repeat constructor]).
  - inversion H; subst. exists []. split; auto.
Qed.

Section SignedGas.

Variable E : Env.
Variable self : InchSwapper.

Lemma emits_swap_phase_signed (r : SwapOutcome)
    (src dst amount slippage : value) :
  emits signed_with_gas (swap_phase E self r src dst amount slippage).
Proof.
  unfold swap_phase. apply emits_bind.
  { apply emits_sleep, signed_with_gas_benign. }
  intros _.
  apply (emits_bind_post signed_with_gas
           (fun o => forall tx, o = Some tx -> numeric_fields_native tx)).
  - apply emits_build_swap; [apply signed_with_gas_benign|exact (fun _ => I)].
  - intros t o t1 H tx ->. eapply build_swap_native; eauto.
  - intros [tx|] Htx; [|apply emits_ret].
    destruct (truthy (VDict tx)); [|apply emits_ret].
    apply emits_bind.
    + apply emits_sign_and_send; [|exact (fun _ _ => I)].
      apply ensure_gas_ok. now apply Htx.
    + intros h. destruct (truthy (VStr h)); apply emits_ret.
Qed.

Lemma emits_approval_phase_signed (r : SwapOutcome)
    (src dst amount slippage : value) :
  emits signed_with_gas (approval_phase E self r src dst amount slippage).
Proof.
  unfold approval_phase. destruct AUTO_APPROVE; [|apply emits_ret].
  apply (emits_bind_post signed_with_gas numeric_fields_native).
  - apply emits_build_approve; [apply signed_with_gas_benign|exact (fun _ => I)].
  - intros t tx t1 H. eapply build_approve_native; eauto.
  - intros tx Htx. destruct (truthy (VDict tx)); [|apply emits_ret].
    apply emits_bind.
    + apply emits_sign_and_send; [|exact (fun _ _ => I)].
      now apply ensure_gas_ok.
    + intros h. destruct (truthy (VStr h)); [|apply emits_ret].
      apply emits_bind; [apply emits_call; exact I|].
      intros _. apply emits_swap_phase_signed.
Qed.

Lemma emits_perform_swap_signed (src dst amount slippage : value) :
  emits signed_with_gas (perform_swap E self src dst amount slippage).
Proof.
  unfold perform_swap.
  apply emits_bind; [apply emits_lift|intros src'].
  apply emits_bind; [apply emits_lift|intros dst'].
  apply emits_bind.
  { apply emits_check_allowance; [apply signed_with_gas_benign|exact (fun _ => I)]. }
  intros al.
  apply emits_bind; [apply emits_lift|intros have].
  apply emits_bind; [apply emits_lift|intros need].
  destruct (have <? need).
  - apply emits_approval_phase_signed.
  - apply emits_swap_phase_signed.
Qed.

End SignedGas.

(** C10. [sign_and_send_transaction] signs [ensure_gas tx] and nothing
    else: a transaction whose gas field is present and not zero, equal to
    the fallback 500000 whenever the field was missing or zero and left
    as it was otherwise.  In a run of [perform_swap], whether it returns
    or raises, every transaction handed to the signer has a gas field
    that is present, an integer and not zero. *)
Theorem signed_transactions_have_gas (E : Env) (self : InchSwapper) :
  (forall tx t r t',
     sign_and_send_transaction E self tx t = (r, t') ->
     exists g rest,
       t' = (t ++ EvSignTransaction (ensure_gas tx) :: rest)%list
       /\ Forall not_a_signature rest
       /\ dict_get "gas" (ensure_gas tx) = Some g /\ eq_zero g = false
       /\ (gas_missing_or_zero tx = true -> g = VInt 500000)
       /\ (gas_missing_or_zero tx = false -> ensure_gas tx = tx)) /\
  (forall src dst amount slippage t r t',
     perform_swap E self src dst amount slippage t = (r, t') ->
     exists evs, t' = (t ++ evs)%list /\
       forall tx, In (EvSignTransaction tx) evs -> gas_ok tx).
Proof.
  split.
  - intros tx t r t' H.
    destruct (sign_and_send_trace _ _ _ _ _ _ H) as (rest & Ht & Hr).
    destruct (ensure_gas_present tx) as (g & Hg & Hz & Hf & Hk).
    exists g, rest. repeat split; auto.
  - intros src dst amount slippage t r t' H.
    destruct (emits_perform_swap_signed E self _ _ _ _ _ _ _ H)
      as (evs & Ht & Hall).
    exists evs. split; auto. intros tx Hin.
    rewrite Forall_forall in Hall. exact (Hall _ Hin).
Qed.

(** A transaction with [gas] = 0, and the whole [happy] run. *)
Lemma signed_transactions_have_gas_witness :
  (exists g rest,
     snd (sign_and_send_transaction (scenario_env happy) demo_self
            [("gas", VInt 0)] [])
       = ([] ++ EvSignTransaction (ensure_gas [("gas", VInt 0)]) :: rest)%list
     /\ Forall not_a_signature rest
     /\ dict_get "gas" (ensure_gas [("gas", VInt 0)]) = Some g
     /\ eq_zero g = false
     /\ (gas_missing_or_zero [("gas", VInt 0)] = true -> g = VInt 500000)
     /\ (gas_missing_or_zero [("gas", VInt 0)] = false ->
         ensure_gas [("gas", VInt 0)] = [("gas", VInt 0)])) /\
  (exists evs,
     snd (perform_swap (scenario_env happy) demo_self (VStr USDC) (VStr WETH)
            (VStr "1000000000000000000") (VInt 1) [])
       = ([] ++ evs)%list /\
     forall tx, In (EvSignTransaction tx) evs -> gas_ok tx).
Proof.
  destruct (signed_transactions_have_gas (scenario_env happy) demo_self)
    as [H1 H2].
  split.
  - apply (H1 [("gas", VInt 0)] []
             (fst (sign_and_send_transaction (scenario_env happy) demo_self
                     [("gas", VInt 0)] []))).
    vm_compute. reflexivity.
  - apply (H2 (VStr USDC) (VStr WETH) (VStr "1000000000000000000") (VInt 1) []
             (fst (perform_swap (scenario_env happy) demo_self (VStr USDC)
                     (VStr WETH) (VStr "1000000000000000000") (VInt 1) []))).
    vm_compute. reflexivity.
Defined.

(* ================================================================== *)
(** ** Native integers in the built transactions *)
(* ================================================================== *)

(** C7. In every transaction returned by the approval builder and by the
    swap builder, each of [gas], [gasPrice], [value] and [nonce] that is
    present is a native integer.  The conversion keeps a native integer,
    reads a string that starts with [0x] in base 16 and any other string
    in base 10, and the loop leaves in each of the four fields the
    conversion of what the field held. *)
Theorem built_numeric_fields_native (E : Env) (self : InchSwapper) :
  (forall token amount t tx t',
     build_tx_for_approve_trade_with_router E self token amount t = (Ok tx, t') ->
     numeric_fields_native tx) /\
  (forall params t tx t',
     build_tx_for_swap E self params t = (Ok (Some tx), t') ->
     numeric_fields_native tx) /\
  (forall z, to_native_int (VInt z) = Ok (VInt z)) /\
  (forall s z, startswith "0x" s = true -> int_of_string 16 s = Some z ->
     to_native_int (VStr s) = Ok (VInt z)) /\
  (forall s z, startswith "0x" s = false -> int_of_string 10 s = Some z ->
     to_native_int (VStr s) = Ok (VInt z)) /\
  (forall tx tx' k v,
     convert_numeric_fields numeric_keys tx = Ok tx' ->
     In k numeric_keys -> dict_get k tx = Some v ->
     exists v', to_native_int v = Ok v' /\ dict_get k tx' = Some v').
Proof.
  split; [|split; [|split; [|split; [|split]]]].
  - intros. eapply build_approve_native; eauto.
  - intros. eapply build_swap_native; eauto.
  - reflexivity.
  - intros s z Hp Hz. unfold to_native_int. simpl. now rewrite Hp, Hz.
  - intros s z Hp Hz. unfold to_native_int. simpl. now rewrite Hp, Hz.
  - intros tx tx' k v H Hin Hv.
    destruct (convert_numeric_fields_get _ _ _ H k) as [_ Hs].
    destruct (Hs v Hv) as [Hi _]. auto.
Qed.

(** The two transactions built in the [happy] scenario, whose payloads
    give [gasPrice] once in hexadecimal and once in decimal. *)
Lemma built_numeric_fields_native_witness :
  numeric_fields_native
    [("data", VStr "0x095ea7b3"); ("gasPrice", VInt 1000000000);
     ("to", VStr "0xA0B86991C6218B36C1D19D4A2E9EB0CE3606EB48");
     ("value", VInt 0);
     ("from", VStr "0xDE709F2102306220921060314715629080E2FB77");
     ("nonce", VInt 7); ("chainId", VInt 1); ("gas", VInt 46000)] /\
  numeric_fields_native
    [("from", VStr "0xDE709F2102306220921060314715629080E2FB77");
     ("to", VStr "0x111111125421CA6DC452D289314280A0F8842A65");
     ("data", VStr "0x07ed2379"); ("gas", VInt 46000);
     ("gasPrice", VInt 1000000000); ("nonce", VInt 7); ("chainId", VInt 1)] /\
  to_native_int (VStr "0x3b9aca00") = Ok (VInt 1000000000) /\
  to_native_int (VStr "1000000000") = Ok (VInt 1000000000) /\
  (exists v', to_native_int (VStr "0x3b9aca00") = Ok v' /\
     dict_get "gasPrice" [("gasPrice", VInt 1000000000); ("gas", VInt 5)]
       = Some v').
Proof.
  destruct (built_numeric_fields_native (scenario_env happy) demo_self)
    as (H1 & H2 & _ & H4 & H5 & H6).
  split; [|split; [|split; [|split]]].
  - apply (H1 (VStr USDC) VNone []
             _ (snd (build_tx_for_approve_trade_with_router
                       (scenario_env happy) demo_self (VStr USDC) VNone []))).
    vm_compute. reflexivity.
  - apply (H2 (swap_params_of demo_self (VStr USDC) (VStr WETH)
                 (VStr "1000000000000000000") (VInt 1)) []
             _ (snd (build_tx_for_swap (scenario_env happy) demo_self
                       (swap_params_of demo_self (VStr USDC) (VStr WETH)
                          (VStr "1000000000000000000") (VInt 1)) []))).
    vm_compute. reflexivity.
  - apply H4; reflexivity.
  - apply H5; reflexivity.
  - apply (H6 [("gasPrice", VStr "0x3b9aca00"); ("gas", VInt 5)]
              [("gasPrice", VInt 1000000000); ("gas", VInt 5)]
              "gasPrice" (VStr "0x3b9aca00")).
    + reflexivity.
    + simpl. auto.
    + reflexivity.
Defined.

(* ================================================================== *)
(** ** Enrichment, step by step *)
(* ================================================================== *)

Lemma as_dict_Ok (v : value) (d : dict) : as_dict v = Ok d -> v = VDict d.
Proof. destruct v; simpl; intros H; inversion H; reflexivity. Qed.

(** The gas estimate never raises: the node's answer, or the fallback. *)
Lemma estimate_gas_or_fallback_run (E : Env) (self : InchSwapper)
    (tx : dict) (t : trace) :
  let cand := dict_set "from" (VStr (wallet_address self)) tx in
  estimate_gas_or_fallback E self tx t =
  (Ok (dict_set "gas"
         (VInt match eth_estimate_gas E t (rpc_url self) cand with
               | Ok g => g
               | Raise _ => FALLBACK_GAS
               end) tx),
   (t ++ [EvEstimateGas (rpc_url self) cand])%list).
Proof.
  unfold estimate_gas_or_fallback, try_except, bind, call, ret. simpl.
  now destruct (eth_estimate_gas E t (rpc_url self) _).
Qed.

Lemma get_transaction_count_Ok (E : Env) (self : InchSwapper)
    (t t' : trace) (n : Z) :
  get_transaction_count E self t = (Ok n, t') ->
  eth_get_transaction_count E t (rpc_url self) (wallet_address self) = Ok n /\
  t' = (t ++ [EvGetTransactionCount (rpc_url self) (wallet_address self)])%list.
Proof. unfold get_transaction_count, call. intros H. inversion H. auto. Qed.

Section Enrichment.

Variable E : Env.
Variable self : InchSwapper.

Let wallet := wallet_address self.
Let rpc := rpc_url self.

Lemma enrich_approval_inv (payload : value) (t t' : trace) (tx : dict) :
  enrich_approval E self payload t = (Ok tx, t') ->
  exists p tx1 n,
    convert_addresses_to_checksum E payload = VDict p /\
    checksum_to_and_from E self p = Ok tx1 /\
    eth_get_transaction_count E t rpc wallet = Ok n /\
    let tx2 := dict_set "value" (VInt 0)
                 (dict_set "chainId" (VInt (chain_id self))
                    (dict_set "nonce" (VInt n) tx1)) in
    let t1 := (t ++ [EvGetTransactionCount rpc wallet])%list in
    let cand := dict_set "from" (VStr wallet) tx2 in
    t' = (t1 ++ [EvEstimateGas rpc cand])%list /\
    convert_numeric_fields numeric_keys
      (dict_set "gas"
         (VInt match eth_estimate_gas E t1 rpc cand with
               | Ok g => g
               | Raise _ => FALLBACK_GAS
               end) tx2) = Ok tx.
Proof.
  unfold enrich_approval. intros H. run_inv H.
  apply lift_Ok in Hm. destruct Hm as [Hp ->].
  apply lift_Ok in Hm0. destruct Hm0 as [H1 ->].
  apply get_transaction_count_Ok in Hm1. destruct Hm1 as [Hn ->].
  rewrite estimate_gas_or_fallback_run in Hm2. inversion Hm2; subst.
  apply lift_Ok in H. destruct H as [H ->].
  apply as_dict_Ok in Hp.
  exists a, a0, a1. repeat split; auto.
Qed.

Lemma enrich_swap_inv (payload : value) (t t' : trace) (tx : dict) :
  enrich_swap E self payload t = (Ok tx, t') ->
  exists p tx1 n,
    convert_addresses_to_checksum E payload = VDict p /\
    checksum_to_and_from E self p = Ok tx1 /\
    eth_get_transaction_count E t rpc wallet = Ok n /\
    let tx2 := dict_set "chainId" (VInt (chain_id self))
                 (dict_set "nonce" (VInt n) tx1) in
    let t1 := (t ++ [EvGetTransactionCount rpc wallet])%list in
    let cand := dict_set "from" (VStr wallet) tx2 in
    (gas_missing_or_zero tx2 = true /\
     t' = (t1 ++ [EvEstimateGas rpc cand])%list /\
     convert_numeric_fields numeric_keys
       (dict_set "gas"
          (VInt match eth_estimate_gas E t1 rpc cand with
                | Ok g => g
                | Raise _ => FALLBACK_GAS
                end) tx2) = Ok tx)
    \/
    (gas_missing_or_zero tx2 = false /\ t' = t1 /\
     convert_numeric_fields numeric_keys tx2 = Ok tx).
Proof.
  unfold enrich_swap. intros H. run_inv H.
  apply lift_Ok in Hm. destruct Hm as [Hp ->].
  apply lift_Ok in Hm0. destruct Hm0 as [H1 ->].
  apply get_transaction_count_Ok in Hm1. destruct Hm1 as [Hn ->].
  apply lift_Ok in H. destruct H as [H ->].
  apply as_dict_Ok in Hp.
  exists a, a0, a1. repeat split; auto.
  destruct (gas_missing_or_zero _) eqn:Hg.
  - left. rewrite estimate_gas_or_fallback_run in Hm2. inversion Hm2; subst.
    repeat split; auto.
  - right. inversion Hm2; subst. repeat split; auto.
Qed.

Lemma build_approve_inv (token amount : value) (t t' : trace) (tx : dict) :
  build_tx_for_approve_trade_with_router E self token amount t = (Ok tx, t') ->
  exists payload t0,
    fetch_approval_payload E self token amount t = (Ok payload, t0) /\
    enrich_approval E self payload t0 = (Ok tx, t').
Proof.
  unfold build_tx_for_approve_trade_with_router.
  rewrite try_except_reraise. intros H. run_inv H. eauto.
Qed.

Lemma build_swap_inv (params : dict) (t t' : trace) (tx : dict) :
  build_tx_for_swap E self params t = (Ok (Some tx), t') ->
  exists payload t0,
    fetch_swap_payload E self params t = (Ok payload, t0) /\
    enrich_swap E self payload t0 = (Ok tx, t').
Proof.
  unfold build_tx_for_swap. intros H.
  apply try_except_Ok in H. destruct H as [H|(e & t1 & _ & H)].
  - run_inv H. inversion H; subst. eauto.
  - inversion H.
Qed.

(** A native integer written into a numeric field survives the loop. *)
Lemma convert_numeric_fields_keeps_int (tx tx' : dict) (k : string) (z : Z) :
  convert_numeric_fields numeric_keys tx = Ok tx' ->
  dict_get k tx = Some (VInt z) -> dict_get k tx' = Some (VInt z).
Proof.
  intros H Hk. destruct (convert_numeric_fields_get _ _ _ H k) as [_ Hs].
  destruct (Hs _ Hk) as [Hin Hout].
  destruct (in_dec string_dec k numeric_keys) as [i|n].
  - destruct (Hin i) as (v' & Hc & Hg). simpl in Hc. now inversion Hc; subst.
  - auto.
Qed.

End Enrichment.

(* ================================================================== *)
(** ** Gas estimation *)
(* ================================================================== *)

(** C6. When the node's gas-estimation call fails, the estimation step
    does not raise: it writes the fallback 500000 into [gas] and the
    build goes on.  The transaction the approval builder returns, and
    the one the swap builder returns, then carries [gas] = 500000. *)
Theorem gas_estimation_fallback (E : Env) (self : InchSwapper) :
  (forall tx t e,
     eth_estimate_gas E t (rpc_url self)
       (dict_set "from" (VStr (wallet_address self)) tx) = Raise e ->
     estimate_gas_or_fallback E self tx t =
     (Ok (dict_set "gas" (VInt 500000) tx),
      (t ++ [EvEstimateGas (rpc_url self)
               (dict_set "from" (VStr (wallet_address self)) tx)])%list)) /\
  (forall token amount t tx t' pre cand e,
     build_tx_for_approve_trade_with_router E self token amount t = (Ok tx, t') ->
     t' = (pre ++ [EvEstimateGas (rpc_url self) cand])%list ->
     eth_estimate_gas E pre (rpc_url self) cand = Raise e ->
     dict_get "gas" tx = Some (VInt 500000)) /\
  (forall params t tx t' pre cand e,
     build_tx_for_swap E self params t = (Ok (Some tx), t') ->
     t' = (pre ++ [EvEstimateGas (rpc_url self) cand])%list ->
     eth_estimate_gas E pre (rpc_url self) cand = Raise e ->
     dict_get "gas" tx = Some (VInt 500000)).
Proof.
  split; [|split].
  - intros tx t e H. rewrite estimate_gas_or_fallback_run. simpl.
    now rewrite H.
  - intros token amount t tx t' pre cand e H Ht He.
    apply build_approve_inv in H. destruct H as (payload & t0 & _ & H).
    apply enrich_approval_inv in H.
    destruct H as (p & tx1 & n & _ & _ & _ & Ht' & Hc).
    rewrite Ht in Ht'. apply app_inj_tail in Ht'. destruct Ht' as [-> Hev].
    inversion Hev; subst. rewrite He in Hc.
    eapply convert_numeric_fields_keeps_int; eauto.
    apply dict_get_set_same.
  - intros params t tx t' pre cand e H Ht He.
    apply build_swap_inv in H. destruct H as (payload & t0 & _ & H).
    apply enrich_swap_inv in H.
    destruct H as (p & tx1 & n & _ & _ & _ & [(_ & Ht' & Hc)|(_ & Ht' & _)]).
    + rewrite Ht in Ht'. apply app_inj_tail in Ht'. destruct Ht' as [-> Hev].
      inversion Hev; subst. rewrite He in Hc.
      eapply convert_numeric_fields_keeps_int; eauto.
      apply dict_get_set_same.
    + rewrite Ht in Ht'. apply app_inj_tail in Ht'. destruct Ht' as [_ Hev].
      discriminate.
Qed.

(** Both builders in the [estimate_fails] scenario. *)
Lemma gas_estimation_fallback_witness :
  estimate_gas_or_fallback (scenario_env estimate_fails) demo_self [] [] =
    (Ok [("gas", VInt 500000)],
     [EvEstimateGas (rpc_url demo_self)
        [("from", VStr (wallet_address demo_self))]]) /\
  (exists tx t',
     build_tx_for_approve_trade_with_router (scenario_env estimate_fails)
       demo_self (VStr USDC) VNone [] = (Ok tx, t') /\
     dict_get "gas" tx = Some (VInt 500000)) /\
  (exists tx t',
     build_tx_for_swap (scenario_env estimate_fails) demo_self
       (swap_params_of demo_self (VStr USDC) (VStr WETH) (VStr "1000") (VInt 1))
       [] = (Ok (Some tx), t') /\
     dict_get "gas" tx = Some (VInt 500000)).
Proof.
  destruct (gas_estimation_fallback (scenario_env estimate_fails) demo_self)
    as (H1 & H2 & H3).
  split; [|split].
  - apply (H1 [] [] NodeFailed). reflexivity.
  - set (run := build_tx_for_approve_trade_with_router
                  (scenario_env estimate_fails) demo_self (VStr USDC) VNone []).
    exists (match fst run with Ok tx => tx | Raise _ => [] end), (snd run).
    split; [vm_compute; reflexivity|].
    apply (H2 (VStr USDC) VNone [] _ (snd run) (removelast (snd run))
              (match last (snd run) (EvSleep 0) with
               | EvEstimateGas _ c => c
               | _ => []
               end) NodeFailed);
      vm_compute; reflexivity.
  - set (params := swap_params_of demo_self (VStr USDC) (VStr WETH)
                     (VStr "1000") (VInt 1)).
    set (run := build_tx_for_swap (scenario_env estimate_fails) demo_self
                  params []).
    exists (match fst run with Ok (Some tx) => tx | _ => [] end), (snd run).
    split; [vm_compute; reflexivity|].
    apply (H3 params [] _ (snd run) (removelast (snd run))
              (match last (snd run) (EvSleep 0) with
               | EvEstimateGas _ c => c
               | _ => []
               end) NodeFailed);
      vm_compute; reflexivity.
Defined.

(* ================================================================== *)
(** ** Transaction enrichment *)
(* ================================================================== *)

Lemma convert_addresses_dict_get (E : Env) (k : string) (d : dict) :
  exists p, convert_addresses_to_checksum E (VDict d) = VDict p /\
    dict_get k p = option_map (convert_addresses_to_checksum E) (dict_get k d).
Proof.
  simpl. eexists. split; [reflexivity|].
  induction d as [|[k' v] d IH]; simpl; [reflexivity|].
  destruct (String.eqb k k'); auto.
Qed.

Lemma convert_addresses_dict_inv (E : Env) (v : value) (p : dict) :
  convert_addresses_to_checksum E v = VDict p -> exists d, v = VDict d.
Proof.
  destruct v; simpl; try discriminate; [|eauto].
  destruct (startswith "0x" s && Nat.eqb (String.length s) 42);
    [|discriminate].
  destruct (startswith "0x" s); [|discriminate].
  destruct (Web3_to_checksum_address _ _); discriminate.
Qed.

Lemma checksum_to_and_from_get (E : Env) (self : InchSwapper) (p tx1 : dict) :
  checksum_to_and_from E self p = Ok tx1 ->
  dict_get "from" tx1 = Some (VStr (wallet_address self)) /\
  forall k, k <> "from" -> k <> "to" -> dict_get k tx1 = dict_get k p.
Proof.
  unfold checksum_to_and_from. intros H.
  destruct (dict_get "to" p) as [to|].
  - destruct (to_checksum_address E to) as [to'|]; inversion H; subst.
    split; [apply dict_get_set_same|].
    intros k Hf Ht. now rewrite !dict_get_set_other.
  - inversion H; subst. split; [apply dict_get_set_same|].
    intros k Hf Ht. now rewrite dict_get_set_other.
Qed.

Ltac key_neq := let H := fresh in intros H; discriminate H.

(** What both enrichments leave in the transaction they return. *)
Lemma enrichment_fields (E : Env) (self : InchSwapper) :
  (forall payload t tx t',
     enrich_approval E self payload t = (Ok tx, t') ->
     dict_get "from" tx = Some (VStr (wallet_address self)) /\
     (exists n,
        eth_get_transaction_count E t (rpc_url self) (wallet_address self)
          = Ok n /\
        dict_get "nonce" tx = Some (VInt n)) /\
     dict_get "chainId" tx = Some (VInt (chain_id self)) /\
     dict_get "value" tx = Some (VInt 0)) /\
  (forall payload t tx t',
     enrich_swap E self payload t = (Ok tx, t') ->
     dict_get "from" tx = Some (VStr (wallet_address self)) /\
     (exists n,
        eth_get_transaction_count E t (rpc_url self) (wallet_address self)
          = Ok n /\
        dict_get "nonce" tx = Some (VInt n)) /\
     dict_get "chainId" tx = Some (VInt (chain_id self)) /\
     exists fields, payload = VDict fields /\
       match dict_get "value" fields with
       | None => dict_get "value" tx = None
       | Some v =>
           exists v',
             to_native_int (convert_addresses_to_checksum E v) = Ok v' /\
             dict_get "value" tx = Some v'
       end).
Proof.
  split.
  - intros payload t tx t' H. apply enrich_approval_inv in H.
    destruct H as (p & tx1 & n & Hp & H1 & Hn & _ & Hc).
    destruct (checksum_to_and_from_get _ _ _ _ H1) as [Hfrom _].
    pose proof (convert_numeric_fields_get _ _ _ Hc) as G.
    repeat split.
    + destruct (G "from") as [_ Gs]. eapply Gs.
      * rewrite !dict_get_set_other by key_neq. exact Hfrom.
      * simpl. intros [X|[X|[X|[X|[]]]]]; discriminate X.
    + exists n. split; auto.
      eapply convert_numeric_fields_keeps_int; eauto.
      rewrite !dict_get_set_other by key_neq. apply dict_get_set_same.
    + destruct (G "chainId") as [_ Gs]. eapply Gs.
      * rewrite !dict_get_set_other by key_neq. apply dict_get_set_same.
      * simpl. intros [X|[X|[X|[X|[]]]]]; discriminate X.
    + eapply convert_numeric_fields_keeps_int; eauto.
      rewrite !dict_get_set_other by key_neq. apply dict_get_set_same.
  - intros payload t tx t' H. apply enrich_swap_inv in H.
    destruct H as (p & tx1 & n & Hp & H1 & Hn & Hcases).
    destruct (checksum_to_and_from_get _ _ _ _ H1) as [Hfrom Hrest].
    destruct (convert_addresses_dict_inv _ _ _ Hp) as (fields & ->).
    destruct (convert_addresses_dict_get E "value" fields) as (p' & Hp' & Hv).
    rewrite Hp in Hp'. inversion Hp'; subst p'. clear Hp'.
    assert (Hc : exists tx2,
               convert_numeric_fields numeric_keys tx2 = Ok tx /\
               dict_get "from" tx2 = Some (VStr (wallet_address self)) /\
               dict_get "nonce" tx2 = Some (VInt n) /\
               dict_get "chainId" tx2 = Some (VInt (chain_id self)) /\
               dict_get "value" tx2 = dict_get "value" p).
    { destruct Hcases as [(_ & _ & Hc)|(_ & _ & Hc)];
        eexists; (split; [exact Hc|]); repeat split;
        rewrite ?dict_get_set_same;
        rewrite ?dict_get_set_other by key_neq;
        rewrite ?dict_get_set_same; auto;
        apply Hrest; key_neq. }
    destruct Hc as (tx2 & Hc & Gf & Gn & Gc & Gv).
    pose proof (convert_numeric_fields_get _ _ _ Hc) as G.
    repeat split.
    + destruct (G "from") as [_ Gs]. eapply Gs; eauto.
      simpl. intros [X|[X|[X|[X|[]]]]]; discriminate X.
    + exists n. split; auto.
      eapply convert_numeric_fields_keeps_int; eauto.
    + destruct (G "chainId") as [_ Gs]. eapply Gs; eauto.
      simpl. intros [X|[X|[X|[X|[]]]]]; discriminate X.
    + exists fields. split; auto.
      rewrite Hv in Gv. destruct (G "value") as [Gnone Gsome].
      destruct (dict_get "value" fields) as [v|]; simpl in Gv.
      * destruct (Gsome _ Gv) as [Gin _]. apply Gin. simpl. auto.
      * auto.
Qed.

(** C3, as the code has it.  In the transaction either builder returns,
    [from] is the checksummed wallet address, [nonce] is the transaction
    count the node reported for that address when the payload had been
    fetched, and [chainId] is the swapper's chain ID.  The approval
    builder writes [value] = 0 whatever the payload held; the swap
    builder never writes [value]: the field is absent if the payload had
    none and otherwise holds the payload's value, converted to a native
    integer. *)
Theorem transaction_enrichment (E : Env) (self : InchSwapper) :
  (forall token amount t tx t',
     build_tx_for_approve_trade_with_router E self token amount t
       = (Ok tx, t') ->
     exists payload t0,
       fetch_approval_payload E self token amount t = (Ok payload, t0) /\
       dict_get "from" tx = Some (VStr (wallet_address self)) /\
       (exists n,
          eth_get_transaction_count E t0 (rpc_url self) (wallet_address self)
            = Ok n /\
          dict_get "nonce" tx = Some (VInt n)) /\
       dict_get "chainId" tx = Some (VInt (chain_id self)) /\
       dict_get "value" tx = Some (VInt 0)) /\
  (forall params t tx t',
     build_tx_for_swap E self params t = (Ok (Some tx), t') ->
     exists payload t0,
       fetch_swap_payload E self params t = (Ok payload, t0) /\
       dict_get "from" tx = Some (VStr (wallet_address self)) /\
       (exists n,
          eth_get_transaction_count E t0 (rpc_url self) (wallet_address self)
            = Ok n /\
          dict_get "nonce" tx = Some (VInt n)) /\
       dict_get "chainId" tx = Some (VInt (chain_id self)) /\
       exists fields, payload = VDict fields /\
         match dict_get "value" fields with
         | None => dict_get "value" tx = None
         | Some v =>
             exists v',
               to_native_int (convert_addresses_to_checksum E v) = Ok v' /\
               dict_get "value" tx = Some v'
         end).
Proof.
  destruct (enrichment_fields E self) as [HA HS]. split.
  - intros token amount t tx t' H.
    apply build_approve_inv in H. destruct H as (payload & t0 & Hf & He).
    exists payload, t0. split; [exact Hf|]. exact (HA _ _ _ _ He).
  - intros params t tx t' H.
    apply build_swap_inv in H. destruct H as (payload & t0 & Hf & He).
    exists payload, t0. split; [exact Hf|]. exact (HS _ _ _ _ He).
Qed.

(** Both builders in the [happy] scenario. *)
Lemma transaction_enrichment_witness :
  (exists payload t0,
     fetch_approval_payload (scenario_env happy) demo_self (VStr USDC) VNone []
       = (Ok payload, t0) /\
     dict_get "from"
       (built (build_tx_for_approve_trade_with_router (scenario_env happy)
                 demo_self (VStr USDC) VNone []))
       = Some (VStr (wallet_address demo_self)) /\
     (exists n,
        eth_get_transaction_count (scenario_env happy) t0 (rpc_url demo_self)
          (wallet_address demo_self) = Ok n /\
        dict_get "nonce"
          (built (build_tx_for_approve_trade_with_router (scenario_env happy)
                    demo_self (VStr USDC) VNone []))
          = Some (VInt n)) /\
     dict_get "chainId"
       (built (build_tx_for_approve_trade_with_router (scenario_env happy)
                 demo_self (VStr USDC) VNone []))
       = Some (VInt (chain_id demo_self)) /\
     dict_get "value"
       (built (build_tx_for_approve_trade_with_router (scenario_env happy)
                 demo_self (VStr USDC) VNone []))
       = Some (VInt 0)) /\
  (exists payload t0,
     fetch_swap_payload (scenario_env happy) demo_self
       (swap_params_of demo_self (VStr USDC) (VStr WETH)
          (VStr "1000000000000000000") (VInt 1)) []
       = (Ok payload, t0) /\
     dict_get "from" swap_built
       = Some (VStr (wallet_address demo_self)) /\
     (exists n,
        eth_get_transaction_count (scenario_env happy) t0 (rpc_url demo_self)
          (wallet_address demo_self) = Ok n /\
        dict_get "nonce" swap_built = Some (VInt n)) /\
     dict_get "chainId" swap_built = Some (VInt (chain_id demo_self)) /\
     exists fields, payload = VDict fields /\
       match dict_get "value" fields with
       | None => dict_get "value" swap_built = None
       | Some v =>
           exists v',
             to_native_int
               (convert_addresses_to_checksum (scenario_env happy) v) = Ok v' /\
             dict_get "value" swap_built = Some v'
       end).
Proof.
  destruct (transaction_enrichment (scenario_env happy) demo_self) as [HA HS].
  split.
  - apply (HA (VStr USDC) VNone [] _
             (snd (build_tx_for_approve_trade_with_router (scenario_env happy)
                     demo_self (VStr USDC) VNone []))).
    vm_compute. reflexivity.
  - apply (HS (swap_params_of demo_self (VStr USDC) (VStr WETH)
                 (VStr "1000000000000000000") (VInt 1)) [] swap_built
             (snd (build_tx_for_swap (scenario_env happy) demo_self
                     (swap_params_of demo_self (VStr USDC) (VStr WETH)
                        (VStr "1000000000000000000") (VInt 1)) []))).
    vm_compute. reflexivity.
Defined.

(** C3 as stated fails on [value]: an approval payload that already
    carries [value] = "5" comes back with [value] = 0, and a swap payload
    without [value] comes back without it, through both the enrichment
    and the whole builder. *)
Lemma enrichment_value_counterexample :
  (dict_get "value" approval_fields = Some (VStr "5") /\
   dict_get "value"
     (built (enrich_approval (scenario_env happy) demo_self approval_payload []))
     = Some (VInt 0) /\
   dict_get "value"
     (built (build_tx_for_approve_trade_with_router (scenario_env happy)
               demo_self (VStr USDC) VNone []))
     = Some (VInt 0)) /\
  (dict_get "value" swap_fields = None /\
   fst (enrich_swap (scenario_env happy) demo_self swap_payload []) =
     Ok [("from", VStr "0xDE709F2102306220921060314715629080E2FB77");
         ("to", VStr "0x111111125421CA6DC452D289314280A0F8842A65");
         ("data", VStr "0x07ed2379"); ("gas", VInt 46000);
         ("gasPrice", VInt 1000000000); ("nonce", VInt 7);
         ("chainId", VInt 1)] /\
   dict_get "value"
     (built (enrich_swap (scenario_env happy) demo_self swap_payload []))
     = None /\
   fst (build_tx_for_swap (scenario_env happy) demo_self
          (swap_params_of demo_self (VStr USDC) (VStr WETH)
             (VStr "1000000000000000000") (VInt 1)) []) =
     Ok (Some
           [("from", VStr "0xDE709F2102306220921060314715629080E2FB77");
            ("to", VStr "0x111111125421CA6DC452D289314280A0F8842A65");
            ("data", VStr "0x07ed2379"); ("gas", VInt 46000);
            ("gasPrice", VInt 1000000000); ("nonce", VInt 7);
            ("chainId", VInt 1)])).
Proof. vm_compute. repeat split; reflexivity. Qed.

(* ================================================================== *)
(** ** The outcome of perform_swap *)
(* ================================================================== *)

Lemma pending_invariant (r : SwapOutcome) (m : string) :
  pending r -> outcome_invariant (set_message r m).
Proof.
  intros [Hs Ht]. unfold outcome_invariant. simpl. rewrite Hs, Ht.
  repeat split; try discriminate; auto.
Qed.

Lemma success_invariant (r : SwapOutcome) (h : string) :
  outcome_invariant (set_success r h).
Proof. unfold outcome_invariant. simpl. repeat split; auto; discriminate. Qed.

Ltac ret_inv H := unfold ret in H; inversion H; subst; clear H.

Lemma swap_phase_invariant (E : Env) (self : InchSwapper) (r0 : SwapOutcome)
    (src dst amount slippage : value) (t t' : trace) (r : SwapOutcome) :
  pending r0 ->
  swap_phase E self r0 src dst amount slippage t = (Ok r, t') ->
  outcome_invariant r.
Proof.
  intros Hp H. unfold swap_phase in H. run_inv H.
  destruct a0 as [tx|].
  - destruct (truthy (VDict tx)).
    + run_inv H. destruct (truthy (VStr a0)); ret_inv H.
      * apply success_invariant.
      * now apply pending_invariant.
    + ret_inv H. now apply pending_invariant.
  - ret_inv H. now apply pending_invariant.
Qed.

Lemma approval_phase_invariant (E : Env) (self : InchSwapper)
    (r0 : SwapOutcome) (src dst amount slippage : value) (t t' : trace)
    (r : SwapOutcome) :
  pending r0 ->
  approval_phase E self r0 src dst amount slippage t = (Ok r, t') ->
  outcome_invariant r.
Proof.
  intros Hp H. unfold approval_phase in H.
  destruct AUTO_APPROVE; [|ret_inv H; now apply pending_invariant].
  run_inv H. destruct (truthy (VDict a)).
  - run_inv H. destruct (truthy (VStr a0)).
    + run_inv H. eapply swap_phase_invariant; [|exact H].
      destruct Hp. split; auto.
    + ret_inv H. now apply pending_invariant.
  - ret_inv H. now apply pending_invariant.
Qed.

(** C9. Every outcome [perform_swap] returns has [success] true exactly
    when [tx_hash] is set; a successful outcome carries the message
    "Swap completed successfully"; a failed one has no [tx_hash]. *)
Theorem perform_swap_outcome_invariant (E : Env) (self : InchSwapper)
    (src dst amount slippage : value) (t t' : trace) (r : SwapOutcome) :
  perform_swap E self src dst amount slippage t = (Ok r, t') ->
  (success r = true <-> tx_hash r <> None) /\
  (success r = true -> message r = "Swap completed successfully") /\
  (success r = false -> tx_hash r = None).
Proof.
  intros H. unfold perform_swap in H. run_inv H.
  assert (Hp : pending result0) by (split; reflexivity).
  destruct (a2 <? a3).
  - eapply approval_phase_invariant; eauto.
  - eapply swap_phase_invariant; eauto.
Qed.

(** A successful run and a failed one. *)
Lemma perform_swap_outcome_invariant_witness :
  (success {| success := true; message := "Swap completed successfully";
              tx_hash := Some "0x42"; approval_tx_hash := Some "0x41" |} = true
   <-> tx_hash {| success := true; message := "Swap completed successfully";
                  tx_hash := Some "0x42"; approval_tx_hash := Some "0x41" |}
       <> None) /\
  (success {| success := false; message := "Failed to build swap transaction";
              tx_hash := None; approval_tx_hash := Some "0x41" |} = false ->
   tx_hash {| success := false; message := "Failed to build swap transaction";
              tx_hash := None; approval_tx_hash := Some "0x41" |} = None).
Proof.
  split.
  - apply (perform_swap_outcome_invariant (scenario_env happy) demo_self
             (VStr USDC) (VStr WETH) (VStr "1000000000000000000") (VInt 1) []
             (snd (perform_swap (scenario_env happy) demo_self (VStr USDC)
                     (VStr WETH) (VStr "1000000000000000000") (VInt 1) []))).
    vm_compute. reflexivity.
  - apply (perform_swap_outcome_invariant (scenario_env swap_build_fails)
             demo_self
             (VStr USDC) (VStr WETH) (VStr "1000000000000000000") (VInt 1) []
             (snd (perform_swap (scenario_env swap_build_fails) demo_self
                     (VStr USDC) (VStr WETH) (VStr "1000000000000000000")
                     (VInt 1) []))).
    vm_compute. reflexivity.
Defined.

(* ================================================================== *)
(** ** The paths through perform_swap *)
(* ================================================================== *)

Lemma dict_get_truthy (k : string) (v : value) (d : dict) :
  dict_get k d = Some v -> truthy (VDict d) = true.
Proof. destruct d; [discriminate|reflexivity]. Qed.

(** A transaction that a builder returns is never empty. *)
Lemma build_approve_truthy (E : Env) (self : InchSwapper)
    (token amount : value) (t t' : trace) (tx : dict) :
  build_tx_for_approve_trade_with_router E self token amount t = (Ok tx, t') ->
  truthy (VDict tx) = true.
Proof.
  intros H. apply build_approve_inv in H. destruct H as (payload & t0 & _ & H).
  apply enrich_approval_inv in H.
  destruct H as (p & tx1 & n & _ & _ & _ & _ & Hc).
  eapply (dict_get_truthy "gas").
  eapply convert_numeric_fields_keeps_int; eauto. apply dict_get_set_same.
Qed.

Lemma build_swap_truthy (E : Env) (self : InchSwapper)
    (params : dict) (t t' : trace) (tx : dict) :
  build_tx_for_swap E self params t = (Ok (Some tx), t') ->
  truthy (VDict tx) = true.
Proof.
  intros H. apply build_swap_inv in H. destruct H as (payload & t0 & _ & H).
  apply enrich_swap_inv in H.
  destruct H as (p & tx1 & n & _ & _ & _ & [(_ & _ & Hc)|(_ & _ & Hc)]);
    eapply (dict_get_truthy "nonce");
    (eapply convert_numeric_fields_keeps_int; [exact Hc|]);
    rewrite ?dict_get_set_other by key_neq; apply dict_get_set_same.
Qed.

(** [build_tx_for_swap] never raises. *)
Lemma build_swap_total (E : Env) (self : InchSwapper) (params : dict)
    (t : trace) :
  exists o t', build_tx_for_swap E self params t = (Ok o, t').
Proof.
  unfold build_tx_for_swap, try_except.
  destruct (bind _ _ t) as [[o|e] t1]; unfold ret; eauto.
Qed.

(** A hash that [sign_and_send_transaction] returns is never empty. *)
Lemma sign_and_send_truthy (E : Env) (self : InchSwapper) (tx : dict)
    (t t' : trace) (h : string) :
  sign_and_send_transaction E self tx t = (Ok h, t') ->
  truthy (VStr h) = true.
Proof.
  unfold sign_and_send_transaction. rewrite try_except_reraise.
  intros H. run_inv H. ret_inv H. reflexivity.
Qed.

Section Paths.

Variable E : Env.
Variable self : InchSwapper.
Variables src dst amount slippage : value.

Lemma perform_swap_decision (t : trace) (src' dst' : value) (have need : Z)
    (t1 : trace) :
  allowance_known E self src dst amount t src' dst' have need t1 ->
  perform_swap E self src dst amount slippage t =
  if have <? need
  then approval_phase E self result0 src' dst' amount slippage t1
  else swap_phase E self result0 src' dst' amount slippage t1.
Proof.
  intros (Hs & Hd & al & Hc & Hh & Hn).
  unfold perform_swap, bind, lift. rewrite Hs, Hd. simpl.
  rewrite Hc, Hh, Hn. now destruct (have <? need).
Qed.

Lemma approval_phase_confirmed (r0 : SwapOutcome) (src' dst' : value)
    (t1 : trace) (h : string) (t4 : trace) :
  approval_confirmed E self src' t1 h t4 ->
  approval_phase E self r0 src' dst' amount slippage t1 =
  swap_phase E self (set_approval_tx_hash r0 h) src' dst' amount slippage t4.
Proof.
  intros (atx & t2 & t3 & Hb & Hs & Hw).
  unfold approval_phase, AUTO_APPROVE. cbv iota.
  rewrite (bind_step _ _ _ _ _ Hb), (build_approve_truthy _ _ _ _ _ _ _ Hb).
  rewrite (bind_step _ _ _ _ _ Hs), (sign_and_send_truthy _ _ _ _ _ _ Hs).
  now rewrite (bind_step _ _ _ _ _ Hw).
Qed.

Lemma approval_phase_build_raises (r0 : SwapOutcome) (src' dst' : value)
    (t1 t2 : trace) (e : exn) :
  build_tx_for_approve_trade_with_router E self src' VNone t1 = (Raise e, t2) ->
  approval_phase E self r0 src' dst' amount slippage t1 = (Raise e, t2).
Proof.
  intros Hb. unfold approval_phase, AUTO_APPROVE. cbv iota.
  now rewrite (bind_raise _ _ _ _ _ Hb).
Qed.

Lemma swap_phase_build_fails (r0 : SwapOutcome) (src' dst' : value)
    (t t1 : trace) :
  build_tx_for_swap E self (swap_params_of self src' dst' amount slippage)
    (t ++ [EvSleep 2])%list = (Ok None, t1) ->
  swap_phase E self r0 src' dst' amount slippage t =
  (Ok (set_message r0 "Failed to build swap transaction"), t1).
Proof.
  intros Hb. unfold swap_phase.
  rewrite (bind_step (sleep 2) _ t (t ++ [EvSleep 2])%list tt eq_refl).
  now rewrite (bind_step _ _ _ _ _ Hb).
Qed.

Lemma swap_phase_send_raises (r0 : SwapOutcome) (src' dst' : value)
    (t t1 t2 : trace) (swap_tx : dict) (e : exn) :
  build_tx_for_swap E self (swap_params_of self src' dst' amount slippage)
    (t ++ [EvSleep 2])%list = (Ok (Some swap_tx), t1) ->
  sign_and_send_transaction E self swap_tx t1 = (Raise e, t2) ->
  swap_phase E self r0 src' dst' amount slippage t = (Raise e, t2).
Proof.
  intros Hb Hs. unfold swap_phase.
  rewrite (bind_step (sleep 2) _ t (t ++ [EvSleep 2])%list tt eq_refl).
  rewrite (bind_step _ _ _ _ _ Hb), (build_swap_truthy _ _ _ _ _ _ Hb).
  now rewrite (bind_raise _ _ _ _ _ Hs).
Qed.

Lemma swap_phase_keeps_approval (r0 r : SwapOutcome) (src' dst' : value)
    (t t' : trace) :
  swap_phase E self r0 src' dst' amount slippage t = (Ok r, t') ->
  approval_tx_hash r = approval_tx_hash r0.
Proof.
  intros H. unfold swap_phase in H. run_inv H.
  destruct a0 as [tx|]; [|ret_inv H; reflexivity].
  destruct (truthy (VDict tx)); [|ret_inv H; reflexivity].
  run_inv H. destruct (truthy (VStr a0)); ret_inv H; reflexivity.
Qed.

End Paths.

(* ================================================================== *)
(** ** Failures across the approval/swap boundary *)
(* ================================================================== *)

(** After a confirmed approval.  When the swap build then fails,
    [perform_swap] returns a failed outcome that carries the approval
    hash next to the message "Failed to build swap transaction".  When
    instead the swap is built and its signing or broadcast fails,
    [sign_and_send_transaction] re-raises and [perform_swap] ends with
    that exception: no outcome is returned, and the [else] of lines
    325-327 is not reached. *)
Lemma perform_swap_after_approval (E : Env) (self : InchSwapper)
    (src dst amount slippage src' dst' : value) (have need : Z)
    (t t1 t4 : trace) (h : string) :
  allowance_known E self src dst amount t src' dst' have need t1 ->
  have < need ->
  approval_confirmed E self src' t1 h t4 ->
  (forall t5,
     build_tx_for_swap E self (swap_params_of self src' dst' amount slippage)
       (t4 ++ [EvSleep 2])%list = (Ok None, t5) ->
     perform_swap E self src dst amount slippage t =
     (Ok {| success := false;
            message := "Failed to build swap transaction";
            tx_hash := None;
            approval_tx_hash := Some h |}, t5)) /\
  (forall swap_tx t5 e t6,
     build_tx_for_swap E self (swap_params_of self src' dst' amount slippage)
       (t4 ++ [EvSleep 2])%list = (Ok (Some swap_tx), t5) ->
     sign_and_send_transaction E self swap_tx t5 = (Raise e, t6) ->
     perform_swap E self src dst amount slippage t = (Raise e, t6)).
Proof.
  intros Hk Hlt Hc.
  assert (Hp : perform_swap E self src dst amount slippage t =
               swap_phase E self (set_approval_tx_hash result0 h)
                 src' dst' amount slippage t4).
  { rewrite (perform_swap_decision _ _ _ _ _ _ _ _ _ _ _ _ Hk).
    apply Z.ltb_lt in Hlt. rewrite Hlt.
    now apply approval_phase_confirmed. }
  split.
  - intros t5 Hb. rewrite Hp. now rewrite (swap_phase_build_fails _ _ _ _ _ _ _ _ _ Hb).
  - intros swap_tx t5 e t6 Hb Hs. rewrite Hp.
    eapply swap_phase_send_raises; eauto.
Qed.

(** The [swap_build_fails] scenario: the approval hash is reported. *)
Example perform_swap_after_approval_build_fails :
  fst (perform_swap (scenario_env swap_build_fails) demo_self
         (VStr USDC) (VStr WETH) (VStr "1000000000000000000") (VInt 1) []) =
  Ok {| success := false;
        message := "Failed to build swap transaction";
        tx_hash := None;
        approval_tx_hash := Some "0x41" |}.
Proof.
  edestruct (perform_swap_after_approval (scenario_env swap_build_fails)
               demo_self (VStr USDC) (VStr WETH)
               (VStr "1000000000000000000") (VInt 1))
    with (t := @nil event) as [H _].
  - unfold allowance_known. split; [vm_compute; reflexivity|].
    split; [vm_compute; reflexivity|].
    eexists. split; [vm_compute; reflexivity|].
    split; vm_compute; reflexivity.
  - reflexivity.
  - unfold approval_confirmed. do 3 eexists.
    split; [vm_compute; reflexivity|].
    split; vm_compute; reflexivity.
  - erewrite H; [reflexivity|]. vm_compute. reflexivity.
Qed.

(** C1, where the code departs from it.  In the scenario
    [swap_send_fails] the approval transaction is broadcast (hash 0x41)
    and confirmed, the swap transaction is built, and its broadcast
    fails.  C1 asks for a failed outcome whose [approval_tx_hash] is
    0x41.  The code raises instead: [perform_swap] returns no outcome,
    the endpoint answers HTTP 500, and the approval hash is not
    reported.  The sibling failure, a failed swap build, does return the
    outcome with the hash. *)
Theorem swap_send_failure_loses_approval_hash :
  In (EvWaitForReceipt (rpc_url demo_self) "0x41")
     (snd (perform_swap (scenario_env swap_send_fails) demo_self
             (VStr USDC) (VStr WETH) (VStr "1000000000000000000") (VInt 1) []))
  /\ fst (perform_swap (scenario_env swap_send_fails) demo_self
            (VStr USDC) (VStr WETH) (VStr "1000000000000000000") (VInt 1) [])
     = Raise NodeFailed
  /\ fst (swap_tokens (scenario_env swap_send_fails) demo_request [])
     = HTTPException500 "Swap failed: execution reverted"
  /\ fst (swap_tokens (scenario_env swap_build_fails) demo_request [])
     = Response200 {| success := false;
                      message := "Failed to build swap transaction";
                      tx_hash := None;
                      approval_tx_hash := Some "0x41" |}.
Proof.
  vm_compute. repeat split; try reflexivity.
  do 8 right. left. reflexivity.
Qed.

(* ================================================================== *)
(** ** Build failures *)
(* ================================================================== *)

Lemma not_signed_or_sent_benign (ev : event) :
  benign ev -> not_signed_or_sent ev.
Proof. destruct ev; simpl; tauto. Qed.

Lemma allowance_known_events (E : Env) (self : InchSwapper)
    (src dst amount : value) (t : trace) (src' dst' : value) (have need : Z)
    (t1 : trace) :
  allowance_known E self src dst amount t src' dst' have need t1 ->
  exists evs, t1 = (t ++ evs)%list /\ Forall not_signed_or_sent evs.
Proof.
  intros (_ & _ & al & Hc & _).
  eapply emits_check_allowance; [apply not_signed_or_sent_benign| |exact Hc].
  intros ps. exact I.
Qed.

Lemma swap_tokens_raises (E : Env) (request : SwapRequest)
    (swapper : InchSwapper) (t t' : trace) (e : exn) :
  InchSwapper_init E (req_wallet_address request) (req_private_key request)
    (req_chain_id request) = Ok swapper ->
  perform_swap E swapper (VStr (req_src_token request))
    (VStr (req_dst_token request)) (VStr (req_amount request))
    (req_slippage request) t = (Raise e, t') ->
  swap_tokens E request t
  = (HTTPException500 ("Swap failed: " ++ exn_str e), t').
Proof. intros Hi Hp. unfold swap_tokens. now rewrite Hi, Hp. Qed.

(** C2, as the code has it.  [build_tx_for_swap] never raises: a failed
    swap build is the value [None], and [perform_swap] then returns a
    failed outcome with the message "Failed to build swap transaction",
    nothing having been signed or broadcast since the swap step began
    (nor, when no approval was needed, since the request began).  A
    failed approval build is different: the builder re-raises, so
    [perform_swap] ends with that exception and returns no outcome,
    nothing having been signed or broadcast, and the endpoint turns the
    exception into an HTTP 500 answer. *)
Theorem build_failure_outcome (E : Env) (self : InchSwapper) :
  (forall params t,
     exists o t', build_tx_for_swap E self params t = (Ok o, t')) /\
  (forall r0 src' dst' amount slippage t t1,
     build_tx_for_swap E self (swap_params_of self src' dst' amount slippage)
       (t ++ [EvSleep 2])%list = (Ok None, t1) ->
     swap_phase E self r0 src' dst' amount slippage t =
       (Ok (set_message r0 "Failed to build swap transaction"), t1) /\
     exists evs, t1 = (t ++ evs)%list /\ Forall not_signed_or_sent evs) /\
  (forall src dst amount slippage src' dst' have need t t1 t2,
     allowance_known E self src dst amount t src' dst' have need t1 ->
     need <= have ->
     build_tx_for_swap E self (swap_params_of self src' dst' amount slippage)
       (t1 ++ [EvSleep 2])%list = (Ok None, t2) ->
     perform_swap E self src dst amount slippage t =
       (Ok {| success := false;
              message := "Failed to build swap transaction";
              tx_hash := None;
              approval_tx_hash := None |}, t2) /\
     exists evs, t2 = (t ++ evs)%list /\ Forall not_signed_or_sent evs) /\
  (forall src dst amount slippage src' dst' have need t t1 t2 e,
     allowance_known E self src dst amount t src' dst' have need t1 ->
     have < need ->
     build_tx_for_approve_trade_with_router E self src' VNone t1
       = (Raise e, t2) ->
     perform_swap E self src dst amount slippage t = (Raise e, t2) /\
     exists evs, t2 = (t ++ evs)%list /\ Forall not_signed_or_sent evs) /\
  (forall request swapper t t' e,
     InchSwapper_init E (req_wallet_address request) (req_private_key request)
       (req_chain_id request) = Ok swapper ->
     perform_swap E swapper (VStr (req_src_token request))
       (VStr (req_dst_token request)) (VStr (req_amount request))
       (req_slippage request) t = (Raise e, t') ->
     swap_tokens E request t
     = (HTTPException500 ("Swap failed: " ++ exn_str e), t')).
Proof.
  assert (Hswap : forall params t o t1,
            build_tx_for_swap E self params (t ++ [EvSleep 2])%list = (o, t1) ->
            exists evs, t1 = (t ++ evs)%list /\ Forall not_signed_or_sent evs).
  { intros params t o t1 Hb.
    destruct (emits_build_swap E self not_signed_or_sent
                not_signed_or_sent_benign params (fun _ => I) _ _ _ Hb)
      as (evs & -> & F).
    exists (EvSleep 2 :: evs). split; [now rewrite <- app_assoc|].
    constructor; [exact I|exact F]. }
  split; [|split; [|split; [|split]]].
  - intros. apply build_swap_total.
  - intros r0 src' dst' amount slippage t t1 Hb. split.
    + now apply swap_phase_build_fails.
    + eapply Hswap; eauto.
  - intros src dst amount slippage src' dst' have need t t1 t2 Hk Hle Hb.
    split.
    + rewrite (perform_swap_decision _ _ _ _ _ _ _ _ _ _ _ _ Hk).
      apply Z.ltb_ge in Hle. rewrite Hle.
      now rewrite (swap_phase_build_fails _ _ _ _ _ _ _ _ _ Hb).
    + destruct (allowance_known_events _ _ _ _ _ _ _ _ _ _ _ Hk)
        as (evs1 & -> & F1).
      destruct (Hswap _ _ _ _ Hb) as (evs2 & -> & F2).
      exists (evs1 ++ evs2)%list. split; [now rewrite app_assoc|].
      now apply Forall_app.
  - intros src dst amount slippage src' dst' have need t t1 t2 e Hk Hlt Hb.
    split.
    + rewrite (perform_swap_decision _ _ _ _ _ _ _ _ _ _ _ _ Hk).
      apply Z.ltb_lt in Hlt. rewrite Hlt.
      now apply approval_phase_build_raises.
    + destruct (allowance_known_events _ _ _ _ _ _ _ _ _ _ _ Hk)
        as (evs1 & -> & F1).
      destruct (emits_build_approve E self not_signed_or_sent
                  not_signed_or_sent_benign src' VNone (fun _ => I) _ _ _ Hb)
        as (evs2 & -> & F2).
      exists (evs1 ++ evs2)%list. split; [now rewrite app_assoc|].
      now apply Forall_app.
  - intros. now apply swap_tokens_raises with (swapper := swapper).
Qed.

(** A failed swap build without approval, and a failed approval build. *)
Lemma build_failure_outcome_witness :
  fst (perform_swap (scenario_env direct_swap_build_fails) demo_self
         (VStr USDC) (VStr WETH) (VStr "1000000000000000000") (VInt 1) []) =
    Ok {| success := false;
          message := "Failed to build swap transaction";
          tx_hash := None;
          approval_tx_hash := None |} /\
  fst (perform_swap (scenario_env approval_build_fails) demo_self
         (VStr USDC) (VStr WETH) (VStr "1000000000000000000") (VInt 1) []) =
    Raise RequestFailed.
Proof.
  split.
  - destruct (build_failure_outcome (scenario_env direct_swap_build_fails)
                demo_self) as (_ & _ & H & _).
    edestruct (H (VStr USDC) (VStr WETH) (VStr "1000000000000000000") (VInt 1))
      with (t := @nil event) as [Hp _].
    + unfold allowance_known. split; [vm_compute; reflexivity|].
      split; [vm_compute; reflexivity|].
      eexists. split; [vm_compute; reflexivity|].
      split; vm_compute; reflexivity.
    + vm_compute. discriminate.
    + vm_compute. reflexivity.
    + rewrite Hp. reflexivity.
  - destruct (build_failure_outcome (scenario_env approval_build_fails)
                demo_self) as (_ & _ & _ & H & _).
    edestruct (H (VStr USDC) (VStr WETH) (VStr "1000000000000000000") (VInt 1))
      with (t := @nil event) as [Hp _].
    + unfold allowance_known. split; [vm_compute; reflexivity|].
      split; [vm_compute; reflexivity|].
      eexists. split; [vm_compute; reflexivity|].
      split; vm_compute; reflexivity.
    + reflexivity.
    + vm_compute. reflexivity.
    + rewrite Hp. reflexivity.
Defined.

(** C2 as stated fails at the approval build: when the quoting service
    cannot deliver the approval payload, [perform_swap] raises instead of
    returning an outcome, and the endpoint answers HTTP 500. *)
Lemma approval_build_failure_counterexample :
  fst (perform_swap (scenario_env approval_build_fails) demo_self
         (VStr USDC) (VStr WETH) (VStr "1000000000000000000") (VInt 1) [])
    = Raise RequestFailed
  /\ fst (swap_tokens (scenario_env approval_build_fails) demo_request [])
     = HTTPException500 "Swap failed: 503 Server Error".
Proof. vm_compute. repeat split; reflexivity. Qed.

(* ================================================================== *)
(** ** The approval decision *)
(* ================================================================== *)

Lemma append_cancel_l (a b c : string) : a ++ b = a ++ c -> b = c.
Proof.
  induction a as [|x a IH]; simpl; intros H; [exact H|].
  injection H as H. auto.
Qed.

Lemma no_approval_event_benign (E : Env) (self : InchSwapper) (ev : event) :
  benign ev -> no_approval_event E self ev.
Proof. destruct ev; simpl; tauto. Qed.

Lemma swap_url_not_approval (E : Env) (self : InchSwapper) (ps ps' : dict) :
  api_request_url E self "/swap" ps
  <> api_request_url E self "/approve/transaction" ps'.
Proof.
  unfold api_request_url. intros H. apply append_cancel_l in H.
  simpl in H. discriminate H.
Qed.

Lemma allowance_url_not_approval (E : Env) (self : InchSwapper)
    (ps ps' : dict) :
  api_request_url E self "/approve/allowance" ps
  <> api_request_url E self "/approve/transaction" ps'.
Proof.
  unfold api_request_url. intros H. apply append_cancel_l in H.
  simpl in H. discriminate H.
Qed.

Lemma emits_swap_phase_no_approval (E : Env) (self : InchSwapper)
    (r : SwapOutcome) (src dst amount slippage : value) :
  emits (no_approval_event E self)
        (swap_phase E self r src dst amount slippage).
Proof.
  unfold swap_phase. apply emits_bind.
  { apply emits_sleep, no_approval_event_benign. }
  intros _. apply emits_bind.
  - apply emits_build_swap; [apply no_approval_event_benign|].
    intros ps ps'. apply swap_url_not_approval.
  - intros [tx|]; [|apply emits_ret].
    destruct (truthy (VDict tx)); [|apply emits_ret].
    apply emits_bind.
    + apply emits_sign_and_send; [exact I|exact (fun _ _ => I)].
    + intros h. destruct (truthy (VStr h)); apply emits_ret.
Qed.

(** C4. The allowance and the amount are compared as unbounded integers.
    When the allowance is at least the amount, [perform_swap] goes from
    the allowance check straight to the swap with the empty outcome: the
    run, whether it returns or raises, requests no approval payload and
    waits for no approval receipt, and every outcome it returns has
    [approval_tx_hash] = [None]. *)
Theorem sufficient_allowance_skips_approval (E : Env) (self : InchSwapper)
    (src dst amount slippage src' dst' : value) (have need : Z)
    (t t1 : trace) :
  allowance_known E self src dst amount t src' dst' have need t1 ->
  need <= have ->
  perform_swap E self src dst amount slippage t =
    swap_phase E self result0 src' dst' amount slippage t1 /\
  (forall r t',
     perform_swap E self src dst amount slippage t = (Ok r, t') ->
     approval_tx_hash r = None) /\
  (forall r t',
     perform_swap E self src dst amount slippage t = (r, t') ->
     exists evs, t' = (t ++ evs)%list /\
                 Forall (no_approval_event E self) evs).
Proof.
  intros Hk Hle.
  assert (Hp : perform_swap E self src dst amount slippage t =
               swap_phase E self result0 src' dst' amount slippage t1).
  { rewrite (perform_swap_decision _ _ _ _ _ _ _ _ _ _ _ _ Hk).
    apply Z.ltb_ge in Hle. now rewrite Hle. }
  split; [exact Hp|]. split.
  - intros r t' H. rewrite Hp in H.
    now rewrite (swap_phase_keeps_approval _ _ _ _ _ _ _ _ _ _ H).
  - intros r t' H. rewrite Hp in H.
    destruct Hk as (_ & _ & al & Hc & _).
    destruct (emits_check_allowance E self (no_approval_event E self)
                (no_approval_event_benign E self) src'
                (fun ps ps' => allowance_url_not_approval E self ps ps')
                _ _ _ Hc) as (evs1 & -> & F1).
    destruct (emits_swap_phase_no_approval _ _ _ _ _ _ _ _ _ _ H)
      as (evs2 & -> & F2).
    exists (evs1 ++ evs2)%list. split; [now rewrite app_assoc|].
    now apply Forall_app.
Qed.

(** An allowance of 2^128 against an amount of 10^29. *)
Lemma sufficient_allowance_skips_approval_witness :
  py_int (VStr "340282366920938463463374607431768211456") = Ok (2 ^ 128) /\
  py_int (VStr "100000000000000000000000000000") = Ok (10 ^ 29) /\
  fst (perform_swap (scenario_env allowed) demo_self (VStr USDC) (VStr WETH)
         (VStr "100000000000000000000000000000") (VInt 1) []) =
    Ok {| success := true;
          message := "Swap completed successfully";
          tx_hash := Some "0x42";
          approval_tx_hash := None |} /\
  approval_tx_hash
    {| success := true;
       message := "Swap completed successfully";
       tx_hash := Some "0x42";
       approval_tx_hash := None |} = None.
Proof.
  split; [reflexivity|]. split; [reflexivity|].
  split; [vm_compute; reflexivity|].
  edestruct (sufficient_allowance_skips_approval (scenario_env allowed)
               demo_self (VStr USDC) (VStr WETH)
               (VStr "100000000000000000000000000000") (VInt 1))
    with (t := @nil event) as (_ & H & _).
  - unfold allowance_known. split; [vm_compute; reflexivity|].
    split; [vm_compute; reflexivity|].
    eexists. split; [vm_compute; reflexivity|].
    split; vm_compute; reflexivity.
  - vm_compute. discriminate.
  - eapply H. vm_compute. reflexivity.
Defined.

(* ================================================================== *)
(** ** Failure of the allowance lookup *)
(* ================================================================== *)


Lemma check_allowance_run (E : Env) (self : InchSwapper)
    (token token' : value) (t : trace) :
  to_checksum_address E token = Ok token' ->
  check_allowance E self token t =
  (match http_get E (t ++ [EvSleep 1])%list (allowance_url E self token') with
   | Ok (VDict d) =>
       Ok (match dict_get "allowance" d with Some v => v | None => VNone end)
   | Ok _ => Raise (Exn AttributeError "object has no attribute 'get'")
   | Raise e => if is_RequestException e then Ok (VStr "0") else Raise e
   end,
   (t ++ [EvSleep 1; EvHttpGet (allowance_url E self token')])%list).
Proof.
  intros Ht. unfold check_allowance, try_except, bind, lift, sleep,
    requests_get, call, ret, raise, allowance_url.
  rewrite Ht. rewrite <- app_assoc. simpl.
  destruct (http_get E _ _) as [[]|e]; try reflexivity.
  now destruct (is_RequestException e).
Qed.





(* ================================================================== *)
(** ** More on address canonicalization *)
(* ================================================================== *)

Lemma startswith_0x_inv (s : string) :
  startswith "0x" s = true -> exists r, s = "0x" ++ r.
Proof.
  unfold startswith. destruct s as [|a s]; [discriminate|].
  destruct a as [[] [] [] [] [] [] [] []];
    try (destruct s; discriminate).
  destruct s as [|b r]; [discriminate|].
  destruct b as [[] [] [] [] [] [] [] []];
    try (destruct r; discriminate).
  intros _. now exists r.
Qed.

Lemma str_lower_0x (x : string) :
  str_lower (String "0" (String "x" x)) = String "0" (String "x" (str_lower x)).
Proof. reflexivity. Qed.

Lemma str_lower_length (s : string) :
  String.length (str_lower s) = String.length s.
Proof. induction s; simpl; auto. Qed.

Lemma is_hex_digit_lower (c : ascii) :
  is_hex_digit (ascii_lower c) = is_hex_digit c.
Proof. destruct c as [[] [] [] [] [] [] [] []]; reflexivity. Qed.

Lemma is_hex_body_lower (b : string) :
  is_hex_body (str_lower b) = is_hex_body b.
Proof.
  unfold is_hex_body. rewrite str_lower_length. f_equal.
  induction b as [|c b IH]; simpl; [reflexivity|].
  now rewrite is_hex_digit_lower, IH.
Qed.

Lemma checksum_case_length (body : string) :
  forall hash, String.length (checksum_case hash body) = String.length body.
Proof.
  induction body as [|c body IH]; intros hash; simpl; [reflexivity|].
  destruct hash; simpl; now rewrite IH.
Qed.

(** On a string written [0x] followed by [r], the library function
    depends on the lower-case form of [r] only. *)
Lemma Web3_checksum_prefixed (k : string -> string) (r : string) :
  Web3_to_checksum_address k (str_lower ("0x" ++ r)) =
  if is_hex_body r
  then Ok ("0x" ++ checksum_case (k (str_lower r)) (str_lower r))
  else Raise (Exn ValueError "Unknown format, attempted to normalize address").
Proof.
  unfold Web3_to_checksum_address. rewrite str_lower_idem.
  change ("0x" ++ r) with (String "0" (String "x" r)).
  rewrite (remove_0x_prefix_lower_0x r), is_hex_body_lower. reflexivity.
Qed.

Lemma is_hex_body_length (b : string) :
  is_hex_body b = true -> String.length b = 40%nat.
Proof.
  unfold is_hex_body. intros H. apply andb_prop in H. destruct H as [H _].
  now apply Nat.eqb_eq in H.
Qed.

Lemma to_checksum_address_prefixed (E : Env) (r : string) :
  to_checksum_address E (VStr ("0x" ++ r)) =
  if is_hex_body r
  then Ok (VStr ("0x" ++ checksum_case (keccak_hex E (str_lower r))
                           (str_lower r)))
  else Raise (Exn ValueError "Unknown format, attempted to normalize address").
Proof.
  unfold to_checksum_address. rewrite startswith_0x.
  rewrite Web3_checksum_prefixed. now destruct (is_hex_body r).
Qed.

(** [to_checksum_address] raises exactly on a string that starts with
    [0x] and does not go on with forty hexadecimal digits and nothing
    else; every other argument (a value that is no string, a string
    without the prefix) comes back as it is. *)
Theorem to_checksum_address_raises_iff (E : Env) (address : value) :
  ((exists e, to_checksum_address E address = Raise e) <->
   (exists r, address = VStr ("0x" ++ r) /\ is_hex_body r = false)) /\
  ((forall r, address <> VStr ("0x" ++ r)) ->
   to_checksum_address E address = Ok address).
Proof.
  split; [split|].
  - intros [e H]. destruct address; try discriminate H.
    destruct (startswith "0x" s) eqn:Hp.
    + destruct (startswith_0x_inv _ Hp) as [r ->]. exists r. split; auto.
      rewrite to_checksum_address_prefixed in H.
      destruct (is_hex_body r); [discriminate|reflexivity].
    + unfold to_checksum_address in H. rewrite Hp in H. discriminate.
  - intros (r & -> & Hb). rewrite to_checksum_address_prefixed, Hb. eauto.
  - intros Hn. destruct address; try reflexivity.
    unfold to_checksum_address.
    destruct (startswith "0x" s) eqn:Hp; [|reflexivity].
    destruct (startswith_0x_inv _ Hp) as [r ->]. now contradiction (Hn r).
Qed.

(** The un-prefixed spelling of the demo wallet, and a short one. *)
Lemma to_checksum_address_raises_iff_witness :
  to_checksum_address (scenario_env happy)
    (VStr "de709f2102306220921060314715629080e2fb77")
  = Ok (VStr "de709f2102306220921060314715629080e2fb77").
Proof.
  apply (proj2 (to_checksum_address_raises_iff (scenario_env happy) _)).
  intros r H. discriminate H.
Defined.

(** Letter case of the input does not matter: two strings that start
    with [0x] and agree up to case are canonicalized alike, and the
    canonical form differs from the input in letter case only and is 42
    characters long. *)
Theorem to_checksum_address_case_insensitive (E : Env) (s s' c : string) :
  startswith "0x" s = true ->
  startswith "0x" s' = true ->
  str_lower s = str_lower s' ->
  to_checksum_address E (VStr s) = to_checksum_address E (VStr s') /\
  (to_checksum_address E (VStr s) = Ok (VStr c) ->
   str_lower c = str_lower s /\ String.length c = 42%nat).
Proof.
  intros Hs Hs' Hl. split.
  - unfold to_checksum_address. now rewrite Hs, Hs', Hl.
  - destruct (startswith_0x_inv _ Hs) as [r ->].
    rewrite to_checksum_address_prefixed.
    destruct (is_hex_body r) eqn:Hb; [|discriminate].
    intros H. injection H as <-.
    change ("0x" ++ r) with (String "0" (String "x" r)). split.
    + now rewrite !str_lower_0x, str_lower_checksum_case, str_lower_idem.
    + cbn [String.length].
      rewrite checksum_case_length, str_lower_length.
      now rewrite (is_hex_body_length _ Hb).
Qed.

(** The demo token in lower case and in upper case. *)
Lemma to_checksum_address_case_insensitive_witness :
  to_checksum_address (scenario_env happy) (VStr USDC) =
  to_checksum_address (scenario_env happy)
    (VStr "0xA0B86991C6218B36C1D19D4A2E9EB0CE3606EB48") /\
  (to_checksum_address (scenario_env happy) (VStr USDC) =
     Ok (VStr "0xA0B86991C6218B36C1D19D4A2E9EB0CE3606EB48") ->
   str_lower "0xA0B86991C6218B36C1D19D4A2E9EB0CE3606EB48" = str_lower USDC /\
   String.length "0xA0B86991C6218B36C1D19D4A2E9EB0CE3606EB48" = 42%nat).
Proof.
  apply (to_checksum_address_case_insensitive (scenario_env happy) USDC
           "0xA0B86991C6218B36C1D19D4A2E9EB0CE3606EB48"); reflexivity.
Defined.

(* ================================================================== *)
(** ** Normalizing the addresses of a payload *)
(* ================================================================== *)

(** Induction on a value, through the members of lists and
    dictionaries. *)
Lemma value_nested_ind (P : value -> Prop) :
  P VNone ->
  (forall b, P (VBool b)) ->
  (forall z, P (VInt z)) ->
  (forall f, P (VFloat f)) ->
  (forall s, P (VStr s)) ->
  (forall l, Forall P l -> P (VList l)) ->
  (forall d, Forall (fun kv => P (snd kv)) d -> P (VDict d)) ->
  forall v, P v.
Proof.
  intros HN HB HI HF HS HL HD. fix IH 1.
  intros [ |b|z|f|s|l|d];
    [exact HN|apply HB|apply HI|apply HF|apply HS| | ].
  - apply HL. induction l as [|x l IHl]; constructor; [apply IH|exact IHl].
  - apply HD. induction d as [|[k x] d IHd]; constructor;
      [apply IH|exact IHd].
Qed.

Lemma convert_addresses_str (E : Env) (s : string) :
  exists s', convert_addresses_to_checksum E (VStr s) = VStr s' /\
    (s' = s \/
     (String.length s = 42%nat /\
      to_checksum_address E (VStr s) = Ok (VStr s'))).
Proof.
  simpl. destruct (startswith "0x" s) eqn:Hp; simpl; [|eauto].
  destruct (Nat.eqb (String.length s) 42) eqn:Hl; [|eauto].
  apply Nat.eqb_eq in Hl.
  destruct (Web3_to_checksum_address (keccak_hex E) (str_lower s)) as [c|];
    eauto.
Qed.

Lemma convert_addresses_fixed (E : Env) (s c : string) :
  Web3_to_checksum_address (keccak_hex E) s = Ok c ->
  convert_addresses_to_checksum E (VStr c) = VStr c.
Proof.
  intros H. destruct (Web3_checksum_fixed _ _ _ H) as [Hp Hf].
  simpl. rewrite Hp, Hf. simpl. now destruct (Nat.eqb _ 42).
Qed.

Lemma convert_addresses_idem (E : Env) (v : value) :
  convert_addresses_to_checksum E (convert_addresses_to_checksum E v)
  = convert_addresses_to_checksum E v.
Proof.
  induction v as [ |b|z|f|s|l IHl|d IHd] using value_nested_ind;
    try reflexivity.
  - destruct (convert_addresses_str E s) as (s' & Hc & [->|[_ Ht]]).
    + rewrite Hc. exact Hc.
    + rewrite Hc. unfold to_checksum_address in Ht.
      destruct (startswith "0x" s); [|inversion Ht; subst; exact Hc].
      destruct (Web3_to_checksum_address (keccak_hex E) (str_lower s))
        as [c|] eqn:Hw; inversion Ht; subst.
      eapply convert_addresses_fixed; eauto.
  - simpl. f_equal. induction IHl as [|x l Hx _ IH]; [reflexivity|].
    now rewrite Hx, IH.
  - simpl. f_equal. induction IHd as [|[k x] d Hx _ IH]; [reflexivity|].
    simpl in Hx. now rewrite Hx, IH.
Qed.

(** The keys of a dictionary, in order. *)
Lemma convert_addresses_keys (E : Env) (d p : dict) :
  convert_addresses_to_checksum E (VDict d) = VDict p ->
  map fst p = map fst d.
Proof.
  simpl. intros H. inversion H. clear.
  induction d as [|[k v] d IH]; simpl; [reflexivity|]. now rewrite IH.
Qed.

Lemma convert_addresses_list (E : Env) (l : list value) :
  convert_addresses_to_checksum E (VList l)
  = VList (map (convert_addresses_to_checksum E) l).
Proof.
  reflexivity.
Qed.

(** [convert_addresses_to_checksum] is idempotent at any nesting depth:
    a payload that went through it once is not changed by a second
    pass. *)
Theorem convert_addresses_to_checksum_idempotent (E : Env) (obj : value) :
  convert_addresses_to_checksum E (convert_addresses_to_checksum E obj)
  = convert_addresses_to_checksum E obj.
Proof. apply convert_addresses_idem. Qed.

(** [convert_addresses_to_checksum] keeps the shape of a payload: a
    dictionary keeps its keys in order and a lookup finds the converted
    member, a list is converted member by member, [None], booleans,
    numbers are untouched, and a string is either untouched or, when it
    is 42 characters long, replaced by its checksummed form; a string
    that [to_checksum_address] rejects is kept, no exception leaves the
    function. *)
Theorem convert_addresses_to_checksum_shape (E : Env) :
  (forall d, exists p,
     convert_addresses_to_checksum E (VDict d) = VDict p /\
     map fst p = map fst d /\
     forall k, dict_get k p
               = option_map (convert_addresses_to_checksum E) (dict_get k d)) /\
  (forall l,
     convert_addresses_to_checksum E (VList l)
     = VList (map (convert_addresses_to_checksum E) l)) /\
  (forall s, exists s',
     convert_addresses_to_checksum E (VStr s) = VStr s' /\
     (s' = s \/
      (String.length s = 42%nat /\
       to_checksum_address E (VStr s) = Ok (VStr s')))) /\
  (forall s e,
     to_checksum_address E (VStr s) = Raise e ->
     convert_addresses_to_checksum E (VStr s) = VStr s) /\
  (forall v,
     match v with VStr _ | VList _ | VDict _ => False | _ => True end ->
     convert_addresses_to_checksum E v = v).
Proof.
  split; [|split; [|split; [|split]]].
  - intros d. destruct (convert_addresses_dict_get E "" d) as (p & Hp & _).
    exists p. split; [exact Hp|]. split.
    + eapply convert_addresses_keys; eauto.
    + intros k. destruct (convert_addresses_dict_get E k d) as (p' & Hp' & Hk).
      rewrite Hp in Hp'. inversion Hp'; subst. exact Hk.
  - apply convert_addresses_list.
  - apply convert_addresses_str.
  - intros s e H. simpl. simpl in H.
    destruct (startswith "0x" s); simpl; [|reflexivity].
    destruct (Nat.eqb (String.length s) 42); [|reflexivity].
    now destruct (Web3_to_checksum_address (keccak_hex E) (str_lower s)).
  - intros v Hv. destruct v; try reflexivity; contradiction.
Qed.

(** A malformed 42-character string is kept as it is. *)
Lemma convert_addresses_to_checksum_shape_witness :
  convert_addresses_to_checksum (scenario_env happy)
    (VStr "0xZZb86991c6218b36c1d19d4a2e9eb0ce3606eb48")
  = VStr "0xZZb86991c6218b36c1d19d4a2e9eb0ce3606eb48" /\
  convert_addresses_to_checksum (scenario_env happy) (VInt 7) = VInt 7.
Proof.
  destruct (convert_addresses_to_checksum_shape (scenario_env happy))
    as (_ & _ & _ & H4 & H5).
  split.
  - apply (H4 _ (Exn ValueError
                   "Unknown format, attempted to normalize address")).
    reflexivity.
  - apply H5. exact I.
Defined.

(* ================================================================== *)
(** ** Request URLs *)
(* ================================================================== *)

Lemma convert_param_idem (E : Env) (kv : string * value) :
  convert_param E (convert_param E kv) = convert_param E kv.
Proof.
  destruct kv as [k v]. unfold convert_param.
  destruct (existsb (String.eqb k) checksum_param_keys) eqn:Hk.
  - destruct (to_checksum_address E v) as [v'|e] eqn:Hv.
    + rewrite Hk. now rewrite (to_checksum_address_again _ _ _ Hv).
    + now rewrite Hk, Hv.
  - now rewrite Hk.
Qed.

Lemma to_checksum_address_same_case (E : Env) (s s' : string) :
  startswith "0x" s = true ->
  startswith "0x" s' = true ->
  str_lower s = str_lower s' ->
  to_checksum_address E (VStr s) = to_checksum_address E (VStr s').
Proof. intros Hs Hs' Hl. unfold to_checksum_address. now rewrite Hs, Hs', Hl. Qed.

(** [api_request_url] and the address parameters ([tokenAddress],
    [walletAddress], [src], [dst], [from]).  Checksumming them before
    the call does not change the URL; two spellings of an address that
    differ in letter case give the same URL when the address is a valid
    one; and an address parameter
    that [to_checksum_address] rejects is written into the URL as it was
    given, no exception leaving the function. *)
Theorem api_request_url_addresses (E : Env) (self : InchSwapper)
    (method_name : string) :
  (forall ps,
     api_request_url E self method_name (map (convert_param E) ps)
     = api_request_url E self method_name ps) /\
  (forall k s s' c ps,
     In k checksum_param_keys ->
     startswith "0x" s = true ->
     startswith "0x" s' = true ->
     str_lower s = str_lower s' ->
     to_checksum_address E (VStr s) = Ok c ->
     api_request_url E self method_name ((k, VStr s) :: ps)
     = api_request_url E self method_name ((k, VStr s') :: ps)) /\
  (forall k v e,
     to_checksum_address E v = Raise e ->
     api_request_url E self method_name [(k, v)]
     = api_base_url self ++ method_name ++ "?" ++ k ++ "=" ++ py_format E v).
Proof.
  split; [|split].
  - intros ps.
    assert (H : map (convert_param E) (map (convert_param E) ps)
                = map (convert_param E) ps).
    { rewrite map_map. apply map_ext. intros kv. apply convert_param_idem. }
    unfold api_request_url. now rewrite H.
  - intros k s s' c ps Hin Hs Hs' Hl Hc.
    assert (H : convert_param E (k, VStr s) = convert_param E (k, VStr s')).
    { unfold convert_param.
      assert (Hk : existsb (String.eqb k) checksum_param_keys = true).
      { apply existsb_exists. exists k. split; auto. apply String.eqb_refl. }
      rewrite Hk, <- (to_checksum_address_same_case E s s' Hs Hs' Hl), Hc.
      reflexivity. }
    unfold api_request_url. cbn [map]. now rewrite H.
  - intros k v e Hv.
    assert (H : convert_param E (k, v) = (k, v)).
    { unfold convert_param. rewrite Hv.
      now destruct (existsb (String.eqb k) checksum_param_keys). }
    unfold api_request_url. cbn [map]. rewrite H. reflexivity.
Qed.

(** The demo token in two spellings, and a malformed token. *)
Lemma api_request_url_addresses_witness :
  api_request_url (scenario_env happy) demo_self "/approve/allowance"
    [("tokenAddress", VStr USDC)]
  = api_request_url (scenario_env happy) demo_self "/approve/allowance"
      [("tokenAddress", VStr "0xA0B86991C6218B36C1D19D4A2E9EB0CE3606EB48")] /\
  api_request_url (scenario_env happy) demo_self "/approve/allowance"
    [("tokenAddress", VStr "0x12")]
  = "https://api.1inch.dev/swap/v6.0/1/approve/allowance?tokenAddress=0x12".
Proof.
  destruct (api_request_url_addresses (scenario_env happy) demo_self
              "/approve/allowance") as (_ & H2 & H3).
  split.
  - apply (H2 "tokenAddress" USDC "0xA0B86991C6218B36C1D19D4A2E9EB0CE3606EB48"
              (VStr "0xA0B86991C6218B36C1D19D4A2E9EB0CE3606EB48"));
      [simpl; auto|reflexivity|reflexivity|reflexivity|reflexivity].
  - apply (H3 "tokenAddress" (VStr "0x12")
              (Exn ValueError "Unknown format, attempted to normalize address")).
    reflexivity.
Defined.

(* ================================================================== *)
(** ** Setting up the swapper *)
(* ================================================================== *)

Lemma lookup_chain_supported (c : Z) (rpc : string) :
  lookup_chain c chain_rpc_urls = Some rpc -> In c [1; 10; 8453; 42161].
Proof.
  simpl.
  destruct (c =? 1) eqn:H1; [apply Z.eqb_eq in H1; subst; simpl; auto|].
  destruct (c =? 10) eqn:H2; [apply Z.eqb_eq in H2; subst; simpl; auto|].
  destruct (c =? 8453) eqn:H3; [apply Z.eqb_eq in H3; subst; simpl; auto|].
  destruct (c =? 42161) eqn:H4; [apply Z.eqb_eq in H4; subst; simpl; auto 6|].
  discriminate.
Qed.

Lemma lookup_chain_unsupported (c : Z) :
  ~ In c [1; 10; 8453; 42161] -> lookup_chain c chain_rpc_urls = None.
Proof.
  intros Hn. destruct (lookup_chain c chain_rpc_urls) as [rpc|] eqn:H; auto.
  apply lookup_chain_supported in H. contradiction.
Qed.

Lemma lookup_chain_found (c : Z) :
  In c [1; 10; 8453; 42161] ->
  exists rpc, lookup_chain c chain_rpc_urls = Some rpc.
Proof.
  intros [<-|[<-|[<-|[<-|[]]]]]; simpl; eauto.
Qed.

(** [InchSwapper.__init__] succeeds exactly when the wallet address is
    one the library accepts and the chain ID is 1, 10, 8453 or 42161.
    The swapper then holds the checksummed wallet address (which
    [to_checksum_address] leaves as it is), the endpoint of that chain
    and the API base URL ending in the chain ID.  A rejected wallet
    address raises first, whatever the chain ID; an accepted one with
    another chain ID raises the unsupported-chain error. *)
Theorem InchSwapper_init_cases (E : Env) (wallet private : string)
    (chain : Z) :
  (forall swapper,
     InchSwapper_init E wallet private chain = Ok swapper ->
     In chain [1; 10; 8453; 42161] /\
     Web3_to_checksum_address (keccak_hex E) wallet
       = Ok (wallet_address swapper) /\
     to_checksum_address E (VStr (wallet_address swapper))
       = Ok (VStr (wallet_address swapper)) /\
     chain_id swapper = chain /\
     private_key swapper = private /\
     lookup_chain chain chain_rpc_urls = Some (rpc_url swapper) /\
     api_base_url swapper
       = "https://api.1inch.dev/swap/v6.0/" ++ string_of_Z chain) /\
  (forall a,
     Web3_to_checksum_address (keccak_hex E) wallet = Ok a ->
     In chain [1; 10; 8453; 42161] ->
     exists swapper, InchSwapper_init E wallet private chain = Ok swapper) /\
  (forall e,
     Web3_to_checksum_address (keccak_hex E) wallet = Raise e ->
     InchSwapper_init E wallet private chain = Raise e) /\
  (forall a,
     Web3_to_checksum_address (keccak_hex E) wallet = Ok a ->
     ~ In chain [1; 10; 8453; 42161] ->
     InchSwapper_init E wallet private chain =
     Raise (Exn ValueError
              ("Unsupported chain ID: " ++ string_of_Z chain ++
               ". Supported chain IDs are: [1, 10, 8453, 42161]"))).
Proof.
  unfold InchSwapper_init. split; [|split; [|split]].
  - intros swapper H.
    destruct (Web3_to_checksum_address (keccak_hex E) wallet) as [w|] eqn:Hw;
      [|discriminate].
    destruct (lookup_chain chain chain_rpc_urls) as [rpc|] eqn:Hc;
      [|discriminate].
    inversion H; subst; simpl. repeat split; auto.
    + eapply lookup_chain_supported; eauto.
    + eapply to_checksum_address_fixed; eauto.
  - intros a Hw Hin. rewrite Hw.
    destruct (lookup_chain_found _ Hin) as [rpc ->]. eauto.
  - intros e Hw. now rewrite Hw.
  - intros a Hw Hn. now rewrite Hw, (lookup_chain_unsupported _ Hn).
Qed.

(** The demo wallet on Base, and on an unknown chain. *)
Lemma InchSwapper_init_cases_witness :
  (exists swapper,
     InchSwapper_init (scenario_env happy) WALLET "k" 8453 = Ok swapper) /\
  InchSwapper_init (scenario_env happy) WALLET "k" 5 =
    Raise (Exn ValueError
             ("Unsupported chain ID: " ++ string_of_Z 5 ++
              ". Supported chain IDs are: [1, 10, 8453, 42161]")).
Proof.
  split.
  - destruct (InchSwapper_init_cases (scenario_env happy) WALLET "k" 8453)
      as (_ & H & _).
    apply (H "0xDE709F2102306220921060314715629080E2FB77");
      [reflexivity|simpl; auto].
  - destruct (InchSwapper_init_cases (scenario_env happy) WALLET "k" 5)
      as (_ & _ & _ & H).
    apply (H "0xDE709F2102306220921060314715629080E2FB77"); [reflexivity|].
    simpl. intros [H5|[H5|[H5|[H5|[]]]]]; discriminate H5.
Defined.

(** When the chain ID is not supported, [swap_tokens] answers HTTP 500
    and no call leaves the process: the trace is unchanged.  The same
    holds for any failure of [__init__]. *)
Theorem swap_tokens_setup_failure (E : Env) (request : SwapRequest)
    (t : trace) :
  (~ In (req_chain_id request) [1; 10; 8453; 42161] ->
   exists detail,
     swap_tokens E request t = (HTTPException500 ("Swap failed: " ++ detail), t)) /\
  (forall e,
     InchSwapper_init E (req_wallet_address request) (req_private_key request)
       (req_chain_id request) = Raise e ->
     swap_tokens E request t
     = (HTTPException500 ("Swap failed: " ++ exn_str e), t)).
Proof.
  assert (H2 : forall e,
     InchSwapper_init E (req_wallet_address request) (req_private_key request)
       (req_chain_id request) = Raise e ->
     swap_tokens E request t
     = (HTTPException500 ("Swap failed: " ++ exn_str e), t)).
  { intros e He. unfold swap_tokens. now rewrite He. }
  split; [|exact H2].
  intros Hn.
  destruct (InchSwapper_init E (req_wallet_address request)
              (req_private_key request) (req_chain_id request))
    as [swapper|e] eqn:Hi.
  - exfalso. apply Hn. unfold InchSwapper_init in Hi.
    destruct (Web3_to_checksum_address _ _); [|discriminate].
    destruct (lookup_chain _ _) as [rpc|] eqn:Hc; [|discriminate].
    eapply lookup_chain_supported; eauto.
  - exists (exn_str e). unfold swap_tokens. now rewrite Hi.
Qed.

(** The demo request on chain 137. *)
Lemma swap_tokens_setup_failure_witness :
  exists detail,
    swap_tokens (scenario_env happy)
      {| req_wallet_address := WALLET; req_private_key := "k";
         req_chain_id := 137; req_src_token := USDC; req_dst_token := WETH;
         req_amount := "1"; req_slippage := VInt 1 |} []
    = (HTTPException500 ("Swap failed: " ++ detail), []).
Proof.
  apply (proj1 (swap_tokens_setup_failure (scenario_env happy)
                  {| req_wallet_address := WALLET; req_private_key := "k";
                     req_chain_id := 137; req_src_token := USDC;
                     req_dst_token := WETH; req_amount := "1";
                     req_slippage := VInt 1 |} [])).
  simpl. intros [H|[H|[H|[H|[]]]]]; discriminate H.
Defined.

(** A token address that starts with [0x] and is not forty hexadecimal
    digits long stops [perform_swap] at once: it raises and no call
    leaves the process, not even the allowance lookup. *)
Theorem perform_swap_rejects_bad_token (E : Env) (self : InchSwapper)
    (src dst amount slippage : value) (t : trace) (r : string) :
  is_hex_body r = false ->
  src = VStr ("0x" ++ r) \/
  ((exists src', to_checksum_address E src = Ok src') /\
   dst = VStr ("0x" ++ r)) ->
  perform_swap E self src dst amount slippage t =
  (Raise (Exn ValueError "Unknown format, attempted to normalize address"), t).
Proof.
  intros Hb [->|[[src' Hs] ->]]; unfold perform_swap, bind, lift.
  - now rewrite to_checksum_address_prefixed, Hb.
  - now rewrite Hs, to_checksum_address_prefixed, Hb.
Qed.

(** A two-digit source token. *)
Lemma perform_swap_rejects_bad_token_witness :
  perform_swap (scenario_env happy) demo_self (VStr "0x12") (VStr WETH)
    (VStr "1") (VInt 1) [] =
  (Raise (Exn ValueError "Unknown format, attempted to normalize address"), []).
Proof.
  apply (perform_swap_rejects_bad_token (scenario_env happy) demo_self
           (VStr "0x12") (VStr WETH) (VStr "1") (VInt 1) [] "12").
  - reflexivity.
  - left. reflexivity.
Defined.

(* ================================================================== *)
(** ** The allowance lookup, case by case *)
(* ================================================================== *)

Lemma to_checksum_address_raise_class (E : Env) (a : value) (e : exn) :
  to_checksum_address E a = Raise e -> is_RequestException e = false.
Proof.
  destruct a; try discriminate. unfold to_checksum_address.
  destruct (startswith "0x" s); [|discriminate].
  unfold Web3_to_checksum_address.
  destruct (is_hex_body _); [discriminate|].
  intros H. inversion H. reflexivity.
Qed.

(** [check_allowance] on a token it can checksum pauses one second and
    makes one request.  It returns the [allowance] member of the answer,
    or [None] when the answer is a dictionary without that member; an
    answer that is no dictionary raises [AttributeError]; an exception
    that is no request exception is passed on.  A token it cannot
    checksum raises before any call is made. *)
Theorem check_allowance_cases (E : Env) (self : InchSwapper)
    (token : value) (t : trace) :
  (forall token',
     to_checksum_address E token = Ok token' ->
     exists r,
       check_allowance E self token t =
       (r, (t ++ [EvSleep 1; EvHttpGet (allowance_url E self token')])%list) /\
       (forall d v,
          http_get E (t ++ [EvSleep 1])%list (allowance_url E self token')
            = Ok (VDict d) ->
          dict_get "allowance" d = Some v -> r = Ok v) /\
       (forall d,
          http_get E (t ++ [EvSleep 1])%list (allowance_url E self token')
            = Ok (VDict d) ->
          dict_get "allowance" d = None -> r = Ok VNone) /\
       (forall v,
          http_get E (t ++ [EvSleep 1])%list (allowance_url E self token')
            = Ok v ->
          (forall d, v <> VDict d) ->
          r = Raise (Exn AttributeError "object has no attribute 'get'")) /\
       (forall e,
          http_get E (t ++ [EvSleep 1])%list (allowance_url E self token')
            = Raise e ->
          is_RequestException e = false -> r = Raise e)) /\
  (forall e,
     to_checksum_address E token = Raise e ->
     check_allowance E self token t = (Raise e, t)).
Proof.
  split.
  - intros token' Ht. eexists. split; [apply check_allowance_run; exact Ht|].
    repeat split.
    + intros d v Hg Hd. now rewrite Hg, Hd.
    + intros d Hg Hd. now rewrite Hg, Hd.
    + intros v Hg Hn. rewrite Hg.
      destruct v; try reflexivity. now contradiction (Hn d).
    + intros e Hg He. now rewrite Hg, He.
  - intros e Ht. unfold check_allowance, try_except, bind, lift, raise.
    rewrite Ht. now rewrite (to_checksum_address_raise_class _ _ _ Ht).
Qed.

(** A token of two digits. *)
Lemma check_allowance_cases_witness :
  check_allowance (scenario_env happy) demo_self (VStr "0x12") [] =
  (Raise (Exn ValueError "Unknown format, attempted to normalize address"), []).
Proof.
  apply (proj2 (check_allowance_cases (scenario_env happy) demo_self
                  (VStr "0x12") [])).
  reflexivity.
Defined.

(** When the allowance or the amount cannot be read as an integer,
    [perform_swap] raises right after the allowance lookup: no
    transaction is built, signed or broadcast.  This is what happens
    when the quoting service answers without an [allowance] member: the
    allowance is [None] and [int] raises [TypeError]. *)
Theorem perform_swap_unreadable_numbers (E : Env) (self : InchSwapper)
    (src dst amount slippage src' dst' : value) (t : trace) :
  to_checksum_address E src = Ok src' ->
  to_checksum_address E dst = Ok dst' ->
  (forall allowance t1 e,
     check_allowance E self src' t = (Ok allowance, t1) ->
     py_int allowance = Raise e ->
     perform_swap E self src dst amount slippage t = (Raise e, t1)) /\
  (forall allowance t1 have e,
     check_allowance E self src' t = (Ok allowance, t1) ->
     py_int allowance = Ok have ->
     py_int amount = Raise e ->
     perform_swap E self src dst amount slippage t = (Raise e, t1)) /\
  (forall d,
     http_get E (t ++ [EvSleep 1])%list (allowance_url E self src')
       = Ok (VDict d) ->
     dict_get "allowance" d = None ->
     perform_swap E self src dst amount slippage t =
     (Raise (Exn TypeError
        "int() argument must be a string, a bytes-like object or a real number"),
      (t ++ [EvSleep 1; EvHttpGet (allowance_url E self src')])%list)).
Proof.
  intros Hs Hd.
  assert (H1 : forall allowance t1 e,
     check_allowance E self src' t = (Ok allowance, t1) ->
     py_int allowance = Raise e ->
     perform_swap E self src dst amount slippage t = (Raise e, t1)).
  { intros al t1 e Hc He. unfold perform_swap, bind, lift.
    rewrite Hs, Hd. simpl. now rewrite Hc, He. }
  split; [exact H1|]. split.
  - intros al t1 have e Hc Hh He. unfold perform_swap, bind, lift.
    rewrite Hs, Hd. simpl. now rewrite Hc, Hh, He.
  - intros d Hg Hk. apply (H1 VNone); [|reflexivity].
    rewrite (check_allowance_run _ _ _ _ _ (to_checksum_address_again _ _ _ Hs)).
    now rewrite Hg, Hk.
Qed.

(** An answer without the [allowance] member. *)
Lemma perform_swap_unreadable_numbers_witness :
  perform_swap (scenario_env allowance_missing) demo_self (VStr USDC)
    (VStr WETH) (VStr "1000") (VInt 1) [] =
  (Raise (Exn TypeError
     "int() argument must be a string, a bytes-like object or a real number"),
   [EvSleep 1;
    EvHttpGet (allowance_url (scenario_env allowance_missing) demo_self
                 (VStr "0xA0B86991C6218B36C1D19D4A2E9EB0CE3606EB48"))]).
Proof.
  edestruct (perform_swap_unreadable_numbers (scenario_env allowance_missing)
               demo_self (VStr USDC) (VStr WETH) (VStr "1000") (VInt 1))
    with (t := @nil event) as (_ & _ & H).
  - vm_compute. reflexivity.
  - vm_compute. reflexivity.
  - apply (H [("statusCode", VInt 400)]); reflexivity.
Defined.

(* ================================================================== *)
(** ** Signing and broadcasting, case by case *)
(* ================================================================== *)

Lemma sign_and_send_run (E : Env) (self : InchSwapper) (tx : dict)
    (t : trace) :
  let tx' := ensure_gas tx in
  let t1 := (t ++ [EvSignTransaction tx'])%list in
  sign_and_send_transaction E self tx t =
  match sign_transaction E tx' (private_key self) with
  | Raise e => (Raise e, t1)
  | Ok raw =>
      (match eth_send_raw_transaction E t1 (rpc_url self) raw with
       | Ok sent => Ok (to_hex sent)
       | Raise e => Raise e
       end,
       (t1 ++ [EvSendRawTransaction (rpc_url self) raw])%list)
  end.
Proof.
  simpl. unfold sign_and_send_transaction. rewrite try_except_reraise.
  unfold bind, call, ret.
  destruct (sign_transaction E (ensure_gas tx) (private_key self));
    [|reflexivity].
  now destruct (eth_send_raw_transaction E _ (rpc_url self) a).
Qed.

Lemma ensure_gas_other (tx : dict) (k : string) :
  k <> "gas" -> dict_get k (ensure_gas tx) = dict_get k tx.
Proof.
  intros Hk. unfold ensure_gas.
  destruct (gas_missing_or_zero tx); [|reflexivity].
  now apply dict_get_set_other.
Qed.

(** [sign_and_send_transaction]: the transaction handed to the signer
    agrees with the one given on every field but [gas].  If the signer
    raises, nothing is broadcast and the exception is passed on.
    Otherwise exactly the signer's output is broadcast, once; the result
    is the hexadecimal form of the hash the node answers, or the node's
    exception. *)
Theorem sign_and_send_transaction_cases (E : Env) (self : InchSwapper)
    (tx : dict) (t : trace) :
  (forall k, k <> "gas" -> dict_get k (ensure_gas tx) = dict_get k tx) /\
  (forall e,
     sign_transaction E (ensure_gas tx) (private_key self) = Raise e ->
     sign_and_send_transaction E self tx t =
     (Raise e, (t ++ [EvSignTransaction (ensure_gas tx)])%list)) /\
  (forall raw sent,
     sign_transaction E (ensure_gas tx) (private_key self) = Ok raw ->
     eth_send_raw_transaction E (t ++ [EvSignTransaction (ensure_gas tx)])%list
       (rpc_url self) raw = Ok sent ->
     sign_and_send_transaction E self tx t =
     (Ok (to_hex sent),
      (t ++ [EvSignTransaction (ensure_gas tx);
             EvSendRawTransaction (rpc_url self) raw])%list)) /\
  (forall raw e,
     sign_transaction E (ensure_gas tx) (private_key self) = Ok raw ->
     eth_send_raw_transaction E (t ++ [EvSignTransaction (ensure_gas tx)])%list
       (rpc_url self) raw = Raise e ->
     sign_and_send_transaction E self tx t =
     (Raise e,
      (t ++ [EvSignTransaction (ensure_gas tx);
             EvSendRawTransaction (rpc_url self) raw])%list)).
Proof.
  split; [|split; [|split]].
  - intros k Hk. now apply ensure_gas_other.
  - intros e Hs. rewrite sign_and_send_run. simpl. now rewrite Hs.
  - intros raw sent Hs Hb. rewrite sign_and_send_run. simpl.
    rewrite Hs, Hb. now rewrite <- app_assoc.
  - intros raw e Hs Hb. rewrite sign_and_send_run. simpl.
    rewrite Hs, Hb. now rewrite <- app_assoc.
Qed.

(** A transaction without gas, broadcast in the [happy] scenario. *)
Lemma sign_and_send_transaction_cases_witness :
  sign_and_send_transaction (scenario_env happy) demo_self
    [("to", VStr ROUTER)] [] =
  (Ok "0x41",
   [EvSignTransaction [("to", VStr ROUTER); ("gas", VInt 500000)];
    EvSendRawTransaction (rpc_url demo_self) "signed"]).
Proof.
  destruct (sign_and_send_transaction_cases (scenario_env happy) demo_self
              [("to", VStr ROUTER)] []) as (_ & _ & H & _).
  apply (H "signed" "A"); reflexivity.
Defined.

(* ================================================================== *)
(** ** What perform_swap can answer *)
(* ================================================================== *)

Lemma swap_phase_Ok (E : Env) (self : InchSwapper) (r0 r : SwapOutcome)
    (src dst amount slippage : value) (t t' : trace) :
  swap_phase E self r0 src dst amount slippage t = (Ok r, t') ->
  (r = set_message r0 "Failed to build swap transaction" /\
   build_tx_for_swap E self (swap_params_of self src dst amount slippage)
     (t ++ [EvSleep 2])%list = (Ok None, t')) \/
  (exists swap_tx t1 h,
     build_tx_for_swap E self (swap_params_of self src dst amount slippage)
       (t ++ [EvSleep 2])%list = (Ok (Some swap_tx), t1) /\
     sign_and_send_transaction E self swap_tx t1 = (Ok h, t') /\
     r = set_success r0 h).
Proof.
  intros H. unfold swap_phase in H.
  apply bind_Ok in H. destruct H as (u & tA & Hsl & H).
  unfold sleep, call in Hsl. inversion Hsl; subst u tA. clear Hsl.
  apply bind_Ok in H. destruct H as (o & t1 & Hb & H).
  destruct o as [tx|].
  - rewrite (build_swap_truthy _ _ _ _ _ _ Hb) in H.
    apply bind_Ok in H. destruct H as (h & t2 & Hs & H).
    rewrite (sign_and_send_truthy _ _ _ _ _ _ Hs) in H. ret_inv H.
    right. exists tx, t1, h. auto.
  - ret_inv H. left. auto.
Qed.

Lemma approval_phase_Ok (E : Env) (self : InchSwapper) (r0 r : SwapOutcome)
    (src dst amount slippage : value) (t t' : trace) :
  approval_phase E self r0 src dst amount slippage t = (Ok r, t') ->
  exists h t4,
    approval_confirmed E self src t h t4 /\
    swap_phase E self (set_approval_tx_hash r0 h) src dst amount slippage t4
      = (Ok r, t').
Proof.
  intros H. unfold approval_phase, AUTO_APPROVE in H. cbv iota in H.
  apply bind_Ok in H. destruct H as (atx & t2 & Hb & H).
  rewrite (build_approve_truthy _ _ _ _ _ _ _ Hb) in H.
  apply bind_Ok in H. destruct H as (h & t3 & Hs & H).
  rewrite (sign_and_send_truthy _ _ _ _ _ _ Hs) in H.
  apply bind_Ok in H. destruct H as ([] & t4 & Hw & H).
  exists h, t4. split; [|exact H]. exists atx, t2, t3. auto.
Qed.

Lemma perform_swap_Ok (E : Env) (self : InchSwapper)
    (src dst amount slippage : value) (t t' : trace) (r : SwapOutcome) :
  perform_swap E self src dst amount slippage t = (Ok r, t') ->
  exists src' dst' have need t1,
    allowance_known E self src dst amount t src' dst' have need t1 /\
    ((need <= have /\
      swap_phase E self result0 src' dst' amount slippage t1 = (Ok r, t')) \/
     (have < need /\
      approval_phase E self result0 src' dst' amount slippage t1
        = (Ok r, t'))).
Proof.
  intros H. unfold perform_swap in H.
  apply bind_Ok in H. destruct H as (src' & tA & Hs & H).
  apply lift_Ok in Hs. destruct Hs as [Hs ->].
  apply bind_Ok in H. destruct H as (dst' & tB & Hd & H).
  apply lift_Ok in Hd. destruct Hd as [Hd ->].
  apply bind_Ok in H. destruct H as (al & t1 & Hc & H).
  apply bind_Ok in H. destruct H as (have & tC & Hh & H).
  apply lift_Ok in Hh. destruct Hh as [Hh ->].
  apply bind_Ok in H. destruct H as (need & tD & Hn & H).
  apply lift_Ok in Hn. destruct Hn as [Hn ->].
  exists src', dst', have, need, t1. split.
  - split; [exact Hs|]. split; [exact Hd|]. exists al. auto.
  - destruct (have <? need) eqn:Hlt.
    + right. split; [now apply Z.ltb_lt|exact H].
    + left. split; [now apply Z.ltb_ge|exact H].
Qed.

(** Every outcome [perform_swap] returns is one of two: the success,
    with the message "Swap completed successfully", or the failed swap
    build, with the message "Failed to build swap transaction".  The
    other four messages of the source (auto-approve disabled, failed
    approval build, failed approval send, failed swap send) are never
    returned. *)
Theorem perform_swap_messages (E : Env) (self : InchSwapper)
    (src dst amount slippage : value) (t t' : trace) (r : SwapOutcome) :
  perform_swap E self src dst amount slippage t = (Ok r, t') ->
  (success r = true /\ message r = "Swap completed successfully") \/
  (success r = false /\ message r = "Failed to build swap transaction").
Proof.
  intros H.
  assert (Hsw : forall r0 s d tA,
            swap_phase E self r0 s d amount slippage tA = (Ok r, t') ->
            (success r = true /\ message r = "Swap completed successfully") \/
            (success r0 = false ->
             success r = false /\
             message r = "Failed to build swap transaction")).
  { intros r0 s d tA Hp. apply swap_phase_Ok in Hp.
    destruct Hp as [[-> _]|(tx & t1 & h & _ & _ & ->)]; simpl; auto. }
  apply perform_swap_Ok in H.
  destruct H as (src' & dst' & have & need & t1 & _ & [[_ Hp]|[_ Hp]]).
  - destruct (Hsw _ _ _ _ Hp) as [?|Hf]; auto.
  - apply approval_phase_Ok in Hp. destruct Hp as (h & t4 & _ & Hp).
    destruct (Hsw _ _ _ _ Hp) as [?|Hf]; auto.
Qed.

(** The [direct_swap_build_fails] scenario. *)
Lemma perform_swap_messages_witness :
  (success {| success := false;
              message := "Failed to build swap transaction";
              tx_hash := None; approval_tx_hash := None |} = true /\
   message {| success := false;
              message := "Failed to build swap transaction";
              tx_hash := None; approval_tx_hash := None |}
   = "Swap completed successfully") \/
  (success {| success := false;
              message := "Failed to build swap transaction";
              tx_hash := None; approval_tx_hash := None |} = false /\
   message {| success := false;
              message := "Failed to build swap transaction";
              tx_hash := None; approval_tx_hash := None |}
   = "Failed to build swap transaction").
Proof.
  apply (perform_swap_messages (scenario_env direct_swap_build_fails)
           demo_self (VStr USDC) (VStr WETH) (VStr "1000000000000000000")
           (VInt 1) []
           (snd (perform_swap (scenario_env direct_swap_build_fails) demo_self
                   (VStr USDC) (VStr WETH) (VStr "1000000000000000000")
                   (VInt 1) []))).
  vm_compute. reflexivity.
Defined.

(** When the allowance is below the amount, every outcome
    [perform_swap] returns, success or failure, carries the hash of an
    approval transaction that was built, broadcast and confirmed before
    the swap step began. *)
Theorem insufficient_allowance_outcome (E : Env) (self : InchSwapper)
    (src dst amount slippage src' dst' : value) (have need : Z)
    (t t1 t' : trace) (r : SwapOutcome) :
  allowance_known E self src dst amount t src' dst' have need t1 ->
  have < need ->
  perform_swap E self src dst amount slippage t = (Ok r, t') ->
  exists h t4,
    approval_confirmed E self src' t1 h t4 /\
    approval_tx_hash r = Some h /\
    swap_phase E self (set_approval_tx_hash result0 h) src' dst' amount
      slippage t4 = (Ok r, t').
Proof.
  intros Hk Hlt H.
  rewrite (perform_swap_decision _ _ _ _ _ _ _ _ _ _ _ _ Hk) in H.
  apply Z.ltb_lt in Hlt. rewrite Hlt in H.
  apply approval_phase_Ok in H. destruct H as (h & t4 & Hc & Hp).
  exists h, t4. split; [exact Hc|]. split; [|exact Hp].
  now rewrite (swap_phase_keeps_approval _ _ _ _ _ _ _ _ _ _ Hp).
Qed.

(** The [happy] scenario. *)
Lemma insufficient_allowance_outcome_witness :
  exists h t4,
    approval_confirmed (scenario_env happy) demo_self
      (VStr "0xA0B86991C6218B36C1D19D4A2E9EB0CE3606EB48")
      [EvSleep 1;
       EvHttpGet (allowance_url (scenario_env happy) demo_self
                    (VStr "0xA0B86991C6218B36C1D19D4A2E9EB0CE3606EB48"))]
      h t4 /\
    approval_tx_hash
      {| success := true; message := "Swap completed successfully";
         tx_hash := Some "0x42"; approval_tx_hash := Some "0x41" |} = Some h /\
    swap_phase (scenario_env happy) demo_self
      (set_approval_tx_hash (result0) h)
      (VStr "0xA0B86991C6218B36C1D19D4A2E9EB0CE3606EB48")
      (VStr "0xC02AAA39B223FE8D0A0E5C4F27EAD9083C756CC2")
      (VStr "1000000000000000000") (VInt 1) t4 =
    (Ok {| success := true; message := "Swap completed successfully";
           tx_hash := Some "0x42"; approval_tx_hash := Some "0x41" |},
     snd (perform_swap (scenario_env happy) demo_self (VStr USDC) (VStr WETH)
            (VStr "1000000000000000000") (VInt 1) [])).
Proof.
  apply (insufficient_allowance_outcome (scenario_env happy) demo_self
           (VStr USDC) (VStr WETH) (VStr "1000000000000000000") (VInt 1)
           _ _ 0 (10 ^ 18) []).
  - unfold allowance_known. split; [vm_compute; reflexivity|].
    split; [vm_compute; reflexivity|].
    exists (VStr "0"). split; [vm_compute; reflexivity|].
    split; vm_compute; reflexivity.
  - reflexivity.
  - vm_compute. reflexivity.
Defined.

(** A successful outcome reports the broadcast of the swap: the last
    call of the run is that broadcast, the node accepted it, and
    [tx_hash] is the hexadecimal form of the hash the node answered. *)
Theorem success_reports_broadcast (E : Env) (self : InchSwapper)
    (src dst amount slippage : value) (t t' : trace) (r : SwapOutcome) :
  perform_swap E self src dst amount slippage t = (Ok r, t') ->
  success r = true ->
  exists pre raw sent,
    t' = (pre ++ [EvSendRawTransaction (rpc_url self) raw])%list /\
    eth_send_raw_transaction E pre (rpc_url self) raw = Ok sent /\
    tx_hash r = Some (to_hex sent).
Proof.
  intros H Hs.
  assert (Hsw : forall r0 s d tA,
            success r0 = false ->
            swap_phase E self r0 s d amount slippage tA = (Ok r, t') ->
            exists pre raw sent,
              t' = (pre ++ [EvSendRawTransaction (rpc_url self) raw])%list /\
              eth_send_raw_transaction E pre (rpc_url self) raw = Ok sent /\
              tx_hash r = Some (to_hex sent)).
  { intros r0 s d tA H0 Hp. apply swap_phase_Ok in Hp.
    destruct Hp as [[-> _]|(tx & t1 & h & _ & Hsend & ->)].
    - simpl in Hs. congruence.
    - rewrite sign_and_send_run in Hsend. simpl in Hsend.
      destruct (sign_transaction E (ensure_gas tx) (private_key self))
        as [raw|]; [|discriminate].
      destruct (eth_send_raw_transaction E _ (rpc_url self) raw)
        as [sent|] eqn:Hb; inversion Hsend; subst.
      exists (t1 ++ [EvSignTransaction (ensure_gas tx)])%list, raw, sent.
      auto. }
  apply perform_swap_Ok in H.
  destruct H as (src' & dst' & have & need & t1 & _ & [[_ Hp]|[_ Hp]]).
  - eapply Hsw; [|exact Hp]. reflexivity.
  - apply approval_phase_Ok in Hp. destruct Hp as (h & t4 & _ & Hp).
    eapply Hsw; [|exact Hp]. reflexivity.
Qed.

(** The [allowed] scenario: one broadcast, answered with the byte B. *)
Lemma success_reports_broadcast_witness :
  exists pre raw sent,
    snd (perform_swap (scenario_env allowed) demo_self (VStr USDC) (VStr WETH)
           (VStr "1000") (VInt 1) [])
    = (pre ++ [EvSendRawTransaction (rpc_url demo_self) raw])%list /\
    eth_send_raw_transaction (scenario_env allowed) pre (rpc_url demo_self) raw
    = Ok sent /\
    tx_hash {| success := true; message := "Swap completed successfully";
               tx_hash := Some "0x42"; approval_tx_hash := None |}
    = Some (to_hex sent).
Proof.
  apply (success_reports_broadcast (scenario_env allowed) demo_self
           (VStr USDC) (VStr WETH) (VStr "1000") (VInt 1) []).
  - vm_compute. reflexivity.
  - reflexivity.
Defined.

(** When the approval cannot be signed or broadcast, or its receipt
    cannot be awaited, [perform_swap] raises and the run ends there: the
    swap is not built.  In the second case the approval was already
    broadcast, and its hash is not reported. *)
Theorem approval_failure_stops_the_run (E : Env) (self : InchSwapper)
    (src dst amount slippage src' dst' : value) (have need : Z)
    (t t1 t2 : trace) (approval_tx : dict) :
  allowance_known E self src dst amount t src' dst' have need t1 ->
  have < need ->
  build_tx_for_approve_trade_with_router E self src' VNone t1
    = (Ok approval_tx, t2) ->
  (forall e t3,
     sign_and_send_transaction E self approval_tx t2 = (Raise e, t3) ->
     perform_swap E self src dst amount slippage t = (Raise e, t3)) /\
  (forall h t3 e,
     sign_and_send_transaction E self approval_tx t2 = (Ok h, t3) ->
     eth_wait_for_transaction_receipt E t3 (rpc_url self) h = Raise e ->
     perform_swap E self src dst amount slippage t =
     (Raise e, (t3 ++ [EvWaitForReceipt (rpc_url self) h])%list)).
Proof.
  intros Hk Hlt Hb.
  assert (Hp : perform_swap E self src dst amount slippage t =
               approval_phase E self result0 src' dst' amount slippage t1).
  { rewrite (perform_swap_decision _ _ _ _ _ _ _ _ _ _ _ _ Hk).
    apply Z.ltb_lt in Hlt. now rewrite Hlt. }
  rewrite Hp. unfold approval_phase, AUTO_APPROVE. cbv iota.
  rewrite (bind_step _ _ _ _ _ Hb), (build_approve_truthy _ _ _ _ _ _ _ Hb).
  split.
  - intros e t3 Hs. now rewrite (bind_raise _ _ _ _ _ Hs).
  - intros h t3 e Hs Hw.
    rewrite (bind_step _ _ _ _ _ Hs), (sign_and_send_truthy _ _ _ _ _ _ Hs).
    apply bind_raise. unfold wait_for_transaction_receipt, call.
    now rewrite Hw.
Qed.

(** The [approval_send_fails] scenario. *)
Lemma approval_failure_stops_the_run_witness :
  fst (perform_swap (scenario_env approval_send_fails) demo_self (VStr USDC)
         (VStr WETH) (VStr "1000") (VInt 1) []) = Raise NodeFailed.
Proof.
  edestruct (approval_failure_stops_the_run (scenario_env approval_send_fails)
               demo_self (VStr USDC) (VStr WETH) (VStr "1000") (VInt 1))
    with (t := @nil event) as [H _].
  - unfold allowance_known. split; [vm_compute; reflexivity|].
    split; [vm_compute; reflexivity|].
    eexists. split; [vm_compute; reflexivity|].
    split; vm_compute; reflexivity.
  - reflexivity.
  - vm_compute. reflexivity.
  - erewrite H; [reflexivity|]. vm_compute. reflexivity.
Defined.

(* ================================================================== *)
(** ** The numeric conversion loop *)
(* ================================================================== *)

Lemma dict_set_keys (k : string) (v v0 : value) (d : dict) :
  dict_get k d = Some v0 -> map fst (dict_set k v d) = map fst d.
Proof.
  induction d as [|[k' v'] d IH]; simpl; [discriminate|].
  destruct (String.eqb k k') eqn:Hk; simpl; [reflexivity|].
  intros H. now rewrite IH.
Qed.

Lemma convert_numeric_field_keys (key : string) (tx tx' : dict) :
  convert_numeric_field key tx = Ok tx' -> map fst tx' = map fst tx.
Proof.
  unfold convert_numeric_field.
  destruct (dict_get key tx) as [v|] eqn:Hv; [|intros H; now inversion H].
  destruct (isinstance_int v); [intros H; now inversion H|].
  destruct (to_native_int v); intros H; inversion H.
  eapply dict_set_keys; eauto.
Qed.

Lemma convert_numeric_fields_keys (keys : list string) :
  forall tx tx',
  convert_numeric_fields keys tx = Ok tx' -> map fst tx' = map fst tx.
Proof.
  induction keys as [|key keys IH]; simpl; intros tx tx' H.
  - now inversion H.
  - destruct (convert_numeric_field key tx) as [tx1|] eqn:H1; [|discriminate].
    rewrite (IH _ _ H). eapply convert_numeric_field_keys; eauto.
Qed.

Lemma convert_numeric_fields_fixed (keys : list string) (tx : dict) :
  (forall k v, In k keys -> dict_get k tx = Some v -> isinstance_int v = true) ->
  convert_numeric_fields keys tx = Ok tx.
Proof.
  induction keys as [|key keys IH]; simpl; intros Hn; [reflexivity|].
  assert (H1 : convert_numeric_field key tx = Ok tx).
  { unfold convert_numeric_field.
    destruct (dict_get key tx) as [v|] eqn:Hv; [|reflexivity].
    now rewrite (Hn key v (or_introl eq_refl) Hv). }
  rewrite H1. apply IH. intros k v Hin. apply Hn. now right.
Qed.

Lemma convert_numeric_fields_succeeds (keys : list string) :
  forall tx,
  (forall k v, In k keys -> dict_get k tx = Some v ->
               exists v', to_native_int v = Ok v') ->
  exists tx', convert_numeric_fields keys tx = Ok tx'.
Proof.
  induction keys as [|key keys IH]; simpl; intros tx Hc; [eauto|].
  assert (H1 : exists tx1, convert_numeric_field key tx = Ok tx1).
  { unfold convert_numeric_field.
    destruct (dict_get key tx) as [v|] eqn:Hv; [|eauto].
    destruct (isinstance_int v); [eauto|].
    destruct (Hc key v (or_introl eq_refl) Hv) as [v' ->]. eauto. }
  destruct H1 as [tx1 H1]. rewrite H1. apply IH.
  intros k v Hin Hk. destruct (String.eqb k key) eqn:E.
  - apply String.eqb_eq in E. subst k.
    destruct (dict_get key tx) as [v0|] eqn:H0.
    + destruct (convert_numeric_field_same _ _ _ _ H1 H0) as (v1 & Hv1 & Hg).
      rewrite Hk in Hg. inversion Hg; subst v1. exists v.
      apply to_native_int_keep. eapply to_native_int_isint; eauto.
    + rewrite (convert_numeric_field_absent _ _ _ _ H1 H0) in Hk. discriminate.
  - apply String.eqb_neq in E.
    rewrite (convert_numeric_field_other _ _ _ _ H1 E) in Hk.
    apply (Hc k v); auto.
Qed.

(** The conversion loop of lines 166-168 and 220-222 succeeds as soon
    as every numeric field that is present can be converted.  When it
    succeeds it keeps the keys of the transaction and every field
    outside [gas], [gasPrice], [value], [nonce], and running it again on
    its result changes nothing. *)
Theorem convert_numeric_fields_stable (tx : dict) :
  ((forall k v, In k numeric_keys -> dict_get k tx = Some v ->
                exists v', to_native_int v = Ok v') ->
   exists tx', convert_numeric_fields numeric_keys tx = Ok tx') /\
  (forall tx',
     convert_numeric_fields numeric_keys tx = Ok tx' ->
     convert_numeric_fields numeric_keys tx' = Ok tx' /\
     map fst tx' = map fst tx /\
     forall k, ~ In k numeric_keys -> dict_get k tx' = dict_get k tx).
Proof.
  split; [apply convert_numeric_fields_succeeds|].
  intros tx' H. split; [|split].
  - apply convert_numeric_fields_fixed.
    exact (convert_numeric_fields_native _ _ H).
  - eapply convert_numeric_fields_keys; eauto.
  - intros k Hk. destruct (convert_numeric_fields_get _ _ _ H k) as [Hn Hs].
    destruct (dict_get k tx) as [v|] eqn:Hv.
    + now apply (Hs v eq_refl).
    + now apply Hn.
Qed.

(** A transaction with a hexadecimal gas price. *)
Lemma convert_numeric_fields_stable_witness :
  convert_numeric_fields numeric_keys
    [("to", VStr ROUTER); ("gasPrice", VInt 1000000000)]
  = Ok [("to", VStr ROUTER); ("gasPrice", VInt 1000000000)] /\
  map fst [("to", VStr ROUTER); ("gasPrice", VInt 1000000000)]
  = map fst [("to", VStr ROUTER); ("gasPrice", VStr "0x3b9aca00")].
Proof.
  destruct (convert_numeric_fields_stable
              [("to", VStr ROUTER); ("gasPrice", VStr "0x3b9aca00")])
    as [_ H].
  destruct (H [("to", VStr ROUTER); ("gasPrice", VInt 1000000000)] eq_refl)
    as (H1 & H2 & _).
  split; assumption.
Defined.

(* ================================================================== *)
(** ** Gas and recipient in the built transactions *)
(* ================================================================== *)

Lemma eq_zero_convert (E : Env) (v : value) :
  eq_zero (convert_addresses_to_checksum E v) = eq_zero v.
Proof.
  destruct v; try reflexivity.
  destruct (convert_addresses_str E s) as (s' & -> & _). reflexivity.
Qed.

Lemma checksum_to_and_from_to (E : Env) (self : InchSwapper) (p tx1 : dict) :
  checksum_to_and_from E self p = Ok tx1 ->
  forall v, dict_get "to" tx1 = Some v -> to_checksum_address E v = Ok v.
Proof.
  unfold checksum_to_and_from. intros H v Hv.
  destruct (dict_get "to" p) as [to|] eqn:Hp.
  - destruct (to_checksum_address E to) as [to'|] eqn:Ht; inversion H; subst.
    rewrite dict_get_set_other in Hv by key_neq.
    rewrite dict_get_set_same in Hv. inversion Hv; subst.
    eapply to_checksum_address_again; eauto.
  - inversion H; subst. rewrite dict_get_set_other in Hv by key_neq.
    congruence.
Qed.

(** The approval builder never keeps the gas of the payload: the last
    call of a successful build is the gas estimate, asked for a
    candidate with [value] = 0 sent from the wallet, and [gas] in the
    returned transaction is the node's estimate, or 500000 when the node
    gave none. *)
Theorem approval_gas_is_estimated (E : Env) (self : InchSwapper)
    (token amount : value) (t t' : trace) (tx : dict) :
  build_tx_for_approve_trade_with_router E self token amount t = (Ok tx, t') ->
  exists pre cand,
    t' = (pre ++ [EvEstimateGas (rpc_url self) cand])%list /\
    dict_get "value" cand = Some (VInt 0) /\
    dict_get "from" cand = Some (VStr (wallet_address self)) /\
    dict_get "gas" tx =
      Some (VInt match eth_estimate_gas E pre (rpc_url self) cand with
                 | Ok g => g
                 | Raise _ => 500000
                 end).
Proof.
  intros H. apply build_approve_inv in H. destruct H as (payload & t0 & _ & H).
  apply enrich_approval_inv in H.
  destruct H as (p & tx1 & n & _ & _ & _ & Ht & Hc).
  eexists. eexists. split; [exact Ht|]. split; [|split].
  - rewrite dict_get_set_other by key_neq. apply dict_get_set_same.
  - apply dict_get_set_same.
  - eapply convert_numeric_fields_keeps_int; eauto. apply dict_get_set_same.
Qed.

(** The [happy] scenario, whose node estimates 46000. *)
Lemma approval_gas_is_estimated_witness :
  exists pre cand,
    snd (build_tx_for_approve_trade_with_router (scenario_env happy) demo_self
           (VStr USDC) VNone [])
    = (pre ++ [EvEstimateGas (rpc_url demo_self) cand])%list /\
    dict_get "value" cand = Some (VInt 0) /\
    dict_get "from" cand = Some (VStr (wallet_address demo_self)) /\
    dict_get "gas"
      (built (build_tx_for_approve_trade_with_router (scenario_env happy)
                demo_self (VStr USDC) VNone []))
    = Some (VInt match eth_estimate_gas (scenario_env happy) pre
                         (rpc_url demo_self) cand with
                 | Ok g => g
                 | Raise _ => 500000
                 end).
Proof.
  apply (approval_gas_is_estimated (scenario_env happy) demo_self
           (VStr USDC) VNone []).
  vm_compute. reflexivity.
Defined.

(** The swap builder keeps the gas of the payload whenever the payload
    has one that is not [== 0]: no estimate is asked for, and [gas] is
    the payload's value converted to an integer (so a gas given as the
    string "0" is built as 0).  Only when the payload has no gas, or a
    gas [== 0], is the node asked; [gas] is then its estimate, or
    500000. *)
Theorem swap_gas_policy (E : Env) (self : InchSwapper) (params : dict)
    (t t' : trace) (tx : dict) :
  build_tx_for_swap E self params t = (Ok (Some tx), t') ->
  exists fields t0,
    fetch_swap_payload E self params t = (Ok (VDict fields), t0) /\
    let t1 := (t0 ++ [EvGetTransactionCount (rpc_url self)
                        (wallet_address self)])%list in
    (forall g,
       dict_get "gas" fields = Some g -> eq_zero g = false ->
       t' = t1 /\
       exists g',
         to_native_int (convert_addresses_to_checksum E g) = Ok g' /\
         dict_get "gas" tx = Some g') /\
    (gas_missing_or_zero fields = true ->
     exists cand,
       t' = (t1 ++ [EvEstimateGas (rpc_url self) cand])%list /\
       dict_get "gas" tx =
         Some (VInt match eth_estimate_gas E t1 (rpc_url self) cand with
                    | Ok g => g
                    | Raise _ => 500000
                    end)).
Proof.
  intros H. apply build_swap_inv in H. destruct H as (payload & t0 & Hf & H).
  apply enrich_swap_inv in H.
  destruct H as (p & tx1 & n & Hp & H1 & _ & Hcases).
  destruct (convert_addresses_dict_inv _ _ _ Hp) as (fields & ->).
  exists fields, t0. split; [exact Hf|].
  destruct (convert_addresses_dict_get E "gas" fields) as (p' & Hp' & Hg).
  rewrite Hp in Hp'. inversion Hp'; subst p'. clear Hp'.
  destruct (checksum_to_and_from_get _ _ _ _ H1) as [_ Hrest].
  assert (Hgas : gas_missing_or_zero
                   (dict_set "chainId" (VInt (chain_id self))
                      (dict_set "nonce" (VInt n) tx1))
                 = gas_missing_or_zero fields).
  { unfold gas_missing_or_zero.
    rewrite !dict_get_set_other by key_neq.
    rewrite (Hrest "gas") by key_neq. rewrite Hg.
    destruct (dict_get "gas" fields); simpl; [apply eq_zero_convert|auto]. }
  assert (Hget : dict_get "gas"
                   (dict_set "chainId" (VInt (chain_id self))
                      (dict_set "nonce" (VInt n) tx1))
                 = option_map (convert_addresses_to_checksum E)
                     (dict_get "gas" fields)).
  { rewrite !dict_get_set_other by key_neq.
    rewrite (Hrest "gas") by key_neq. exact Hg. }
  simpl. split.
  - intros g Hfg Hz.
    destruct Hcases as [(Hm & _ & _)|(_ & Ht & Hc)].
    + rewrite Hgas in Hm. unfold gas_missing_or_zero in Hm.
      rewrite Hfg in Hm. congruence.
    + split; [exact Ht|].
      destruct (convert_numeric_fields_get _ _ _ Hc "gas") as [_ Hs].
      rewrite Hfg in Hget. simpl in Hget.
      destruct (Hs _ Hget) as [Hin _]. apply Hin. simpl. auto.
  - intros Hm.
    destruct Hcases as [(_ & Ht & Hc)|(Hm' & _ & _)].
    + eexists. split; [exact Ht|].
      eapply convert_numeric_fields_keeps_int; eauto.
      apply dict_get_set_same.
    + rewrite Hgas in Hm'. congruence.
Qed.

(** The [swap_gas_text] scenario: gas "0x30d40" is kept as 200000. *)
Lemma swap_gas_policy_witness :
  fst (build_tx_for_swap (scenario_env swap_gas_text) demo_self
         (swap_params_of demo_self (VStr USDC) (VStr WETH) (VStr "1000")
            (VInt 1)) []) =
  Ok (Some [("to", VStr "0x111111125421CA6DC452D289314280A0F8842A65");
            ("data", VStr "0x07ed2379"); ("gas", VInt 200000);
            ("value", VInt 0);
            ("from", VStr "0xDE709F2102306220921060314715629080E2FB77");
            ("nonce", VInt 7); ("chainId", VInt 1)]) /\
  exists fields t0,
    fetch_swap_payload (scenario_env swap_gas_text) demo_self
      (swap_params_of demo_self (VStr USDC) (VStr WETH) (VStr "1000") (VInt 1))
      [] = (Ok (VDict fields), t0).
Proof.
  split; [vm_compute; reflexivity|].
  edestruct (swap_gas_policy (scenario_env swap_gas_text) demo_self
               (swap_params_of demo_self (VStr USDC) (VStr WETH) (VStr "1000")
                  (VInt 1)) [])
    as (fields & t0 & Hf & _).
  - vm_compute. reflexivity.
  - exists fields, t0. exact Hf.
Defined.

(** In the transaction either builder returns, a [to] field holds a
    value that [to_checksum_address] leaves as it is: a checksummed
    address, or something that was never an [0x] string. *)
Theorem built_recipient_is_canonical (E : Env) (self : InchSwapper) :
  (forall token amount t tx t' v,
     build_tx_for_approve_trade_with_router E self token amount t
       = (Ok tx, t') ->
     dict_get "to" tx = Some v -> to_checksum_address E v = Ok v) /\
  (forall params t tx t' v,
     build_tx_for_swap E self params t = (Ok (Some tx), t') ->
     dict_get "to" tx = Some v -> to_checksum_address E v = Ok v).
Proof.
  assert (Hno : ~ In "to" numeric_keys).
  { simpl. intros [X|[X|[X|[X|[]]]]]; discriminate X. }
  split.
  - intros token amount t tx t' v H Hv.
    apply build_approve_inv in H. destruct H as (payload & t0 & _ & H).
    apply enrich_approval_inv in H.
    destruct H as (p & tx1 & n & _ & H1 & _ & _ & Hc).
    apply (checksum_to_and_from_to _ _ _ _ H1).
    destruct (convert_numeric_fields_get _ _ _ Hc "to") as [Hn Hs].
    rewrite !dict_get_set_other in Hn, Hs by key_neq.
    destruct (dict_get "to" tx1) as [v1|] eqn:Hto.
    + destruct (Hs v1 eq_refl) as [_ Hout]. rewrite (Hout Hno) in Hv. exact Hv.
    + rewrite (Hn eq_refl) in Hv. discriminate.
  - intros params t tx t' v H Hv.
    apply build_swap_inv in H. destruct H as (payload & t0 & _ & H).
    apply enrich_swap_inv in H.
    destruct H as (p & tx1 & n & _ & H1 & _ & [(_ & _ & Hc)|(_ & _ & Hc)]);
      apply (checksum_to_and_from_to _ _ _ _ H1);
      destruct (convert_numeric_fields_get _ _ _ Hc "to") as [Hn Hs];
      rewrite !dict_get_set_other in Hn, Hs by key_neq;
      (destruct (dict_get "to" tx1) as [v1|] eqn:Hto;
       [destruct (Hs v1 eq_refl) as [_ Hout]; rewrite (Hout Hno) in Hv;
        exact Hv
       |rewrite (Hn eq_refl) in Hv; discriminate]).
Qed.

(** The router address of the [happy] swap. *)
Lemma built_recipient_is_canonical_witness :
  to_checksum_address (scenario_env happy)
    (VStr "0x111111125421CA6DC452D289314280A0F8842A65")
  = Ok (VStr "0x111111125421CA6DC452D289314280A0F8842A65").
Proof.
  apply (proj2 (built_recipient_is_canonical (scenario_env happy) demo_self)
           (swap_params_of demo_self (VStr USDC) (VStr WETH)
              (VStr "1000000000000000000") (VInt 1)) [] swap_built
           (snd (build_tx_for_swap (scenario_env happy) demo_self
                   (swap_params_of demo_self (VStr USDC) (VStr WETH)
                      (VStr "1000000000000000000") (VInt 1)) []))).
  - vm_compute. reflexivity.
  - reflexivity.
Defined.

(* ================================================================== *)
(** ** How many calls a request can make *)
(* ================================================================== *)

Lemma count_kind_app (k : kind) (a b : list event) :
  count_kind k (a ++ b) = (count_kind k a + count_kind k b)%nat.
Proof. unfold count_kind. now rewrite filter_app, length_app. Qed.

Lemma count_kind_one (k : kind) (ev : event) :
  (count_kind k [ev] <= if kind_eqb (kind_of ev) k then 1 else 0)%nat.
Proof. unfold count_kind. simpl. destruct (kind_eqb _ _); simpl; lia. Qed.

Lemma kind_eqb_eq (a b : kind) : kind_eqb a b = true -> a = b.
Proof. destruct a, b; simpl; congruence. Qed.

Section Within.

Variable b : kind -> nat.

Lemma within_ret {A} (a : A) : within b (ret a).
Proof.
  intros t r t' H. inversion H. exists []. split; [now rewrite app_nil_r|].
  intros k. unfold count_kind. simpl. lia.
Qed.

Lemma within_raise {A} (e : exn) : within b (@raise A e).
Proof.
  intros t r t' H. inversion H. exists []. split; [now rewrite app_nil_r|].
  intros k. unfold count_kind. simpl. lia.
Qed.

Lemma within_lift {A} (x : result A) : within b (lift x).
Proof.
  intros t r t' H. inversion H. exists []. split; [now rewrite app_nil_r|].
  intros k. unfold count_kind. simpl. lia.
Qed.

Lemma within_call {A} (ev : event) (o : trace -> result A) :
  (1 <= b (kind_of ev))%nat -> within b (call ev o).
Proof.
  intros Hb t r t' H. inversion H. exists [ev]. split; auto.
  intros k. pose proof (count_kind_one k ev) as Hc.
  destruct (kind_eqb (kind_of ev) k) eqn:E; [|lia].
  apply kind_eqb_eq in E. subst k. lia.
Qed.

Lemma within_bind_post {A B} (P : A -> Prop) (b1 b2 : kind -> nat)
    (m : M A) (k : A -> M B) :
  within b1 m ->
  (forall t a t1, m t = (Ok a, t1) -> P a) ->
  (forall a, P a -> within b2 (k a)) ->
  (forall x, (b1 x + b2 x <= b x)%nat) ->
  within b (bind m k).
Proof.
  intros Hm HP Hk Hsum t r t' H. unfold bind in H.
  destruct (m t) as [[a|e] t1] eqn:Hrun.
  - destruct (Hm _ _ _ Hrun) as (evs1 & -> & F1).
    destruct (Hk a (HP _ _ _ Hrun) _ _ _ H) as (evs2 & -> & F2).
    exists (evs1 ++ evs2)%list. split; [now rewrite app_assoc|].
    intros x. rewrite count_kind_app.
    specialize (F1 x). specialize (F2 x). specialize (Hsum x). lia.
  - inversion H; subst. destruct (Hm _ _ _ Hrun) as (evs1 & -> & F1).
    exists evs1. split; auto. intros x.
    specialize (F1 x). specialize (Hsum x). lia.
Qed.

Lemma within_bind {A B} (b1 b2 : kind -> nat) (m : M A) (k : A -> M B) :
  within b1 m ->
  (forall a, within b2 (k a)) ->
  (forall x, (b1 x + b2 x <= b x)%nat) ->
  within b (bind m k).
Proof.
  intros Hm Hk. apply (within_bind_post (fun _ => True)); auto.
Qed.

Lemma within_lift_bind {A B} (x : result A) (k : A -> M B) :
  (forall a, within b (k a)) -> within b (bind (lift x) k).
Proof.
  intros Hk t r t' H. unfold bind, lift in H. destruct x as [a|e].
  - exact (Hk a _ _ _ H).
  - exact (within_raise e _ _ _ H).
Qed.

Lemma within_try_except {A} (b1 b2 : kind -> nat) (m : M A)
    (h : exn -> M A) :
  within b1 m ->
  (forall e, within b2 (h e)) ->
  (forall x, (b1 x + b2 x <= b x)%nat) ->
  within b (try_except m h).
Proof.
  intros Hm Hh Hsum t r t' H. unfold try_except in H.
  destruct (m t) as [[a|e] t1] eqn:Hrun.
  - inversion H; subst. destruct (Hm _ _ _ Hrun) as (evs1 & -> & F1).
    exists evs1. split; auto. intros x.
    specialize (F1 x). specialize (Hsum x). lia.
  - destruct (Hm _ _ _ Hrun) as (evs1 & -> & F1).
    destruct (Hh e _ _ _ H) as (evs2 & -> & F2).
    exists (evs1 ++ evs2)%list. split; [now rewrite app_assoc|].
    intros x. rewrite count_kind_app.
    specialize (F1 x). specialize (F2 x). specialize (Hsum x). lia.
Qed.

End Within.

Ltac sums := let x := fresh in intros x; destruct x; simpl; lia.

Section MethodBudgets.

Variable E : Env.
Variable self : InchSwapper.

Lemma within_check_allowance (token : value) :
  within (budget 1 1 0 0 0 0 0) (check_allowance E self token).
Proof.
  unfold check_allowance.
  apply (within_try_except _ (budget 1 1 0 0 0 0 0) (budget 0 0 0 0 0 0 0));
    [| |sums].
  - apply within_lift_bind. intros tok.
    apply (within_bind _ (budget 1 0 0 0 0 0 0) (budget 0 1 0 0 0 0 0));
      [apply within_call; simpl; lia| |sums].
    intros _.
    apply (within_bind _ (budget 0 1 0 0 0 0 0) (budget 0 0 0 0 0 0 0));
      [apply within_call; simpl; lia| |sums].
    intros resp. destruct resp; try apply within_raise. apply within_ret.
  - intros e. destruct (is_RequestException e);
      [apply within_ret|apply within_raise].
Qed.

Lemma within_estimate (tx : dict) :
  within (budget 0 0 0 1 0 0 0) (estimate_gas_or_fallback E self tx).
Proof.
  unfold estimate_gas_or_fallback.
  apply (within_try_except _ (budget 0 0 0 1 0 0 0) (budget 0 0 0 0 0 0 0));
    [| |sums].
  - apply (within_bind _ (budget 0 0 0 1 0 0 0) (budget 0 0 0 0 0 0 0));
      [apply within_call; simpl; lia| |sums].
    intros g. apply within_ret.
  - intros e. apply within_ret.
Qed.

Lemma within_enrich_approval (payload : value) :
  within (budget 0 0 1 1 0 0 0) (enrich_approval E self payload).
Proof.
  unfold enrich_approval.
  apply within_lift_bind. intros tx0. apply within_lift_bind. intros tx1.
  apply (within_bind _ (budget 0 0 1 0 0 0 0) (budget 0 0 0 1 0 0 0));
    [apply within_call; simpl; lia| |sums].
  intros n.
  apply (within_bind _ (budget 0 0 0 1 0 0 0) (budget 0 0 0 0 0 0 0));
    [apply within_estimate| |sums].
  intros tx2. apply within_lift.
Qed.

Lemma within_enrich_swap (payload : value) :
  within (budget 0 0 1 1 0 0 0) (enrich_swap E self payload).
Proof.
  unfold enrich_swap.
  apply within_lift_bind. intros tx0. apply within_lift_bind. intros tx1.
  apply (within_bind _ (budget 0 0 1 0 0 0 0) (budget 0 0 0 1 0 0 0));
    [apply within_call; simpl; lia| |sums].
  intros n.
  apply (within_bind _ (budget 0 0 0 1 0 0 0) (budget 0 0 0 0 0 0 0));
    [| |sums].
  - destruct (gas_missing_or_zero _); [apply within_estimate|apply within_ret].
  - intros tx2. apply within_lift.
Qed.

Lemma within_build_approve (token amount : value) :
  within (budget 1 1 1 1 0 0 0)
    (build_tx_for_approve_trade_with_router E self token amount).
Proof.
  unfold build_tx_for_approve_trade_with_router.
  apply (within_try_except _ (budget 1 1 1 1 0 0 0) (budget 0 0 0 0 0 0 0));
    [| |sums].
  - apply (within_bind _ (budget 1 1 0 0 0 0 0) (budget 0 0 1 1 0 0 0));
      [| |sums].
    + unfold fetch_approval_payload. apply within_lift_bind. intros tok.
      apply (within_bind _ (budget 1 0 0 0 0 0 0) (budget 0 1 0 0 0 0 0));
        [apply within_call; simpl; lia| |sums].
      intros _. apply within_call. simpl. lia.
    + intros payload. apply within_enrich_approval.
  - intros e. apply within_raise.
Qed.

Lemma within_build_swap (params : dict) :
  within (budget 1 1 1 1 0 0 0) (build_tx_for_swap E self params).
Proof.
  unfold build_tx_for_swap.
  apply (within_try_except _ (budget 1 1 1 1 0 0 0) (budget 0 0 0 0 0 0 0));
    [| |sums].
  - apply (within_bind _ (budget 1 1 0 0 0 0 0) (budget 0 0 1 1 0 0 0));
      [| |sums].
    + unfold fetch_swap_payload.
      do 6 (apply within_lift_bind; intros ?).
      apply (within_bind _ (budget 1 0 0 0 0 0 0) (budget 0 1 0 0 0 0 0));
        [apply within_call; simpl; lia| |sums].
      intros _.
      apply (within_bind _ (budget 0 1 0 0 0 0 0) (budget 0 0 0 0 0 0 0));
        [apply within_call; simpl; lia| |sums].
      intros resp. apply within_lift.
    + intros payload.
      apply (within_bind _ (budget 0 0 1 1 0 0 0) (budget 0 0 0 0 0 0 0));
        [apply within_enrich_swap| |sums].
      intros tx. apply within_ret.
  - intros e. apply within_ret.
Qed.

Lemma within_sign_and_send (tx : dict) :
  within (budget 0 0 0 0 1 1 0) (sign_and_send_transaction E self tx).
Proof.
  unfold sign_and_send_transaction.
  apply (within_try_except _ (budget 0 0 0 0 1 1 0) (budget 0 0 0 0 0 0 0));
    [| |sums].
  - apply (within_bind _ (budget 0 0 0 0 1 0 0) (budget 0 0 0 0 0 1 0));
      [apply within_call; simpl; lia| |sums].
    intros raw.
    apply (within_bind _ (budget 0 0 0 0 0 1 0) (budget 0 0 0 0 0 0 0));
      [apply within_call; simpl; lia| |sums].
    intros sent. apply within_ret.
  - intros e. apply within_raise.
Qed.

Lemma within_swap_phase (r : SwapOutcome) (src dst amount slippage : value) :
  within (budget 2 1 1 1 1 1 0)
    (swap_phase E self r src dst amount slippage).
Proof.
  unfold swap_phase.
  apply (within_bind _ (budget 1 0 0 0 0 0 0) (budget 1 1 1 1 1 1 0));
    [apply within_call; simpl; lia| |sums].
  intros _.
  apply (within_bind _ (budget 1 1 1 1 0 0 0) (budget 0 0 0 0 1 1 0));
    [apply within_build_swap| |sums].
  intros [tx|]; [|apply within_ret].
  destruct (truthy (VDict tx)); [|apply within_ret].
  apply (within_bind _ (budget 0 0 0 0 1 1 0) (budget 0 0 0 0 0 0 0));
    [apply within_sign_and_send| |sums].
  intros h. destruct (truthy (VStr h)); apply within_ret.
Qed.

Lemma within_approval_phase (r : SwapOutcome)
    (src dst amount slippage : value) :
  within (budget 3 2 2 2 2 2 1)
    (approval_phase E self r src dst amount slippage).
Proof.
  unfold approval_phase. destruct AUTO_APPROVE; [|apply within_ret].
  apply (within_bind _ (budget 1 1 1 1 0 0 0) (budget 2 1 1 1 2 2 1));
    [apply within_build_approve| |sums].
  intros tx. destruct (truthy (VDict tx)); [|apply within_ret].
  apply (within_bind _ (budget 0 0 0 0 1 1 0) (budget 2 1 1 1 1 1 1));
    [apply within_sign_and_send| |sums].
  intros h. destruct (truthy (VStr h)); [|apply within_ret].
  apply (within_bind _ (budget 0 0 0 0 0 0 1) (budget 2 1 1 1 1 1 0));
    [apply within_call; simpl; lia| |sums].
  intros _. apply within_swap_phase.
Qed.

End MethodBudgets.

(** One request makes a bounded number of calls, whether it succeeds,
    fails or raises: at most three requests to the quoting service, two
    transaction counts, two gas estimates, two signatures, two
    broadcasts, one receipt wait and four pauses.  Nothing is retried.
    When the allowance covers the amount the bounds are two requests,
    one signature, one broadcast and no receipt wait. *)
Theorem perform_swap_call_budget (E : Env) (self : InchSwapper)
    (src dst amount slippage : value) (t : trace) :
  (forall r t',
     perform_swap E self src dst amount slippage t = (r, t') ->
     exists evs, t' = (t ++ evs)%list /\
       forall k, (count_kind k evs <= budget 4 3 2 2 2 2 1 k)%nat) /\
  (forall src' dst' have need t1 r t',
     allowance_known E self src dst amount t src' dst' have need t1 ->
     need <= have ->
     perform_swap E self src dst amount slippage t = (r, t') ->
     exists evs, t' = (t ++ evs)%list /\
       forall k, (count_kind k evs <= budget 3 2 1 1 1 1 0 k)%nat).
Proof.
  split.
  - assert (H : within (budget 4 3 2 2 2 2 1)
                  (perform_swap E self src dst amount slippage)).
    { unfold perform_swap.
      apply within_lift_bind. intros src'. apply within_lift_bind. intros dst'.
      apply (within_bind _ (budget 1 1 0 0 0 0 0) (budget 3 2 2 2 2 2 1));
        [apply within_check_allowance| |sums].
      intros al. apply within_lift_bind. intros have.
      apply within_lift_bind. intros need.
      destruct (have <? need); [apply within_approval_phase|].
      intros t0 r t' Hp.
      destruct (within_swap_phase E self _ _ _ _ _ _ _ _ Hp) as (evs & -> & F).
      exists evs. split; auto. intros k. specialize (F k).
      destruct k; simpl in *; lia. }
    exact (H t).
  - intros src' dst' have need t1 r t' Hk Hle Hp.
    rewrite (perform_swap_decision _ _ _ _ _ _ _ _ _ _ _ _ Hk) in Hp.
    apply Z.ltb_ge in Hle. rewrite Hle in Hp.
    destruct Hk as (_ & _ & al & Hc & _).
    destruct (within_check_allowance E self _ _ _ _ Hc) as (evs1 & -> & F1).
    destruct (within_swap_phase E self _ _ _ _ _ _ _ _ Hp) as (evs2 & -> & F2).
    exists (evs1 ++ evs2)%list. split; [now rewrite app_assoc|].
    intros k. rewrite count_kind_app. specialize (F1 k). specialize (F2 k).
    destruct k; simpl in *; lia.
Qed.

(** The [allowed] scenario: no approval is needed. *)
Lemma perform_swap_call_budget_witness :
  exists evs,
    snd (perform_swap (scenario_env allowed) demo_self (VStr USDC) (VStr WETH)
           (VStr "1000") (VInt 1) []) = ([] ++ evs)%list /\
    forall k, (count_kind k evs <= budget 3 2 1 1 1 1 0 k)%nat.
Proof.
  edestruct (perform_swap_call_budget (scenario_env allowed) demo_self
               (VStr USDC) (VStr WETH) (VStr "1000") (VInt 1) []) as [_ H].
  eapply H.
  - unfold allowance_known. split; [vm_compute; reflexivity|].
    split; [vm_compute; reflexivity|].
    eexists. split; [vm_compute; reflexivity|].
    split; vm_compute; reflexivity.
  - vm_compute. discriminate.
  - apply surjective_pairing.
Defined.

(* ================================================================== *)
(** ** What is signed, and what is asked of the quoting service *)
(* ================================================================== *)

Section SignedProperty.

Variable E : Env.
Variable self : InchSwapper.

(** A property of transactions that both builders establish and that
    the gas guard of the signer keeps. *)
Variable S : dict -> Prop.
Hypothesis S_approve :
  forall token amount t tx t',
    build_tx_for_approve_trade_with_router E self token amount t = (Ok tx, t') ->
    S (ensure_gas tx).
Hypothesis S_swap :
  forall params t tx t',
    build_tx_for_swap E self params t = (Ok (Some tx), t') ->
    S (ensure_gas tx).

Let signed_S (ev : event) : Prop :=
  match ev with EvSignTransaction tx => S tx | _ => True end.

Lemma signed_S_benign (ev : event) : benign ev -> signed_S ev.
Proof. destruct ev; simpl; tauto. Qed.

Lemma emits_swap_phase_S (r : SwapOutcome) (src dst amount slippage : value) :
  emits signed_S (swap_phase E self r src dst amount slippage).
Proof.
  unfold swap_phase. apply emits_bind.
  { apply emits_sleep, signed_S_benign. }
  intros _.
  apply (emits_bind_post signed_S
           (fun o => forall tx, o = Some tx -> S (ensure_gas tx))).
  - apply emits_build_swap; [apply signed_S_benign|exact (fun _ => I)].
  - intros t o t1 H tx ->. eapply S_swap; eauto.
  - intros [tx|] Htx; [|apply emits_ret].
    destruct (truthy (VDict tx)); [|apply emits_ret].
    apply emits_bind.
    + apply emits_sign_and_send; [|exact (fun _ _ => I)]. now apply Htx.
    + intros h. destruct (truthy (VStr h)); apply emits_ret.
Qed.

Lemma emits_perform_swap_S (src dst amount slippage : value) :
  emits signed_S (perform_swap E self src dst amount slippage).
Proof.
  unfold perform_swap.
  apply emits_bind; [apply emits_lift|intros src'].
  apply emits_bind; [apply emits_lift|intros dst'].
  apply emits_bind.
  { apply emits_check_allowance; [apply signed_S_benign|exact (fun _ => I)]. }
  intros al.
  apply emits_bind; [apply emits_lift|intros have].
  apply emits_bind; [apply emits_lift|intros need].
  destruct (have <? need); [|apply emits_swap_phase_S].
  unfold approval_phase. destruct AUTO_APPROVE; [|apply emits_ret].
  apply (emits_bind_post signed_S (fun tx => S (ensure_gas tx))).
  - apply emits_build_approve; [apply signed_S_benign|exact (fun _ => I)].
  - intros t tx t1 H. eapply S_approve; eauto.
  - intros tx Htx. destruct (truthy (VDict tx)); [|apply emits_ret].
    apply emits_bind.
    + apply emits_sign_and_send; [exact Htx|exact (fun _ _ => I)].
    + intros h. destruct (truthy (VStr h)); [|apply emits_ret].
      apply emits_bind; [apply emits_call; exact I|].
      intros _. apply emits_swap_phase_S.
Qed.

End SignedProperty.

Lemma built_approve_sender (E : Env) (self : InchSwapper)
    (token amount : value) (t t' : trace) (tx : dict) :
  build_tx_for_approve_trade_with_router E self token amount t = (Ok tx, t') ->
  sent_from self (ensure_gas tx).
Proof.
  intros H. apply build_approve_inv in H. destruct H as (payload & t0 & _ & H).
  destruct (proj1 (enrichment_fields E self) _ _ _ _ H)
    as (Hf & (n & _ & Hn) & Hc & _).
  unfold sent_from. rewrite !ensure_gas_other by key_neq. eauto.
Qed.

Lemma built_swap_sender (E : Env) (self : InchSwapper)
    (params : dict) (t t' : trace) (tx : dict) :
  build_tx_for_swap E self params t = (Ok (Some tx), t') ->
  sent_from self (ensure_gas tx).
Proof.
  intros H. apply build_swap_inv in H. destruct H as (payload & t0 & _ & H).
  destruct (proj2 (enrichment_fields E self) _ _ _ _ H)
    as (Hf & (n & _ & Hn) & Hc & _).
  unfold sent_from. rewrite !ensure_gas_other by key_neq. eauto.
Qed.

(** Whatever the quoting service answers, every transaction that a run
    of [perform_swap] hands to the signer is sent from the swapper's
    wallet, on the swapper's chain, with an integer nonce: a payload
    cannot redirect the signature to another sender or chain. *)
Theorem signed_transactions_are_ours (E : Env) (self : InchSwapper)
    (src dst amount slippage : value) (t t' : trace)
    (r : result SwapOutcome) :
  perform_swap E self src dst amount slippage t = (r, t') ->
  exists evs, t' = (t ++ evs)%list /\
    forall tx, In (EvSignTransaction tx) evs ->
      dict_get "from" tx = Some (VStr (wallet_address self)) /\
      dict_get "chainId" tx = Some (VInt (chain_id self)) /\
      exists n, dict_get "nonce" tx = Some (VInt n).
Proof.
  intros H.
  destruct (emits_perform_swap_S E self (sent_from self)
              (fun token amt t0 tx t1 =>
                 built_approve_sender E self token amt t0 t1 tx)
              (fun params t0 tx t1 =>
                 built_swap_sender E self params t0 t1 tx)
              _ _ _ _ _ _ _ H) as (evs & -> & F).
  exists evs. split; auto. intros tx Hin.
  rewrite Forall_forall in F. exact (F _ Hin).
Qed.

(** The [happy] run. *)
Lemma signed_transactions_are_ours_witness :
  exists evs,
    snd (perform_swap (scenario_env happy) demo_self (VStr USDC) (VStr WETH)
           (VStr "1000000000000000000") (VInt 1) []) = ([] ++ evs)%list /\
    forall tx, In (EvSignTransaction tx) evs ->
      dict_get "from" tx = Some (VStr (wallet_address demo_self)) /\
      dict_get "chainId" tx = Some (VInt (chain_id demo_self)) /\
      exists n, dict_get "nonce" tx = Some (VInt n).
Proof.
  apply (signed_transactions_are_ours (scenario_env happy) demo_self
           (VStr USDC) (VStr WETH) (VStr "1000000000000000000") (VInt 1) []
           _ (fst (perform_swap (scenario_env happy) demo_self (VStr USDC)
                     (VStr WETH) (VStr "1000000000000000000") (VInt 1) []))).
  apply surjective_pairing.
Defined.

Section ApprovalRequest.

Variable E : Env.
Variable self : InchSwapper.
Variable token : value.

Lemma approval_request_for_benign (ev : event) :
  benign ev -> approval_request_for E self token ev.
Proof. destruct ev; simpl; try tauto; intros _ ps H; discriminate H. Qed.

Lemma approval_request_for_other (ev : event) :
  match ev with EvHttpGet _ => False | _ => True end ->
  approval_request_for E self token ev.
Proof. destruct ev; simpl; try tauto; intros _ ps H; discriminate H. Qed.

Lemma emits_build_approve_exact :
  to_checksum_address E token = Ok token ->
  emits (approval_request_for E self token)
    (build_tx_for_approve_trade_with_router E self token VNone).
Proof.
  intros Ht. unfold build_tx_for_approve_trade_with_router.
  apply emits_try_except; [|intros e; apply emits_raise].
  apply emits_bind;
    [|intros payload; apply emits_enrich_approval;
      apply approval_request_for_benign].
  unfold fetch_approval_payload.
  apply (emits_bind_post _ (fun a => a = token)).
  - apply emits_lift.
  - intros t a t1 H. apply lift_Ok in H. destruct H as [H _].
    rewrite Ht in H. now inversion H.
  - intros a ->. simpl. apply emits_bind.
    + apply emits_call. apply approval_request_for_benign. exact I.
    + intros _. unfold requests_get. apply emits_call.
      intros ps _. reflexivity.
Qed.

Lemma emits_swap_phase_approval_request (r : SwapOutcome)
    (src dst amount slippage : value) :
  emits (approval_request_for E self token)
    (swap_phase E self r src dst amount slippage).
Proof.
  unfold swap_phase. apply emits_bind.
  { apply emits_sleep, approval_request_for_benign. }
  intros _. apply emits_bind.
  - apply emits_build_swap; [apply approval_request_for_benign|].
    intros ps ps' H. inversion H as [Hu].
    now contradiction (swap_url_not_approval E self ps ps').
  - intros [tx|]; [|apply emits_ret].
    destruct (truthy (VDict tx)); [|apply emits_ret].
    apply emits_bind.
    + apply emits_sign_and_send;
        [|intros rpc raw]; now apply approval_request_for_other.
    + intros h. destruct (truthy (VStr h)); apply emits_ret.
Qed.

Lemma emits_approval_phase_approval_request (r : SwapOutcome)
    (dst amount slippage : value) :
  to_checksum_address E token = Ok token ->
  emits (approval_request_for E self token)
    (approval_phase E self r token dst amount slippage).
Proof.
  intros Ht. unfold approval_phase. destruct AUTO_APPROVE; [|apply emits_ret].
  apply emits_bind; [now apply emits_build_approve_exact|].
  intros tx. destruct (truthy (VDict tx)); [|apply emits_ret].
  apply emits_bind.
  - apply emits_sign_and_send;
      [|intros rpc raw]; now apply approval_request_for_other.
  - intros h. destruct (truthy (VStr h)); [|apply emits_ret].
    apply emits_bind.
    + apply emits_call. now apply approval_request_for_other.
    + intros _. apply emits_swap_phase_approval_request.
Qed.

End ApprovalRequest.

(** The only request for an approval payload that a run of
    [perform_swap] makes names the source token and nothing else: no
    [amount] is passed, so the approval that is built and signed is the
    one the quoting service gives for an unspecified amount, whatever
    the amount of the swap. *)
Theorem approval_request_names_token_only (E : Env) (self : InchSwapper)
    (src dst amount slippage src' dst' : value) (have need : Z)
    (t t1 t' : trace) (r : result SwapOutcome) :
  allowance_known E self src dst amount t src' dst' have need t1 ->
  perform_swap E self src dst amount slippage t = (r, t') ->
  (exists evs, t' = (t ++ evs)%list /\
     forall ps,
       In (EvHttpGet (api_request_url E self "/approve/transaction" ps)) evs ->
       api_request_url E self "/approve/transaction" ps
       = approval_url E self src') /\
  (forall c, src' = VStr c ->
     approval_url E self src'
     = api_base_url self ++ "/approve/transaction?tokenAddress=" ++ c).
Proof.
  intros Hk H.
  assert (Hs' : to_checksum_address E src' = Ok src').
  { destruct Hk as (Hs & _). eapply to_checksum_address_again; eauto. }
  split.
  - rewrite (perform_swap_decision _ _ _ _ _ _ _ _ _ _ _ _ Hk) in H.
    destruct Hk as (_ & _ & al & Hc & _).
    destruct (emits_check_allowance E self (approval_request_for E self src')
                (approval_request_for_benign E self src') src'
                (fun ps ps' Heq =>
                   match allowance_url_not_approval E self ps ps'
                           (f_equal (fun ev => match ev with
                                               | EvHttpGet u => u
                                               | _ => EmptyString
                                               end) Heq)
                   with end)
                _ _ _ Hc) as (evs1 & -> & F1).
    assert (Hrest : exists evs2, t' = ((t ++ evs1) ++ evs2)%list /\
                      Forall (approval_request_for E self src') evs2).
    { destruct (have <? need).
      - eapply emits_approval_phase_approval_request; eauto.
      - eapply emits_swap_phase_approval_request; eauto. }
    destruct Hrest as (evs2 & -> & F2).
    exists (evs1 ++ evs2)%list. split; [now rewrite app_assoc|].
    intros ps Hin.
    assert (F : Forall (approval_request_for E self src') (evs1 ++ evs2)%list)
      by now apply Forall_app.
    rewrite Forall_forall in F. specialize (F _ Hin ps eq_refl).
    now inversion F.
  - intros c ->. unfold approval_url, api_request_url. cbn [map].
    unfold convert_param. rewrite Hs'. simpl. reflexivity.
Qed.

(** The [happy] run. *)
Lemma approval_request_names_token_only_witness :
  approval_url (scenario_env happy) demo_self
    (VStr "0xA0B86991C6218B36C1D19D4A2E9EB0CE3606EB48")
  = api_base_url demo_self ++ "/approve/transaction?tokenAddress="
    ++ "0xA0B86991C6218B36C1D19D4A2E9EB0CE3606EB48".
Proof.
  edestruct (approval_request_names_token_only (scenario_env happy) demo_self
               (VStr USDC) (VStr WETH) (VStr "1000000000000000000") (VInt 1))
    with (t := @nil event) as [_ H].
  - unfold allowance_known. split; [vm_compute; reflexivity|].
    split; [vm_compute; reflexivity|].
    eexists. split; [vm_compute; reflexivity|].
    split; vm_compute; reflexivity.
  - apply surjective_pairing.
  - apply H. reflexivity.
Defined.
